(** * Reading-session simulator (Proyecto1/01_simular_datos_lectura.py)

    A shallow embedding of [SimuladorSesionesLectura] and of the run-time
    services it relies on, followed by the properties of the generated
    session sequences.

    Modelling conventions.
    - Python [int] is [Z].  Python [float] is an extended rational
      ([pyfloat]): a rational, NaN or an infinity.  The adjusted
      abandonment probability, [float(int)] and [timedelta(minutes=...)]
      round to binary64 as the interpreter does ([Binary64]); the
      durations, page targets and percentages of the generators are
      computed on the rationals themselves.
    - The process-wide numpy generator is an explicit state [G] threaded
      through every call, behind the interface [RandomState].
    - [datetime.now()] is an explicit clock reading, and the interpreter's
      per-process string-hash secret is an explicit [HashSecret].
    - A pandas row is a record of optional dynamically typed cells.
    - A [datetime] carries an unbounded day ordinal: the [OverflowError]
      of a date past 9999-12-31 is not represented, and the generators
      are modelled for the page counts the dispatch passes them
      ([num_pages >= 1]). *)

From Stdlib Require Import ZArith QArith Qabs Qround Qminmax Qpower Qreduction.
From Stdlib Require Import Lqa Lia.
From Stdlib Require Qcanon.
From Stdlib Require Import List String Ascii Bool DecimalString.
Import ListNotations.

Local Open Scope Z_scope.

(** ** Python values *)

Module Py.

(** A Python float: a rational, NaN, or an infinity. *)
Inductive pyfloat : Type :=
| FNum (q : Q)
| FNaN
| FInf
| FNegInf.

(** A cell of a row (or any dynamically typed value the simulator reads). *)
Inductive pyval : Type :=
| PInt (z : Z)
| PFloat (f : pyfloat)
| PStr (s : string)
| PNone.

Inductive Exn : Type :=
| ValueError
| TypeError
| OverflowError.

(** [a < b] on floats; every comparison with NaN is false. *)
Definition f_lt (a b : pyfloat) : bool :=
  match a, b with
  | FNaN, _ | _, FNaN => false
  | FNum x, FNum y => if Qlt_le_dec x y then true else false
  | FNum _, FInf => true
  | FNum _, FNegInf => false
  | FInf, _ => false
  | FNegInf, FNegInf => false
  | FNegInf, _ => true
  end.

Definition f_le (a b : pyfloat) : bool :=
  match a, b with
  | FNaN, _ | _, FNaN => false
  | FNum x, FNum y => if Qlt_le_dec y x then false else true
  | _, FInf => true
  | FNegInf, _ => true
  | FInf, _ => false
  | FNum _, FNegInf => false
  end.

Definition f_eqb (a b : pyfloat) : bool :=
  match a, b with
  | FNum x, FNum y => Qeq_bool x y
  | FInf, FInf => true
  | FNegInf, FNegInf => true
  | _, _ => false
  end.

Definition f_neg (a : pyfloat) : pyfloat :=
  match a with
  | FNum x => FNum (- x)
  | FNaN => FNaN
  | FInf => FNegInf
  | FNegInf => FInf
  end.

(** [abs(a)] *)
Definition f_abs (a : pyfloat) : pyfloat :=
  match a with
  | FNum x => FNum (Qabs x)
  | FNaN => FNaN
  | FInf | FNegInf => FInf
  end.

Definition f_add (a b : pyfloat) : pyfloat :=
  match a, b with
  | FNaN, _ | _, FNaN => FNaN
  | FNum x, FNum y => FNum (x + y)
  | FInf, FNegInf | FNegInf, FInf => FNaN
  | FInf, _ | _, FInf => FInf
  | FNegInf, _ | _, FNegInf => FNegInf
  end.

Definition f_sub (a b : pyfloat) : pyfloat := f_add a (f_neg b).

(** The sign of a rational as an infinity factor: inf * q. *)
Definition inf_times (q : Q) : pyfloat :=
  if Qlt_le_dec 0 q then FInf
  else if Qlt_le_dec q 0 then FNegInf
  else FNaN.

Definition f_mul (a b : pyfloat) : pyfloat :=
  match a, b with
  | FNaN, _ | _, FNaN => FNaN
  | FNum x, FNum y => FNum (x * y)
  | FInf, FNum y | FNum y, FInf => inf_times y
  | FNegInf, FNum y | FNum y, FNegInf => f_neg (inf_times y)
  | FInf, FInf | FNegInf, FNegInf => FInf
  | FInf, FNegInf | FNegInf, FInf => FNegInf
  end.

(** The builtins [min(a, b)] and [max(a, b)]: the first argument is kept
    unless the second compares strictly below (above) it. *)
Definition py_min (a b : pyfloat) : pyfloat := if f_lt b a then b else a.
Definition py_max (a b : pyfloat) : pyfloat := if f_lt a b then b else a.

(** Equality of floats up to the representation of the rational. *)
Definition f_equiv (a b : pyfloat) : Prop :=
  match a, b with
  | FNum x, FNum y => x == y
  | FNaN, FNaN | FInf, FInf | FNegInf, FNegInf => True
  | _, _ => False
  end.

(** [int(x)] on a rational: truncation towards zero. *)
Definition trunc (q : Q) : Z := Z.quot (Qnum q) (Z.pos (Qden q)).

(** [int(f)] on a float. *)
Definition int_of_float (f : pyfloat) : Exn + Z :=
  match f with
  | FNum q => inr (trunc q)
  | FNaN => inl ValueError
  | FInf | FNegInf => inl OverflowError
  end.

(** The numeric reading of a value, when it has one. *)
Definition as_float (v : pyval) : option pyfloat :=
  match v with
  | PInt z => Some (FNum (inject_Z z))
  | PFloat f => Some f
  | PStr _ | PNone => None
  end.

(** [v == c] against a number never raises. *)
Definition py_eq_num (v : pyval) (c : Q) : bool :=
  match as_float v with
  | Some f => f_eqb f (FNum c)
  | None => false
  end.

(** Ordering a value against a number raises [TypeError] on a string or
    on [None]. *)
Definition py_ge_num (v : pyval) (c : Q) : Exn + bool :=
  match as_float v with
  | Some f => inr (f_le (FNum c) f)
  | None => inl TypeError
  end.

Definition py_le_num (v : pyval) (c : Q) : Exn + bool :=
  match as_float v with
  | Some f => inr (f_le f (FNum c))
  | None => inl TypeError
  end.

(** [pd.isna(v)] on a scalar. *)
Definition isna (v : pyval) : bool :=
  match v with
  | PNone => true
  | PFloat FNaN => true
  | _ => false
  end.

Definition notna (v : pyval) : bool := negb (isna v).

(** [int(v)] on a value with a numeric reading ([int(None)] raises
    [TypeError]; no call site of the simulator applies [int] to a string
    that was not first ordered against a number, which already raises). *)
Definition py_int (v : pyval) : Exn + Z :=
  match as_float v with
  | Some f => int_of_float f
  | None => inl TypeError
  end.

(** [str(n)] for an integer: its decimal numeral. *)
Definition str_of_int (n : Z) : string := NilZero.string_of_int (Z.to_int n).

End Py.
Export Py.

(** ** binary64

    The rounding of IEEE 754 double precision on the rationals: 53
    significant bits, exponents from -1022 (below which the spacing stays
    at 2^-1074) and round to nearest, ties to even.  The sign of zero is
    not tracked. *)

Module Binary64.

(** Rounding to the nearest integer, ties to even. *)
Definition round_half_even (q : Q) : Z :=
  let f := Qfloor q in
  let r := (q - inject_Z f)%Q in
  if Qlt_le_dec r (1 # 2) then f
  else if Qlt_le_dec (1 # 2) r then f + 1
  else if Z.even f then f else f + 1.

Definition pow2 (e : Z) : Q := (2 ^ e)%Q.

(** The exponent of a positive rational: the [e] with [2^e <= q < 2^(e+1)]. *)
Definition exponente (q : Q) : Z :=
  let k := Z.log2 (Qnum q) - Z.log2 (Z.pos (Qden q)) in
  if Qle_bool (pow2 k) q then k else k - 1.

(** The nearest multiple of the spacing at [q], which may reach 2^1024. *)
Definition redondear (q : Q) : Q :=
  if Qeq_bool q 0 then 0%Q
  else
    let e := Z.max (exponente (Qabs q)) (-1022) in
    let ulp := pow2 (e - 52) in
    Qred (inject_Z (round_half_even (q / ulp)) * ulp).

(** The float a rational rounds to; a result of magnitude 2^1024 is an
    infinity. *)
Definition b64 (q : Q) : pyfloat :=
  let r := redondear q in
  if Qle_bool (pow2 1024) r then FInf
  else if Qle_bool r (- pow2 1024) then FNegInf
  else FNum r.

(** A float literal of the source. *)
Definition lit (q : Q) : pyfloat := b64 q.

Definition fl (f : pyfloat) : pyfloat :=
  match f with
  | FNum q => b64 q
  | _ => f
  end.

(** [a + b], [a - b] and [a * b] on floats. *)
Definition fl_add (a b : pyfloat) : pyfloat := fl (f_add a b).
Definition fl_sub (a b : pyfloat) : pyfloat := fl (f_sub a b).
Definition fl_mul (a b : pyfloat) : pyfloat := fl (f_mul a b).

End Binary64.
Export Binary64.

(** ** The interpreter's string hash

    [hash(s)] on a [str] is SipHash-1-3 (CPython 3.11 and later) over the
    bytes of the string, keyed by a 128-bit secret that the interpreter
    draws when the process starts (or derives from [PYTHONHASHSEED]). *)

Module Hash.

Record HashSecret : Type := { k0 : Z; k1 : Z }.

Definition wrap64 (x : Z) : Z := x mod 2 ^ 64.

Definition rotl (x b : Z) : Z :=
  wrap64 (Z.lor (Z.shiftl x b) (Z.shiftr x (64 - b))).

Record sipstate : Type := { v0 : Z; v1 : Z; v2 : Z; v3 : Z }.

(** [HALF_ROUND(a,b,c,d,s,t)] returns the new [(a,b,c,d)]. *)
Definition half_round (a b c d s t : Z) : Z * Z * Z * Z :=
  let a := wrap64 (a + b) in
  let c := wrap64 (c + d) in
  let b := Z.lxor (rotl b s) a in
  let d := Z.lxor (rotl d t) c in
  let a := rotl a 32 in
  (a, b, c, d).

Definition single_round (st : sipstate) : sipstate :=
  let '(a0, a1, a2, a3) := half_round (v0 st) (v1 st) (v2 st) (v3 st) 13 16 in
  let '(b2, b1, b0, b3) := half_round a2 a1 a0 a3 17 21 in
  {| v0 := b0; v1 := b1; v2 := b2; v3 := b3 |}.

(** Little-endian value of a block of bytes. *)
Fixpoint le_bytes (bs : list Z) : Z :=
  match bs with
  | [] => 0
  | b :: r => b + 256 * le_bytes r
  end.

Definition absorb (st : sipstate) (m : Z) : sipstate :=
  let st := {| v0 := v0 st; v1 := v1 st; v2 := v2 st; v3 := Z.lxor (v3 st) m |} in
  let st := single_round st in
  {| v0 := Z.lxor (v0 st) m; v1 := v1 st; v2 := v2 st; v3 := v3 st |}.

Definition finish (st : sipstate) (b : Z) : Z :=
  let st := absorb st b in
  let st := {| v0 := v0 st; v1 := v1 st; v2 := Z.lxor (v2 st) 255; v3 := v3 st |} in
  let st := single_round (single_round (single_round st)) in
  Z.lxor (Z.lxor (v0 st) (v1 st)) (Z.lxor (v2 st) (v3 st)).

(** The main loop: whole 8-byte words first, then the tail together with
    the length byte. *)
Fixpoint sip_blocks (len : Z) (st : sipstate) (bs : list Z) : Z :=
  match bs with
  | b0 :: b1 :: b2 :: b3 :: b4 :: b5 :: b6 :: b7 :: r =>
      sip_blocks len (absorb st (le_bytes [b0; b1; b2; b3; b4; b5; b6; b7])) r
  | tail =>
      finish st (Z.lor (wrap64 (Z.shiftl len 56)) (le_bytes tail))
  end.

Definition siphash13 (key : HashSecret) (bs : list Z) : Z :=
  sip_blocks (Z.of_nat (List.length bs))
    {| v0 := Z.lxor (k0 key) 0x736f6d6570736575;
       v1 := Z.lxor (k1 key) 0x646f72616e646f6d;
       v2 := Z.lxor (k0 key) 0x6c7967656e657261;
       v3 := Z.lxor (k1 key) 0x7465646279746573 |} bs.

Definition bytes_of_string (s : string) : list Z :=
  List.map (fun c => Z.of_N (N_of_ascii c)) (list_ascii_of_string s).

(** [hash(s)]: the empty string hashes to 0, the result is read as a signed
    64-bit integer, and -1 is replaced by -2. *)
Definition py_hash_str (key : HashSecret) (s : string) : Z :=
  match bytes_of_string s with
  | [] => 0
  | bs =>
      let u := siphash13 key bs in
      let h := if u <? 2 ^ 63 then u else u - 2 ^ 64 in
      if h =? -1 then -2 else h
  end.

(** The secrets the interpreter derives from [PYTHONHASHSEED=1] and
    [PYTHONHASHSEED=2]. *)
Definition secreto_1 : HashSecret :=
  {| k0 := 12598376723466036009; k1 := 16999324916296290386 |}.
Definition secreto_2 : HashSecret :=
  {| k0 := 4611336564914921517; k1 := 11932672506142756049 |}.

End Hash.
Export Hash.


(** ** Dates and times *)

Module Datetime.

(** A naive [datetime]: the proleptic Gregorian ordinal of its date and
    its time of day. *)
Record datetime : Type := {
  ordinal : Z;
  hour : Z;
  minute : Z;
  second : Z;
  microsecond : Z
}.

(** [d.weekday()]: 0 is Monday, 6 is Sunday. *)
Definition weekday (d : datetime) : Z := (ordinal d + 6) mod 7.

(** [d + timedelta(days=n)] *)
Definition add_days (d : datetime) (n : Z) : datetime :=
  {| ordinal := ordinal d + n; hour := hour d; minute := minute d;
     second := second d; microsecond := microsecond d |}.

(** [d.replace(hour=h, minute=m, second=s)] *)
Definition replace (d : datetime) (h m s : Z) : datetime :=
  {| ordinal := ordinal d; hour := h; minute := m; second := s;
     microsecond := microsecond d |}.

(** Microseconds since the start of ordinal day 0; datetimes compare as
    these keys do. *)
Definition dt_key (d : datetime) : Z :=
  (((ordinal d * 24 + hour d) * 60 + minute d) * 60 + second d) * 1000000
  + microsecond d.

Definition of_key (k : Z) : datetime :=
  {| ordinal := k / 86400000000;
     hour := (k / 3600000000) mod 24;
     minute := (k / 60000000) mod 60;
     second := (k / 1000000) mod 60;
     microsecond := k mod 1000000 |}.

Definition dt_lt (a b : datetime) : Prop := dt_key a < dt_key b.
Definition dt_le (a b : datetime) : Prop := dt_key a <= dt_key b.

(** The microseconds of [timedelta(minutes=m)] for a float [m].  The
    constructor splits [m] into its integer and fractional parts, converts
    the integer part exactly, multiplies the fractional part by 60000000
    in binary64 and rounds that product to whole microseconds, ties to
    even. *)
Definition timedelta_minutes (m : Q) : Z :=
  let intpart := trunc m in
  let fracpart := (m - inject_Z intpart)%Q in
  intpart * 60000000 + round_half_even (redondear (fracpart * 60000000)).

(** [d + timedelta(minutes=m)] *)
Definition add_minutes (d : datetime) (m : Q) : datetime :=
  of_key (dt_key d + timedelta_minutes m).

End Datetime.
Export Datetime.

(** ** The numpy generator *)

(** The draws the simulator asks of [np.random], each returning the value
    and the next generator state, with the ranges numpy guarantees. *)
Class RandomState (G : Type) : Type := {
  (** [np.random.randint(low, high)]: an integer in [low, high). *)
  randint : Z -> Z -> G -> Z * G;
  (** [np.random.uniform(low, high)]: a float in [low, high). *)
  uniform : Q -> Q -> G -> Q * G;
  (** [np.random.normal(loc, scale)]; numpy rejects a negative scale, and
      every call below passes a scale that is a non-negative multiple of
      the pages that remain or of a base duration. *)
  normal : Q -> Q -> G -> Q * G;
  (** [np.random.random()]: a float in [0, 1). *)
  random : G -> Q * G;
  (** [np.random.choice(a, p=p)]: an element of [a]. *)
  choice : list Z -> list Q -> G -> Z * G;
  randint_range : forall lo hi g, lo < hi -> lo <= fst (randint lo hi g) < hi;
  uniform_range : forall lo hi g,
    (lo < hi)%Q -> (lo <= fst (uniform lo hi g))%Q /\ (fst (uniform lo hi g) < hi)%Q;
  random_range : forall g, (0 <= fst (random g))%Q /\ (fst (random g) < 1)%Q;
  choice_in : forall xs ps g, xs <> [] -> In (fst (choice xs ps g)) xs
}.

(** ** Data model *)

Inductive Perfil : Type := rapido | medio | lento.

(** One generated session (the dictionary built in each loop iteration). *)
Record Sesion : Type := {
  user_id : Z;
  book_id : Z;
  session_start : datetime;
  session_end : datetime;
  duration_minutes : Q;
  progress_start : Z;
  progress_end : Z;
  pages_read : Z;
  completion_pct_start : Q;
  completion_pct_end : Q
}.

(** A row of the merged interaction table.  [None] is an absent column;
    [row.get(key, default)] is [get_or]. *)
Record Fila : Type := {
  f_book_id : Z;
  f_user_id : Z;
  f_is_read : option pyval;
  f_rating : option pyval;
  f_num_pages : option pyval;
  f_genres : option pyval;
  f_abandono_score : option pyval;
  f_engagement_score : option pyval;
  f_complejidad_score : option pyval;
  f_ritmo_score : option pyval
}.

Definition get_or (cell : option pyval) (default : pyval) : pyval :=
  match cell with
  | Some v => v
  | None => default
  end.

(** ** SimuladorSesionesLectura *)

Module Simulador.

(** [self.velocidad_lectura_palabras_min] *)
Definition velocidad_lectura_palabras_min (p : Perfil) : Q * Q :=
  match p with
  | rapido => (250, 350)
  | medio => (180, 250)
  | lento => (120, 180)
  end%Q.

(** [self.palabras_por_pagina] *)
Definition palabras_por_pagina (genero : string) : option Z :=
  if String.eqb genero "fiction" then Some 280
  else if String.eqb genero "non-fiction" then Some 320
  else if String.eqb genero "poetry" then Some 180
  else if String.eqb genero "comics" then Some 100
  else if String.eqb genero "default" then Some 260
  else None.

(** [self.palabras_por_pagina.get(genero, self.palabras_por_pagina['default'])];
    a key that is not a string is in no entry. *)
Definition palabras_pag (genero : pyval) : Z :=
  match genero with
  | PStr s =>
      match palabras_por_pagina s with
      | Some n => n
      | None => 260
      end
  | _ => 260
  end.

(** [self.prob_abandono] *)
Definition prob_abandono (rating : Z) : option Q :=
  if rating =? 1 then Some 0.85%Q
  else if rating =? 2 then Some 0.70%Q
  else if rating =? 3 then Some 0.40%Q
  else if rating =? 4 then Some 0.15%Q
  else if rating =? 5 then Some 0.05%Q
  else None.

(** [determinar_perfil_lector]: the hash of [str(user_id)] reduced modulo
    100, cut at 20 and 75. *)
Definition perfil_de_hash (hash_user : Z) : Perfil :=
  if hash_user <? 20 then rapido
  else if hash_user <? 75 then medio
  else lento.

Definition determinar_perfil_lector (secreto : HashSecret) (user_id : Z) : Perfil :=
  let hash_user := py_hash_str secreto (str_of_int user_id) mod 100 in
  perfil_de_hash hash_user.

End Simulador.
Export Simulador.

Section Simulacion.

Context {G : Type} {RS : RandomState G}.

(** The interpreter's [float(str)] parser: [None] when the text is not a
    number ([ValueError]). *)
Variable float_of_str : string -> option pyfloat.

Local Open Scope Q_scope.

(** [calcular_duracion_sesion]: words over a sampled speed, plus noise,
    with a floor of 5 minutes. *)
Definition calcular_duracion_sesion
    (paginas_leidas : Z) (perfil_lector : Perfil) (genero : pyval) (g : G) : Q * G :=
  let total_palabras := (paginas_leidas * palabras_pag genero)%Z in
  let '(vel_min, vel_max) := velocidad_lectura_palabras_min perfil_lector in
  let '(velocidad_promedio, g) := uniform vel_min vel_max g in
  let duracion_base := inject_Z total_palabras / velocidad_promedio in
  let '(ruido, g) := normal 0 (duracion_base * 0.1) g in
  let d := duracion_base + ruido in
  ((if Qlt_le_dec 5 d then d else 5), g).

(** The body of the loop of [generar_patron_temporal_sesiones], for the
    iterations [i, i+1, ...] still to run. *)
Fixpoint patron_bucle (num_sesiones : Z) (pendientes : nat) (i : Z)
    (fecha_actual : datetime) (g : G) : list datetime * G :=
  match pendientes with
  | O => ([], g)
  | S pendientes' =>
      let '(dias_hasta_proxima, g) :=
        if Qlt_le_dec (inject_Z i) (inject_Z num_sesiones * 0.3)
        then choice [0; 1; 1; 2; 3]%Z [0.3; 0.4; 0.2; 0.07; 0.03] g
        else choice [1; 2; 3; 4; 5; 7]%Z [0.25; 0.25; 0.2; 0.15; 0.1; 0.05] g in
      let fecha_actual := add_days fecha_actual dias_hasta_proxima in
      let dia_semana := weekday fecha_actual in
      let '(hora, g) :=
        if (dia_semana <? 5)%Z
        then choice [7; 8; 9; 12; 13; 19; 20; 21; 22; 23]%Z
               [0.08; 0.08; 0.06; 0.08; 0.07; 0.15; 0.15; 0.15; 0.12; 0.06] g
        else choice [8; 9; 10; 11; 12; 13; 14; 15; 16; 17; 18; 19; 20; 21; 22; 23]%Z
               [0.05; 0.08; 0.10; 0.08; 0.06; 0.05; 0.05; 0.05; 0.08; 0.10;
                0.10; 0.08; 0.06; 0.04; 0.01; 0.01] g in
      let '(minuto, g) := randint 0 60 g in
      let timestamp := replace fecha_actual hora minuto 0 in
      let '(resto, g) :=
        patron_bucle num_sesiones pendientes' (i + 1)%Z fecha_actual g in
      (timestamp :: resto, g)
  end.

(** [generar_patron_temporal_sesiones] *)
Definition generar_patron_temporal_sesiones
    (num_sesiones : Z) (fecha_inicio : datetime) (g : G) : list datetime * G :=
  patron_bucle num_sesiones (Z.to_nat num_sesiones) 0%Z fecha_inicio g.

(** Pages of a session that is not the last one, in each of the three
    generators: a normal draw around the average of what remains, floored
    at 1 and capped at the pages that remain. *)
Definition paginas_sesion_completado
    (num_sesiones i paginas_restantes : Z) (g : G) : Z * G :=
  let factor :=
    if Qlt_le_dec (inject_Z i) (inject_Z num_sesiones * 0.3) then 1.3 else 1.0 in
  let paginas_promedio_por_sesion :=
    inject_Z paginas_restantes / inject_Z (num_sesiones - i) in
  let '(x, g) :=
    normal (paginas_promedio_por_sesion * factor)
           (paginas_promedio_por_sesion * 0.3) g in
  let paginas_sesion := Z.max 1 (trunc x) in
  (Z.min paginas_sesion paginas_restantes, g).

Definition paginas_sesion_abandono_temprano
    (num_sesiones i paginas_restantes : Z) (g : G) : Z * G :=
  let factor_decaimiento := 1.2 - inject_Z i / inject_Z num_sesiones in
  let paginas_promedio :=
    inject_Z paginas_restantes / inject_Z (num_sesiones - i) in
  let '(x, g) :=
    normal (paginas_promedio * factor_decaimiento) (paginas_promedio * 0.4) g in
  let paginas_sesion := Z.max 1 (trunc x) in
  (Z.min paginas_sesion paginas_restantes, g).

Definition paginas_sesion_abandono_medio
    (num_sesiones i paginas_restantes : Z) (g : G) : Z * G :=
  let '(r, g) := random g in
  let factor := if Qlt_le_dec r 0.3 then 0.5 else 1.0 in
  let paginas_promedio :=
    inject_Z paginas_restantes / inject_Z (num_sesiones - i) in
  let '(x, g) :=
    normal (paginas_promedio * factor) (paginas_promedio * 0.5) g in
  let paginas_sesion := Z.max 1 (trunc x) in
  (Z.min paginas_sesion paginas_restantes, g).

(** The session loop.  The three generators run the same loop over the
    enumerated timestamps and differ only in [regla], the page count of a
    session that is not the last; the last session reads whatever remains
    of [objetivo].  The percentages divide by [num_pages], which is at
    least 1 at every call the dispatch makes (the code raises
    [ZeroDivisionError] for 0). *)
Fixpoint bucle_sesiones (regla : Z -> Z -> G -> Z * G)
    (book_id user_id num_pages : Z) (perfil : Perfil) (genero : pyval)
    (num_sesiones objetivo : Z)
    (timestamps : list datetime) (i progreso_acumulado : Z) (g : G)
    : list Sesion * G :=
  match timestamps with
  | [] => ([], g)
  | ts_start :: resto =>
      let paginas_restantes := (objetivo - progreso_acumulado)%Z in
      let '(paginas_sesion, g) :=
        if (i =? num_sesiones - 1)%Z then (paginas_restantes, g)
        else regla i paginas_restantes g in
      let '(duracion_minutos, g) :=
        calcular_duracion_sesion paginas_sesion perfil genero g in
      let ts_end := add_minutes ts_start duracion_minutos in
      let sesion :=
        {| user_id := user_id;
           book_id := book_id;
           session_start := ts_start;
           session_end := ts_end;
           duration_minutes := duracion_minutos;
           progress_start := progreso_acumulado;
           progress_end := (progreso_acumulado + paginas_sesion)%Z;
           pages_read := paginas_sesion;
           completion_pct_start :=
             inject_Z progreso_acumulado / inject_Z num_pages * 100;
           completion_pct_end :=
             inject_Z (progreso_acumulado + paginas_sesion) / inject_Z num_pages * 100 |} in
      let '(sesiones, g) :=
        bucle_sesiones regla book_id user_id num_pages perfil genero
          num_sesiones objetivo resto (i + 1)%Z
          (progreso_acumulado + paginas_sesion)%Z g in
      (sesion :: sesiones, g)
  end.

(** [simular_sesiones_completado]; [ahora] is the reading of
    [datetime.now()]. *)
Definition simular_sesiones_completado (secreto : HashSecret) (ahora : datetime)
    (book_id user_id num_pages : Z) (genero : pyval) (g : G) : list Sesion * G :=
  let perfil := determinar_perfil_lector secreto user_id in
  let '(num_sesiones, g) :=
    if (num_pages <? 150)%Z then randint 3 8 g
    else if (num_pages <? 300)%Z then randint 6 15 g
    else if (num_pages <? 500)%Z then randint 10 25 g
    else randint 15 40 g in
  let '(dias_atras, g) := randint 30 365 g in
  let fecha_inicio := add_days ahora (- dias_atras) in
  let '(timestamps, g) :=
    generar_patron_temporal_sesiones num_sesiones fecha_inicio g in
  let paginas_totales_leer := num_pages in
  bucle_sesiones (paginas_sesion_completado num_sesiones)
    book_id user_id num_pages perfil genero num_sesiones paginas_totales_leer
    timestamps 0%Z 0%Z g.

(** [simular_sesiones_abandono_temprano] *)
Definition simular_sesiones_abandono_temprano (secreto : HashSecret) (ahora : datetime)
    (book_id user_id num_pages : Z) (genero : pyval) (g : G) : list Sesion * G :=
  let perfil := determinar_perfil_lector secreto user_id in
  let '(num_sesiones, g) := randint 1 5 g in
  let '(dias_atras, g) := randint 30 180 g in
  let fecha_inicio := add_days ahora (- dias_atras) in
  let '(timestamps, g) :=
    generar_patron_temporal_sesiones num_sesiones fecha_inicio g in
  let '(u, g) := uniform 0.05 0.30 g in
  let progreso_total := trunc (inject_Z num_pages * u) in
  bucle_sesiones (paginas_sesion_abandono_temprano num_sesiones)
    book_id user_id num_pages perfil genero num_sesiones progreso_total
    timestamps 0%Z 0%Z g.

(** [simular_sesiones_abandono_medio] *)
Definition simular_sesiones_abandono_medio (secreto : HashSecret) (ahora : datetime)
    (book_id user_id num_pages : Z) (genero : pyval) (g : G) : list Sesion * G :=
  let perfil := determinar_perfil_lector secreto user_id in
  let '(num_sesiones, g) := randint 5 15 g in
  let '(dias_atras, g) := randint 60 300 g in
  let fecha_inicio := add_days ahora (- dias_atras) in
  let '(timestamps, g) :=
    generar_patron_temporal_sesiones num_sesiones fecha_inicio g in
  let '(u, g) := uniform 0.30 0.70 g in
  let progreso_total := trunc (inject_Z num_pages * u) in
  bucle_sesiones (paginas_sesion_abandono_medio num_sesiones)
    book_id user_id num_pages perfil genero num_sesiones progreso_total
    timestamps 0%Z 0%Z g.

(** [float(v)]; an integer rounds to the nearest float and raises
    [OverflowError] when that is out of range. *)
Definition py_float (v : pyval) : Exn + pyfloat :=
  match v with
  | PInt z =>
      match b64 (inject_Z z) with
      | FNum q => inr (FNum q)
      | _ => inl OverflowError
      end
  | PFloat f => inr f
  | PStr s =>
      match float_of_str s with
      | Some f => inr f
      | None => inl ValueError
      end
  | PNone => inl TypeError
  end.

(** The guarded conversion of the page count: [int(float(num_pages))]
    when the cell is not missing, 300 when it is missing or when the
    conversion raises [ValueError] or [TypeError] (the two exceptions the
    handler names), then a floor of 1. *)
Definition convertir_num_pages (v : pyval) : Exn + Z :=
  let intento :=
    if notna v then
      match py_float v with
      | inr f => int_of_float f
      | inl e => inl e
      end
    else inr 300%Z in
  match intento with
  | inr n => inr (Z.max 1 n)
  | inl ValueError | inl TypeError => inr (Z.max 1 300)
  | inl e => inl e
  end.

(** A score read as a number for [score > 0] and the arithmetic after it;
    ordering a string or [None] against 0 raises [TypeError]. *)
Definition numero (v : pyval) : Exn + pyfloat :=
  match as_float v with
  | Some f => inr f
  | None => inl TypeError
  end.

(** The abandonment probability of the medium-rating branch: the base
    probability adjusted by the four review features and clamped, every
    literal, product, sum and difference rounded to binary64. *)
Definition probabilidad_ajustada
    (base : Q) (abandono_score engagement_score complejidad_score ritmo_score : pyfloat)
    : pyfloat :=
  let prob_aband := lit base in
  let prob_aband :=
    if f_lt (FNum 0) abandono_score
    then fl_add prob_aband (fl_mul (py_min abandono_score (lit 1.0)) (lit 0.25))
    else prob_aband in
  let prob_aband :=
    if f_lt (FNum 0) engagement_score
    then fl_sub prob_aband (fl_mul (py_min engagement_score (lit 1.0)) (lit 0.15))
    else prob_aband in
  let prob_aband :=
    if f_lt (FNum 0) complejidad_score
    then fl_add prob_aband (fl_mul (py_min complejidad_score (lit 1.0)) (lit 0.10))
    else prob_aband in
  let prob_aband :=
    if f_lt ritmo_score (FNum 0)
    then fl_add prob_aband (fl_mul (py_min (f_abs ritmo_score) (lit 1.0)) (lit 0.08))
    else prob_aband in
  py_max (lit 0.0) (py_min (lit 1.0) prob_aband).

(** [self.prob_abandono.get(rating, 0.5)] *)
Definition prob_base (rating : Z) : Q :=
  match prob_abandono rating with
  | Some p => p
  | None => 0.5
  end.

Notation "x <- c ;; k" :=
  (match c with inl e => inl e | inr x => k end)
  (at level 61, c at next level, right associativity).

(** [simular_para_interaccion]: either the exception that escapes, or the
    sessions and the generator state after them.  The [rating] argument of
    the three generators is unused by them and is not passed. *)
Definition simular_para_interaccion (secreto : HashSecret) (ahora : datetime)
    (row : Fila) (g : G) : Exn + (list Sesion * G) :=
  let book_id := f_book_id row in
  let user_id := f_user_id row in
  let is_read := get_or (f_is_read row) (PInt 0) in
  let rating := get_or (f_rating row) (PInt 3) in
  num_pages <- convertir_num_pages (get_or (f_num_pages row) (PInt 300)) ;;
  let genero := get_or (f_genres row) (PStr "default") in
  let abandono_score := get_or (f_abandono_score row) (PInt 0) in
  let engagement_score := get_or (f_engagement_score row) (PInt 0) in
  let complejidad_score := get_or (f_complejidad_score row) (PInt 0) in
  let ritmo_score := get_or (f_ritmo_score row) (PInt 0) in
  if py_eq_num is_read 0 && isna rating then inr ([], g)
  else
    alto <- (if py_eq_num is_read 1 then py_ge_num rating 4 else inr false) ;;
    if alto : bool then
      inr (simular_sesiones_completado secreto ahora book_id user_id num_pages genero g)
    else
      bajo <- py_le_num rating 2 ;;
      if bajo : bool then
        inr (simular_sesiones_abandono_temprano secreto ahora book_id user_id num_pages genero g)
      else
        r <- py_int rating ;;
        ab <- numero abandono_score ;;
        en <- numero engagement_score ;;
        co <- numero complejidad_score ;;
        ri <- numero ritmo_score ;;
        let prob_aband := probabilidad_ajustada (prob_base r) ab en co ri in
        let '(x, g) := random g in
        if f_lt (FNum x) prob_aband then
          if f_lt en (lit (-0.2)) then
            inr (simular_sesiones_abandono_temprano secreto ahora book_id user_id num_pages genero g)
          else
            inr (simular_sesiones_abandono_medio secreto ahora book_id user_id num_pages genero g)
        else
          inr (simular_sesiones_completado secreto ahora book_id user_id num_pages genero g).

End Simulacion.

(** ** A scripted generator

    A generator whose state is the list of the raw outcomes still to be
    handed out, one per draw.  An outcome outside the range of the draw
    that consumes it (or an exhausted script) yields the lowest value the
    draw allows, and a normal draw of scale 0 yields its location. *)

Module Cinta.

Definition cinta : Type := list Q.

Definition c_randint (lo hi : Z) (g : cinta) : Z * cinta :=
  match g with
  | [] => (lo, [])
  | q :: r =>
      let z := Qfloor q in
      (if (lo <=? z) && (z <? hi) then z else lo, r)
  end.

Definition c_uniform (lo hi : Q) (g : cinta) : Q * cinta :=
  match g with
  | [] => (lo, [])
  | q :: r =>
      (if Qlt_le_dec q lo then lo else if Qlt_le_dec q hi then q else lo, r)
  end.

Definition c_normal (loc scale : Q) (g : cinta) : Q * cinta :=
  match g with
  | [] => (loc, [])
  | q :: r => (if Qeq_bool scale 0 then loc else q, r)
  end.

Definition c_random (g : cinta) : Q * cinta :=
  match g with
  | [] => (0%Q, [])
  | q :: r =>
      (if Qlt_le_dec q 0 then 0%Q else if Qlt_le_dec q 1 then q else 0%Q, r)
  end.

Definition c_choice (xs : list Z) (ps : list Q) (g : cinta) : Z * cinta :=
  match g with
  | [] => (hd 0 xs, [])
  | q :: r =>
      let z := Qfloor q in
      (if existsb (Z.eqb z) xs then z else hd 0 xs, r)
  end.

(** The scripted generator meets the ranges of [RandomState]. *)
#[export, refine] Instance RandomState_cinta : RandomState cinta := {|
  randint := c_randint;
  uniform := c_uniform;
  normal := c_normal;
  random := c_random;
  choice := c_choice
|}.
Proof.
  - (* randint_range *)
    intros lo hi g H. destruct g as [|q r]; simpl; [lia|].
    destruct (lo <=? Qfloor q) eqn:E1; simpl; [|lia].
    destruct (Qfloor q <? hi) eqn:E2; lia.
  - (* uniform_range *)
    intros lo hi g H. destruct g as [|q r]; simpl.
    + split; [apply Qle_refl | exact H].
    + destruct (Qlt_le_dec q lo); [split; [apply Qle_refl | exact H]|].
      destruct (Qlt_le_dec q hi); [split; assumption|].
      split; [apply Qle_refl | exact H].
  - (* random_range *)
    intros g. destruct g as [|q r]; simpl; [split; [apply Qle_refl | reflexivity]|].
    destruct (Qlt_le_dec q 0); [split; [apply Qle_refl | reflexivity]|].
    destruct (Qlt_le_dec q 1); [split; assumption|].
    split; [apply Qle_refl | reflexivity].
  - (* choice_in *)
    intros xs ps g H. assert (Hhd : In (hd 0 xs) xs)
      by (destruct xs; [congruence | left; reflexivity]).
    destruct g as [|q r]; simpl; [exact Hhd|].
    destruct (existsb (Z.eqb (Qfloor q)) xs) eqn:E; [|exact Hhd].
    apply existsb_exists in E. destruct E as [x [Hin Hx]].
    apply Z.eqb_eq in Hx. subst x. exact Hin.
Defined.

(** A parser for plain decimal integers, enough to run rows whose page
    count is a digit string: the float nearest to the integer. *)
Definition float_decimal (s : string) : option pyfloat :=
  match NilZero.int_of_string s with
  | Some n => Some (b64 (inject_Z (Z.of_int n)))
  | None => None
  end.

End Cinta.
Export Cinta.

(** ** Vocabulary of the properties *)

(** The last element of a list. *)
Fixpoint ultimo {A : Type} (l : list A) : option A :=
  match l with
  | [] => None
  | [x] => Some x
  | _ :: r => ultimo r
  end.

(** The terminal progress of a session sequence. *)
Definition progreso_final (sesiones : list Sesion) : option Z :=
  option_map progress_end (ultimo sesiones).

(** A sequence whose progress values chain from [inicio]. *)
Fixpoint encadenadas (inicio : Z) (sesiones : list Sesion) : Prop :=
  match sesiones with
  | [] => True
  | s :: r =>
      progress_start s = inicio /\
      pages_read s = progress_end s - progress_start s /\
      encadenadas (progress_end s) r
  end.

(** Timestamps as the temporal pattern lays them out from day [dia]: the
    day never goes back, it advances when the iteration index [i] is past
    the first 30% of [num_sesiones], the time of day is a whole minute
    between 07:00 and 23:59, and the microsecond is the clock's. *)
Fixpoint patron_ok (num_sesiones i dia us : Z) (l : list datetime) : Prop :=
  match l with
  | [] => True
  | t :: r =>
      dia <= ordinal t /\
      ((inject_Z num_sesiones * 0.3 <= inject_Z i)%Q -> dia + 1 <= ordinal t) /\
      7 <= hour t <= 23 /\ 0 <= minute t <= 59 /\ second t = 0 /\
      microsecond t = us /\
      patron_ok num_sesiones (i + 1) (ordinal t) us r
  end.

(** A page rule that floors at 1 and caps at the pages that remain. *)
Definition regla_acotada {G : Type} (regla : Z -> Z -> G -> Z * G) : Prop :=
  forall i restantes g,
    0 <= restantes ->
    0 <= fst (regla i restantes g) <= restantes /\
    (1 <= restantes -> 1 <= fst (regla i restantes g)).

(** What every generated sequence satisfies, for the page target
    [objetivo] of its path. *)
Definition secuencia_valida (objetivo : Z) (sesiones : list Sesion) : Prop :=
  sesiones <> [] /\
  encadenadas 0 sesiones /\
  progreso_final sesiones = Some objetivo /\
  Forall (fun s => (5 <= duration_minutes s)%Q) sesiones /\
  Forall (fun s => 0 <= pages_read s /\ progress_end s <= objetivo /\
                   (progress_start s < objetivo -> 1 <= pages_read s)) sesiones /\
  exists dia us,
    patron_ok (Z.of_nat (List.length sesiones)) 0 dia us (map session_start sesiones).

(** ** Sample inputs *)

Module Ejemplos.

(** The clock reading 2026-02-10 10:15:30.123456 (a Tuesday), and the same
    time one day later. *)
Definition ahora_ejemplo : datetime :=
  {| ordinal := 739657; hour := 10; minute := 15; second := 30;
     microsecond := 123456 |}.

Definition ahora_siguiente : datetime :=
  {| ordinal := 739658; hour := 10; minute := 15; second := 30;
     microsecond := 123456 |}.

(** A row for user 1 and book 7, genre fiction, without review features. *)
Definition fila (is_read rating num_pages : pyval) : Fila :=
  {| f_book_id := 7; f_user_id := 1;
     f_is_read := Some is_read; f_rating := Some rating;
     f_num_pages := Some num_pages; f_genres := Some (PStr "fiction");
     f_abandono_score := None; f_engagement_score := None;
     f_complejidad_score := None; f_ritmo_score := None |}.

Definition correr (secreto : HashSecret) (ahora : datetime) (row : Fila) (g : cinta)
    : Exn + (list Sesion * cinta) :=
  simular_para_interaccion float_decimal secreto ahora row g.

Definition sesiones_de (r : Exn + (list Sesion * cinta)) : list Sesion :=
  match r with
  | inr (l, _) => l
  | inl _ => []
  end.

Definition cinta_de (r : Exn + (list Sesion * cinta)) : cinta :=
  match r with
  | inr (_, g) => g
  | inl _ => []
  end.

(** A 100-page book rated 5 and read: four sessions starting 40 days
    back; the first two fall on the same day, at 23:05 and then 08:07. *)
Definition fila_completado : Fila := fila (PInt 1) (PInt 5) (PStr "100").
Definition cinta_completado : cinta := [4; 40; 0; 23; 5; 0; 8; 7]%Q.
Definition corrida_completado : Exn + (list Sesion * cinta) :=
  Eval vm_compute in correr secreto_1 ahora_ejemplo fila_completado cinta_completado.
Definition sesiones_completado : list Sesion := sesiones_de corrida_completado.

(** A one-page book rated 1: a single session towards a target of
    [int(1 * u)] = 0 pages. *)
Definition fila_una_pagina : Fila := fila (PInt 1) (PInt 1) (PInt 1).
Definition corrida_una_pagina : Exn + (list Sesion * cinta) :=
  Eval vm_compute in correr secreto_1 ahora_ejemplo fila_una_pagina [].
Definition sesiones_una_pagina : list Sesion := sesiones_de corrida_una_pagina.

(** A 320-page book rated 5 and read, with the session count drawn as 20. *)
Definition fila_320 : Fila := fila (PInt 1) (PInt 5) (PInt 320).
Definition corrida_320 : Exn + (list Sesion * cinta) :=
  Eval vm_compute in correr secreto_1 ahora_ejemplo fila_320 [20%Q].
Definition sesiones_320 : list Sesion := sesiones_de corrida_320.

(** A 200-page book rated 3 whose coin flip (0.1) selects abandonment:
    midway, five sessions, 45% of the pages. *)
Definition fila_medio : Fila := fila (PInt 1) (PInt 3) (PInt 200).
Definition cinta_medio : cinta := [0.1; 5; 100; 2; 9; 30; 1; 20; 15; 1; 21; 45; 2; 8; 10; 3; 22; 50;
   0.45; 0.2; 25; 200; 1]%Q.
Definition corrida_medio : Exn + (list Sesion * cinta) :=
  Eval vm_compute in correr secreto_1 ahora_ejemplo fila_medio cinta_medio.
Definition sesiones_medio : list Sesion := sesiones_de corrida_medio.

(** A read row whose rating is missing (NaN), and one whose page count is
    infinite. *)
Definition fila_sin_rating : Fila := fila (PInt 1) (PFloat FNaN) (PInt 200).
Definition fila_paginas_inf : Fila := fila (PInt 1) (PInt 5) (PFloat FInf).

End Ejemplos.
Export Ejemplos.

(** The adjusted probability of a rating-3 interaction as the
    specification words it, for finite scores: the base 0.40, the four
    additive adjustments, and the clamp to [0, 1]. *)
Definition prob_rating3_spec (abandono engagement complejidad ritmo : Q) : Q :=
  Qmax 0 (Qmin 1
    (0.40
     + (if Qlt_le_dec 0 abandono then Qmin abandono 1 * 0.25 else 0)
     - (if Qlt_le_dec 0 engagement then Qmin engagement 1 * 0.15 else 0)
     + (if Qlt_le_dec 0 complejidad then Qmin complejidad 1 * 0.10 else 0)
     + (if Qlt_le_dec ritmo 0 then Qmin (Qabs ritmo) 1 * 0.08 else 0)))%Q.

(** A rating-3 row with numeric review scores and the default page count. *)
Definition fila_rating3 (ab en co ri : pyfloat) : Fila :=
  {| f_book_id := 7; f_user_id := 1;
     f_is_read := Some (PInt 1); f_rating := Some (PInt 3);
     f_num_pages := None; f_genres := None;
     f_abandono_score := Some (PFloat ab); f_engagement_score := Some (PFloat en);
     f_complejidad_score := Some (PFloat co); f_ritmo_score := Some (PFloat ri) |}.

From Stdlib Require Import Permutation.

(** ** The batch loop

    The loop of [procesar_interacciones_y_generar_sesiones] that walks the
    merged table and extends [todas_sesiones] with the sessions of each
    row; an exception raised for a row leaves the loop.  Each row comes
    with the reading of [datetime.now()] taken during its simulation. *)

Section Lote.

Context {G : Type} {RS : RandomState G}.
Variable float_of_str : string -> option pyfloat.

Fixpoint generar_todas_sesiones (secreto : HashSecret)
    (data : list (datetime * Fila)) (g : G) : Exn + (list Sesion * G) :=
  match data with
  | [] => inr ([], g)
  | (ahora, row) :: resto =>
      match simular_para_interaccion float_of_str secreto ahora row g with
      | inl e => inl e
      | inr (sesiones, g) =>
          match generar_todas_sesiones secreto resto g with
          | inl e => inl e
          | inr (todas_sesiones, g) => inr (sesiones ++ todas_sesiones, g)
          end
      end
  end.

End Lote.

(** The sum of the pages read in a sequence. *)
Definition paginas_totales (sesiones : list Sesion) : Z :=
  fold_right Z.add 0 (map pages_read sesiones).

(** The fields of a session record that are computed from its other
    fields and from the interaction. *)
Definition campos_derivados (book user num_pages : Z) (s : Sesion) : Prop :=
  user_id s = user /\ book_id s = book /\
  session_end s = add_minutes (session_start s) (duration_minutes s) /\
  completion_pct_start s
    = (inject_Z (progress_start s) / inject_Z num_pages * 100)%Q /\
  completion_pct_end s
    = (inject_Z (progress_end s) / inject_Z num_pages * 100)%Q.

(** A well-formed time of day. *)
Definition hora_valida (t : datetime) : Prop :=
  0 <= hour t < 24 /\ 0 <= minute t < 60 /\ 0 <= second t < 60 /\
  0 <= microsecond t < 1000000.

(** The coin flip of the medium-rating branch and the generator it
    selects, for the numeric scores [ab], [en], [co], [ri] and the integer
    rating [r]. *)
Definition rama_con_moneda {G : Type} {RS : RandomState G}
    (secreto : HashSecret) (ahora : datetime) (row : Fila) (num_pages r : Z)
    (ab en co ri : pyfloat) (g : G) : list Sesion * G :=
  let genero := get_or (f_genres row) (PStr "default") in
  let '(x, g1) := random g in
  if f_lt (FNum x) (probabilidad_ajustada (prob_base r) ab en co ri) then
    if f_lt en (lit (-0.2)) then
      simular_sesiones_abandono_temprano secreto ahora (f_book_id row)
        (f_user_id row) num_pages genero g1
    else
      simular_sesiones_abandono_medio secreto ahora (f_book_id row)
        (f_user_id row) num_pages genero g1
  else
    simular_sesiones_completado secreto ahora (f_book_id row)
      (f_user_id row) num_pages genero g1.

(** An unread row rated 5 on a 250-page book, and a read row rated 2. *)
Definition fila_no_leida_5 : Fila := fila (PInt 0) (PInt 5) (PInt 250).
Definition fila_leida_2 : Fila := fila (PInt 1) (PFloat (FNum 2)) (PInt 250).

(** An unread row whose rating cell is null, and a row of default cells
    only (every optional column absent). *)
Definition fila_sin_datos : Fila := fila (PInt 0) PNone (PStr "412").
Definition fila_sin_columnas : Fila :=
  {| f_book_id := 7; f_user_id := 1;
     f_is_read := None; f_rating := None; f_num_pages := None; f_genres := None;
     f_abandono_score := None; f_engagement_score := None;
     f_complejidad_score := None; f_ritmo_score := None |}.

(** A small merged table: three rows with the clock reading of each. *)
Definition tabla_ejemplo : list (datetime * Fila) :=
  [(ahora_ejemplo, fila_completado); (ahora_ejemplo, fila_leida_2);
   (ahora_siguiente, fila_medio)].

(** * Review analysis (Proyecto1/01b_analizar_reviews.py)

    [AnalizadorReviews] produces the review scores the simulator reads.
    A review text is a string of ASCII characters (case mapping and
    white space of other characters are not modelled); a missing review
    ([None] or NaN) is [None]. *)

Module Analizador.

Definition s2l (s : string) : list ascii := list_ascii_of_string s.
Definition l2s (l : list ascii) : string := string_of_list_ascii l.

Definition menor : ascii := "<"%char.
Definition mayor : ascii := ">"%char.
Definition espacio : ascii := " "%char.

(** The characters [str.split()] treats as white space: tab to carriage
    return, the four separators 28 to 31, and the space. *)
Definition es_espacio (c : ascii) : bool :=
  let n := nat_of_ascii c in
  ((9 <=? n) && (n <=? 13) || (28 <=? n) && (n <=? 32))%nat.

Definition es_mayuscula (c : ascii) : bool :=
  let n := nat_of_ascii c in ((65 <=? n) && (n <=? 90))%nat.

(** [c.lower()] *)
Definition minuscula (c : ascii) : ascii :=
  if es_mayuscula c then ascii_of_nat (nat_of_ascii c + 32) else c.

(** [re.sub(r'<[^>]+>', '', texto)], scanning left to right.  [pendiente]
    holds the characters read since an unclosed [<]: they are dropped when
    a [>] closes a non-empty tag, and kept when the text ends first or
    when the [>] follows the [<] at once. *)
Fixpoint quitar_tags_desde (pendiente : option (list ascii)) (l : list ascii)
    : list ascii :=
  match l with
  | [] =>
      match pendiente with
      | Some buf => buf
      | None => []
      end
  | c :: r =>
      match pendiente with
      | None =>
          if Ascii.eqb c menor then quitar_tags_desde (Some [c]) r
          else c :: quitar_tags_desde None r
      | Some buf =>
          if Ascii.eqb c mayor then
            match buf with
            | [_] => buf ++ c :: quitar_tags_desde None r
            | _ => quitar_tags_desde None r
            end
          else quitar_tags_desde (Some (buf ++ [c])) r
      end
  end.

Definition quitar_tags (l : list ascii) : list ascii := quitar_tags_desde None l.

(** [texto.split()]: the maximal runs of characters that are not white
    space. *)
Fixpoint palabras (l : list ascii) : list (list ascii) :=
  match l with
  | [] => []
  | c :: r =>
      if es_espacio c then palabras r
      else
        match r with
        | [] => [[c]]
        | d :: _ =>
            if es_espacio d then [c] :: palabras r
            else
              match palabras r with
              | w :: ws => (c :: w) :: ws
              | [] => [[c]]
              end
        end
  end.

(** [' '.join(ws)] *)
Fixpoint unir (ws : list (list ascii)) : list ascii :=
  match ws with
  | [] => []
  | [w] => w
  | w :: resto => w ++ espacio :: unir resto
  end.

(** [limpiar_texto]: empty for a missing or empty text; otherwise lower
    case, tags removed, white space collapsed. *)
Definition limpiar_lista (l : list ascii) : list ascii :=
  unir (palabras (quitar_tags (map minuscula l))).

Definition limpiar_texto (texto : option string) : string :=
  match texto with
  | None => EmptyString
  | Some EmptyString => EmptyString
  | Some s => l2s (limpiar_lista (s2l s))
  end.

Fixpoint prefijo (p l : list ascii) : bool :=
  match p, l with
  | [], _ => true
  | _ :: _, [] => false
  | a :: p', b :: l' => Ascii.eqb a b && prefijo p' l'
  end.

(** [l.count(sub)] for a non-empty [sub]: occurrences counted left to
    right without overlap; [saltar] is what is left to skip of the
    occurrence just counted. *)
Fixpoint contar_desde (sub : list ascii) (saltar : nat) (l : list ascii) : Z :=
  match l with
  | [] => 0
  | _ :: r =>
      match saltar with
      | S k => contar_desde sub k r
      | O =>
          if prefijo sub l then 1 + contar_desde sub (List.length sub - 1) r
          else contar_desde sub 0 r
      end
  end.

(** [texto.count(sub)]; the empty string occurs [len(texto) + 1] times. *)
Definition contar (sub texto : string) : Z :=
  match sub with
  | EmptyString => Z.of_nat (String.length texto) + 1
  | _ => contar_desde (s2l sub) 0 (s2l texto)
  end.

(** [contar_keywords]: the text is cleaned (again) and the occurrences of
    every keyword are added up. *)
Definition contar_keywords (texto : option string) (keywords : list string) : Z :=
  let texto_limpio := limpiar_texto texto in
  fold_left (fun contador keyword => contador + contar keyword texto_limpio)
            keywords 0.

Definition keywords_abandono : list string :=
  ["abandon"; "dnf"; "did not finish"; "could not finish"; "gave up";
   "stopped reading"; "quit"; "dropped"; "couldn't finish"; "never finished"]%string.

Definition keywords_engagement_alto : list string :=
  ["addictive"; "page turner"; "page-turner"; "couldn't put down";
   "could not put down"; "gripping"; "compelling"; "captivating";
   "engrossing"; "unputdownable"; "hooked"; "riveting";
   "fast paced"; "fast-paced"; "kept me reading"]%string.

Definition keywords_engagement_bajo : list string :=
  ["boring"; "dull"; "tedious"; "dragged"; "slow";
   "uninteresting"; "monotonous"; "struggled to read"]%string.

Definition keywords_complejo : list string :=
  ["complex"; "complicated"; "dense"; "difficult"; "challenging";
   "hard to follow"; "confusing"; "intricate"; "convoluted";
   "hard to understand"; "requires concentration"; "demanding"]%string.

Definition keywords_simple : list string :=
  ["easy read"; "easy to read"; "simple"; "straightforward"; "accessible";
   "light"; "quick read"; "breeze"; "simple prose"; "easy to follow";
   "effortless"]%string.

Definition keywords_ritmo_lento : list string :=
  ["slow"; "slow paced"; "slow-paced"; "dragged"; "takes time"; "slow start";
   "slow beginning"; "plodding"; "meandering"; "sluggish"]%string.

Definition keywords_ritmo_rapido : list string :=
  ["fast"; "fast paced"; "fast-paced"; "quick"; "action packed";
   "action-packed"; "thrilling"; "moves quickly"; "rapid"; "brisk pace"]%string.

Definition keywords_emocional_alto : list string :=
  ["emotional"; "moving"; "touching"; "cried"; "tears"; "heartbreaking";
   "powerful"; "deep"; "profound"; "made me feel"; "emotional rollercoaster";
   "impactful"]%string.

Definition keywords_emocional_bajo : list string :=
  ["emotionless"; "flat"; "cold"; "detached"; "didn't feel"; "no emotion";
   "sterile"; "dry"]%string.

(** The dictionary of [analizar_review_individual]. *)
Record Features : Type := {
  abandono_mencionado : Z;
  engagement_alto : Z;
  engagement_bajo : Z;
  complejidad_alta : Z;
  lectura_facil : Z;
  ritmo_lento : Z;
  ritmo_rapido : Z;
  emocional_alto : Z;
  emocional_bajo : Z
}.

(** [analizar_review_individual] *)
Definition analizar_review_individual (review_texto : option string) : option Features :=
  match review_texto with
  | None => None
  | Some EmptyString => None
  | Some _ =>
      let texto := Some (limpiar_texto review_texto) in
      Some {| abandono_mencionado := contar_keywords texto keywords_abandono;
              engagement_alto := contar_keywords texto keywords_engagement_alto;
              engagement_bajo := contar_keywords texto keywords_engagement_bajo;
              complejidad_alta := contar_keywords texto keywords_complejo;
              lectura_facil := contar_keywords texto keywords_simple;
              ritmo_lento := contar_keywords texto keywords_ritmo_lento;
              ritmo_rapido := contar_keywords texto keywords_ritmo_rapido;
              emocional_alto := contar_keywords texto keywords_emocional_alto;
              emocional_bajo := contar_keywords texto keywords_emocional_bajo |}
  end.

(** The dictionary of [analizar_reviews_libro]. *)
Record FeaturesLibro : Type := {
  num_reviews_analizadas : Z;
  abandono_score : Q;
  engagement_score : Q;
  complejidad_score : Q;
  ritmo_score : Q;
  emocional_score : Q;
  menciones_abandono : Z;
  menciones_engagement_positivo : Z;
  menciones_complejidad : Z;
  menciones_ritmo_lento : Z;
  menciones_emocional : Z
}.

(** The reviews of the list that yield features, in order. *)
Fixpoint features_individuales (reviews : list (option string)) : list Features :=
  match reviews with
  | [] => []
  | review :: resto =>
      match analizar_review_individual review with
      | Some feat => feat :: features_individuales resto
      | None => features_individuales resto
      end
  end.

(** [df_features[columna].sum()] *)
Definition suma (columna : Features -> Z) (fs : list Features) : Z :=
  fold_right Z.add 0 (map columna fs).

(** [analizar_reviews_libro] *)
Definition analizar_reviews_libro (reviews_texto_lista : list (option string))
    : option FeaturesLibro :=
  match reviews_texto_lista with
  | [] => None
  | _ =>
      let fs := features_individuales reviews_texto_lista in
      match fs with
      | [] => None
      | _ =>
          let total_reviews := inject_Z (Z.of_nat (List.length fs)) in
          Some {|
            num_reviews_analizadas := Z.of_nat (List.length fs);
            abandono_score := inject_Z (suma abandono_mencionado fs) / total_reviews;
            engagement_score :=
              inject_Z (suma engagement_alto fs - suma engagement_bajo fs)
              / total_reviews;
            complejidad_score :=
              inject_Z (suma complejidad_alta fs - suma lectura_facil fs)
              / total_reviews;
            ritmo_score :=
              inject_Z (suma ritmo_rapido fs - suma ritmo_lento fs) / total_reviews;
            emocional_score :=
              inject_Z (suma emocional_alto fs - suma emocional_bajo fs)
              / total_reviews;
            menciones_abandono := suma abandono_mencionado fs;
            menciones_engagement_positivo := suma engagement_alto fs;
            menciones_complejidad := suma complejidad_alta fs;
            menciones_ritmo_lento := suma ritmo_lento fs;
            menciones_emocional := suma emocional_alto fs
          |}%Q
      end
  end.

(** A text free of tags: every [<] is followed at once by [>] or by no
    [>] at all. *)
Inductive sin_tags : list ascii -> Prop :=
| st_nil : sin_tags []
| st_otro c r : c <> menor -> sin_tags r -> sin_tags (c :: r)
| st_vacio r : sin_tags r -> sin_tags (menor :: mayor :: r)
| st_abierto r : Forall (fun c => c <> mayor) r -> sin_tags (menor :: r).

(** [l'] is [l] with some white-space characters dropped and the others
    replaced by a space. *)
Inductive compacta : list ascii -> list ascii -> Prop :=
| co_nil : compacta [] []
| co_igual c l l' : compacta l l' -> compacta (c :: l) (c :: l')
| co_fuera c l l' : es_espacio c = true -> compacta l l' -> compacta (c :: l) l'
| co_espacio c l l' :
    es_espacio c = true -> compacta l l' -> compacta (c :: l) (espacio :: l').

(** A run of characters that holds no white space. *)
Definition sin_espacios (w : list ascii) : Prop :=
  w <> [] /\ Forall (fun c => es_espacio c = false) w.

(** A word of a cleaned text: not empty, without white space and without
    upper-case letters. *)
Definition palabra_limpia (w : list ascii) : Prop :=
  w <> [] /\ Forall (fun c => es_espacio c = false /\ es_mayuscula c = false) w.

(** The reviews of a list that are neither missing nor empty. *)
Definition con_texto (review : option string) : bool :=
  match review with
  | None => false
  | Some EmptyString => false
  | Some _ => true
  end.

(** The features of a review without any keyword. *)
(** The five scores and the five mention counts of a book, in the order
    of the dictionary [features_libro]. *)
Definition puntajes (f : FeaturesLibro) : list Q :=
  [abandono_score f; engagement_score f; complejidad_score f; ritmo_score f;
   emocional_score f].

Definition menciones (f : FeaturesLibro) : list Z :=
  [menciones_abandono f; menciones_engagement_positivo f; menciones_complejidad f;
   menciones_ritmo_lento f; menciones_emocional f].

Definition features_cero : Features :=
  {| abandono_mencionado := 0; engagement_alto := 0; engagement_bajo := 0;
     complejidad_alta := 0; lectura_facil := 0; ritmo_lento := 0;
     ritmo_rapido := 0; emocional_alto := 0; emocional_bajo := 0 |}.

End Analizador.

(** * Consistency checks of the cleaning step (Proyecto1/02_limpieza_datos.py)

    The three validators of [LimpiadorDatos] that work row by row on the
    session table.  A table is the list of its rows, every cell present;
    each validator returns the table and the number of inconsistencies it
    reports. *)

Module Limpiador.

Definition con_pages_read (s : Sesion) (p : Z) : Sesion :=
  {| user_id := user_id s; book_id := book_id s;
     session_start := session_start s; session_end := session_end s;
     duration_minutes := duration_minutes s;
     progress_start := progress_start s; progress_end := progress_end s;
     pages_read := p;
     completion_pct_start := completion_pct_start s;
     completion_pct_end := completion_pct_end s |}.

Definition con_duration (s : Sesion) (d : Q) : Sesion :=
  {| user_id := user_id s; book_id := book_id s;
     session_start := session_start s; session_end := session_end s;
     duration_minutes := d;
     progress_start := progress_start s; progress_end := progress_end s;
     pages_read := pages_read s;
     completion_pct_start := completion_pct_start s;
     completion_pct_end := completion_pct_end s |}.

Definition con_pct (s : Sesion) (a b : Q) : Sesion :=
  {| user_id := user_id s; book_id := book_id s;
     session_start := session_start s; session_end := session_end s;
     duration_minutes := duration_minutes s;
     progress_start := progress_start s; progress_end := progress_end s;
     pages_read := pages_read s;
     completion_pct_start := a;
     completion_pct_end := b |}.

Definition contar_filas (p : Sesion -> bool) (df : list Sesion) : Z :=
  Z.of_nat (List.length (filter p df)).

(** [(session_end - session_start).dt.total_seconds() / 60] *)
Definition duracion_real (s : Sesion) : Q :=
  (inject_Z (dt_key (session_end s) - dt_key (session_start s)) / 1000000 / 60)%Q.

Definition fin_antes_de_inicio (s : Sesion) : bool :=
  dt_key (session_end s) <=? dt_key (session_start s).

Definition inconsistencia_temporal (s : Sesion) : bool :=
  fin_antes_de_inicio s
  || (if Qlt_le_dec 5 (Qabs (duracion_real s - duration_minutes s))
      then true else false).

(** [validar_consistencia_temporal]: when some row is inconsistent, the
    duration of every inconsistent row is replaced by the one computed
    from its timestamps, and the rows that end at or before their start
    are dropped. *)
Definition validar_consistencia_temporal (df : list Sesion) : list Sesion * Z :=
  let n_inconsistencias := contar_filas inconsistencia_temporal df in
  if 0 <? n_inconsistencias then
    let df_clean :=
      map (fun s => if inconsistencia_temporal s
                    then con_duration s (duracion_real s) else s) df in
    (filter (fun s => negb (fin_antes_de_inicio s)) df_clean, n_inconsistencias)
  else (df, 0).

Definition progreso_invalido (s : Sesion) : bool :=
  progress_end s <? progress_start s.

Definition pages_inconsistentes (s : Sesion) : bool :=
  2 <? Z.abs (pages_read s - (progress_end s - progress_start s)).

(** [validar_consistencia_progreso]: the rows whose progress goes back
    are dropped; then the rows whose [pages_read] is more than 2 pages
    away from the progress difference get that difference. *)
Definition validar_consistencia_progreso (df : list Sesion) : list Sesion * Z :=
  let n_inv := contar_filas progreso_invalido df in
  let df_clean := filter (fun s => negb (progreso_invalido s)) df in
  let n_incons := contar_filas pages_inconsistentes df_clean in
  (map (fun s => if pages_inconsistentes s
                 then con_pages_read s (progress_end s - progress_start s)
                 else s) df_clean,
   n_inv + n_incons).

(** [x.clip(0, 100)] *)
Definition clip_0_100 (x : Q) : Q :=
  if Qlt_le_dec x 0 then 0%Q else if Qlt_le_dec 100 x then 100%Q else x.

Definition pct_invalido (s : Sesion) : bool :=
  (if Qlt_le_dec (completion_pct_start s) 0 then true else false)
  || (if Qlt_le_dec 100 (completion_pct_start s) then true else false)
  || (if Qlt_le_dec (completion_pct_end s) 0 then true else false)
  || (if Qlt_le_dec 100 (completion_pct_end s) then true else false).

(** [validar_rangos]: both percentages of a row with one of them outside
    [0, 100] are clipped to that range. *)
Definition validar_rangos (df : list Sesion) : list Sesion :=
  map (fun s => if pct_invalido s
                then con_pct s (clip_0_100 (completion_pct_start s))
                               (clip_0_100 (completion_pct_end s))
                else s) df.

(** What the three validators establish for a row. *)
Definition tiempo_coherente (s : Sesion) : Prop :=
  dt_key (session_start s) < dt_key (session_end s) /\
  (Qabs (duracion_real s - duration_minutes s) <= 5)%Q.

Definition progreso_coherente (s : Sesion) : Prop :=
  progress_start s <= progress_end s /\
  Z.abs (pages_read s - (progress_end s - progress_start s)) <= 2.

Definition pct_en_rango (s : Sesion) : Prop :=
  (0 <= completion_pct_start s)%Q /\ (completion_pct_start s <= 100)%Q /\
  (0 <= completion_pct_end s)%Q /\ (completion_pct_end s <= 100)%Q.

(** The columns [validar_rangos] does not write. *)
Definition sin_porcentajes (s : Sesion) :=
  (user_id s, book_id s, session_start s, session_end s, duration_minutes s,
   progress_start s, progress_end s, pages_read s).

End Limpiador.

(** * Properties *)

(** ** binary64 rounding *)

Lemma round_half_even_cerca q :
  (inject_Z (round_half_even q) - q <= 1 # 2)%Q /\
  (q - inject_Z (round_half_even q) <= 1 # 2)%Q /\
  Qfloor q <= round_half_even q.
Proof.
  unfold round_half_even.
  pose proof (Qfloor_le q) as Hlo. pose proof (Qlt_floor q) as Hhi.
  rewrite inject_Z_plus in Hhi. change (inject_Z 1) with 1%Q in Hhi.
  destruct (Qlt_le_dec (q - inject_Z (Qfloor q)) (1 # 2)).
  - repeat split; [lra | lra | lia].
  - destruct (Qlt_le_dec (1 # 2) (q - inject_Z (Qfloor q))).
    + rewrite inject_Z_plus. change (inject_Z 1) with 1%Q.
      repeat split; [lra | lra | lia].
    + destruct (Z.even (Qfloor q)).
      * repeat split; [lra | lra | lia].
      * rewrite inject_Z_plus. change (inject_Z 1) with 1%Q.
        repeat split; [lra | lra | lia].
Qed.

Lemma round_half_even_entero q n : (q == inject_Z n)%Q -> round_half_even q = n.
Proof.
  intros H. unfold round_half_even.
  assert (Hf : Qfloor q = n) by (rewrite H; apply Qfloor_Z).
  rewrite Hf.
  destruct (Qlt_le_dec (q - inject_Z n) (1 # 2)); [reflexivity | lra].
Qed.

Lemma pow2_pos e : (0 < pow2 e)%Q.
Proof. apply Qpower_0_lt. reflexivity. Qed.

Lemma pow2_mono a b : a <= b -> (pow2 a <= pow2 b)%Q.
Proof. intros H. apply Qpower_le_compat_l; [exact H | discriminate]. Qed.

Lemma pow2_lt_inv a b : (pow2 a < pow2 b)%Q -> a < b.
Proof. intros H. apply (Qpower_lt_compat_l_inv 2); [exact H | reflexivity]. Qed.

Lemma pow2_Z n : 0 <= n -> (pow2 n == inject_Z (2 ^ n))%Q.
Proof. intros H. unfold pow2. rewrite Zpower_Qpower by exact H. reflexivity. Qed.

Lemma pow2_resta a b : (pow2 (a - b) == pow2 a / pow2 b)%Q.
Proof. apply Qpower_minus. discriminate. Qed.

Lemma pow2_mitad k : (pow2 (k - 1) == pow2 k * (1 # 2))%Q.
Proof. rewrite pow2_resta. reflexivity. Qed.

Lemma exponente_bajo q : (0 < q)%Q -> (pow2 (exponente q) <= q)%Q.
Proof.
  intros Hq. unfold exponente.
  destruct (Qle_bool (pow2 (Z.log2 (Qnum q) - Z.log2 (Z.pos (Qden q)))) q) eqn:E.
  - apply Qle_bool_iff. exact E.
  - destruct q as [n d]. cbn [Qnum Qden] in *.
    assert (Hn : 0 < n) by (unfold Qlt in Hq; simpl in Hq; lia).
    destruct (Z.log2_spec n Hn) as [Hn1 _].
    destruct (Z.log2_spec (Z.pos d) (Pos2Z.is_pos d)) as [_ Hd2].
    pose proof (Z.log2_nonneg n) as Ha. pose proof (Z.log2_nonneg (Z.pos d)) as Hb.
    replace (Z.log2 n - Z.log2 (Z.pos d) - 1)
      with (Z.log2 n - Z.succ (Z.log2 (Z.pos d))) by lia.
    rewrite pow2_resta, (pow2_Z (Z.log2 n)), (pow2_Z (Z.succ (Z.log2 (Z.pos d)))) by lia.
    rewrite (Qmake_Qdiv n d).
    assert (H2 : (0 < inject_Z (2 ^ Z.succ (Z.log2 (Z.pos d))))%Q).
    { change 0%Q with (inject_Z 0). rewrite <- Zlt_Qlt. lia. }
    assert (Hd : (0 < inject_Z (Z.pos d))%Q).
    { change 0%Q with (inject_Z 0). rewrite <- Zlt_Qlt. lia. }
    apply Qle_shift_div_r; [exact H2|].
    unfold Qdiv. rewrite <- Qmult_assoc, (Qmult_comm (/ _)), Qmult_assoc.
    apply Qle_shift_div_l; [exact Hd|].
    rewrite <- !inject_Z_mult, <- Zle_Qle. nia.
Qed.

Lemma redondear_error q k :
  -1021 <= k -> (Qabs q < pow2 k)%Q ->
  (Qabs (redondear q - q) <= pow2 (k - 54))%Q.
Proof.
  intros Hk Hq. unfold redondear.
  destruct (Qeq_bool q 0) eqn:E0.
  - apply Qeq_bool_iff in E0. rewrite E0.
    setoid_replace (0 - 0)%Q with 0%Q by ring. simpl Qabs.
    apply Qlt_le_weak, pow2_pos.
  - assert (Hne : ~ (q == 0)%Q) by (intros H; apply Qeq_bool_iff in H; congruence).
    assert (Hpos : (0 < Qabs q)%Q).
    { destruct (Qlt_le_dec 0 (Qabs q)) as [H|H]; [exact H|].
      exfalso. apply Hne.
      pose proof (Qle_Qabs q) as Ha. pose proof (Qle_Qabs (- q)) as Hb.
      rewrite Qabs_opp in Hb. lra. }
    set (e := Z.max (exponente (Qabs q)) (-1022)).
    pose proof (exponente_bajo (Qabs q) Hpos) as Hlow.
    assert (He : e <= k - 1).
    { assert (exponente (Qabs q) < k) by (apply pow2_lt_inv; lra). lia. }
    pose proof (pow2_pos (e - 52)) as Hulp.
    pose proof (pow2_mono (e - 52) (k - 53) ltac:(lia)) as Hm.
    pose proof (pow2_mitad (k - 53)) as Hh.
    replace (k - 53 - 1) with (k - 54) in Hh by lia.
    rewrite Qred_correct.
    destruct (round_half_even_cerca (q / pow2 (e - 52))) as [H1 [H2 _]].
    set (m := inject_Z (round_half_even (q / pow2 (e - 52)))) in *.
    set (u := pow2 (e - 52)) in *.
    assert (Hq' : (q == q / u * u)%Q) by (field; lra).
    apply Qabs_Qle_condition. split.
    + assert ((q / u - m) * u <= (1 # 2) * u)%Q by (apply Qmult_le_compat_r; lra).
      lra.
    + assert ((m - q / u) * u <= (1 # 2) * u)%Q by (apply Qmult_le_compat_r; lra).
      lra.
Qed.

Lemma redondear_no_negativo q : (0 <= q)%Q -> (0 <= redondear q)%Q.
Proof.
  intros Hq. unfold redondear.
  destruct (Qeq_bool q 0); [apply Qle_refl|].
  rewrite Qred_correct.
  set (u := pow2 (Z.max (exponente (Qabs q)) (-1022) - 52)).
  pose proof (pow2_pos (Z.max (exponente (Qabs q)) (-1022) - 52)) as Hu. fold u in Hu.
  destruct (round_half_even_cerca (q / u)) as [_ [_ H3]].
  assert (H0 : 0 <= Qfloor (q / u)).
  { change 0 with (Qfloor 0). apply Qfloor_resp_le.
    apply Qle_shift_div_l; [exact Hu | lra]. }
  apply Qmult_le_0_compat; [|lra].
  change 0%Q with (inject_Z 0). rewrite <- Zle_Qle. lia.
Qed.

Lemma redondear_entero z :
  Z.abs z <= 2 ^ 53 -> redondear (inject_Z z) = inject_Z z.
Proof.
  intros Hz. unfold redondear.
  destruct (Qeq_bool (inject_Z z) 0) eqn:E0.
  - apply Qeq_bool_iff in E0. unfold Qeq in E0. simpl in E0.
    assert (z = 0) by lia. subst z. reflexivity.
  - assert (Hne : z <> 0).
    { intros ->. discriminate E0. }
    set (a := Qabs (inject_Z z)).
    assert (Ha : (a == inject_Z (Z.abs z))%Q) by reflexivity.
    assert (Hpos : (0 < a)%Q).
    { rewrite Ha. change 0%Q with (inject_Z 0). rewrite <- Zlt_Qlt. lia. }
    pose proof (exponente_bajo a Hpos) as Hlow.
    set (E := exponente a) in *.
    assert (HE : E <= 53).
    { apply (Qpower_le_compat_l_inv 2); [|reflexivity].
      fold (pow2 E). fold (pow2 53). rewrite (pow2_Z 53) by lia.
      rewrite Ha in Hlow. eapply Qle_trans; [exact Hlow|].
      rewrite <- Zle_Qle. exact Hz. }
    set (e := Z.max E (-1022)).
    assert (Hint : exists n, (inject_Z z / pow2 (e - 52) == inject_Z n)%Q).
    { destruct (Z_le_gt_dec e 52) as [He|He].
      - exists (z * 2 ^ (52 - e)).
        rewrite inject_Z_mult, <- (pow2_Z (52 - e)) by lia.
        replace (e - 52) with (0 - (52 - e)) by lia.
        rewrite pow2_resta. pose proof (pow2_pos (52 - e)).
        change (pow2 0) with 1%Q. field. lra.
      - assert (e = 53) by lia.
        assert (E = 53) by lia.
        assert (Habs : Z.abs z = 2 ^ 53).
        { apply Z.le_antisymm; [exact Hz|].
          rewrite Ha in Hlow. replace E with 53 in Hlow by lia.
          rewrite (pow2_Z 53) in Hlow by lia. rewrite <- Zle_Qle in Hlow. exact Hlow. }
        exists (z / 2). replace (e - 52) with 1 by lia.
        change (pow2 1) with 2%Q.
        assert (Hz2 : z = 2 * (z / 2)).
        { destruct (Z.abs_spec z) as [[_ H1]|[_ H1]]; rewrite Habs in H1.
          - subst z. reflexivity.
          - assert (z = - 2 ^ 53) by lia. subst z. reflexivity. }
        rewrite Hz2 at 1. rewrite inject_Z_mult. field. }
    destruct Hint as [n Hn].
    rewrite (round_half_even_entero _ n Hn).
    assert (Heq : (inject_Z n * pow2 (e - 52) == inject_Z z)%Q).
    { rewrite <- Hn. pose proof (pow2_pos (e - 52)). field. lra. }
    rewrite (Qred_complete _ _ Heq).
    apply Qcanon.Qred_identity. simpl. apply Z.gcd_1_r.
Qed.

Lemma pow2_menos_53 : (pow2 (-53) == 1 # 9007199254740992)%Q.
Proof. reflexivity. Qed.

Lemma b64_finito q k :
  -1021 <= k <= 1023 -> (Qabs q < pow2 k)%Q -> b64 q = FNum (redondear q).
Proof.
  intros Hk Hq. unfold b64.
  pose proof (redondear_error q k ltac:(lia) Hq) as He.
  pose proof (pow2_mono (k - 54) k ltac:(lia)) as H1.
  pose proof (pow2_mono (k + 1) 1024 ltac:(lia)) as H2.
  assert (H3 : (pow2 (k + 1) == pow2 k * 2)%Q).
  { unfold pow2. rewrite Qpower_plus by discriminate. reflexivity. }
  apply Qabs_Qle_condition in He. apply Qabs_Qlt_condition in Hq.
  set (r := redondear q) in *. set (M := pow2 1024) in *.
  set (a := pow2 k) in *. set (b := pow2 (k - 54)) in *.
  destruct (Qle_bool M r) eqn:E1; [apply Qle_bool_iff in E1; lra|].
  destruct (Qle_bool r (- M)) eqn:E2; [apply Qle_bool_iff in E2; lra|].
  reflexivity.
Qed.

(** A value below 2 in magnitude rounds to a float within 2^-53 of it. *)
Lemma b64_cerca q :
  (Qabs q < 2)%Q ->
  exists r, b64 q = FNum r /\ (Qabs (r - q) <= 1 # 9007199254740992)%Q.
Proof.
  intros Hq. exists (redondear q). split.
  - apply (b64_finito q 1); [lia | exact Hq].
  - rewrite <- pow2_menos_53. apply (redondear_error q 1); [lia | exact Hq].
Qed.

(** Integers up to 2^53 in magnitude are floats. *)
Lemma b64_entero z : Z.abs z <= 2 ^ 53 -> b64 (inject_Z z) = FNum (inject_Z z).
Proof.
  intros Hz. rewrite (b64_finito (inject_Z z) 54); [|lia|].
  - rewrite (redondear_entero z Hz). reflexivity.
  - rewrite (pow2_Z 54) by lia.
    change (Qabs (inject_Z z)) with (inject_Z (Z.abs z)).
    rewrite <- Zlt_Qlt. lia.
Qed.

(** ** The string hash agrees with the interpreter on sample inputs *)

Example hash_1_seed1 : py_hash_str secreto_1 "1" = -3509053104883717537.
Proof. vm_compute. reflexivity. Qed.
Example hash_1_seed2 : py_hash_str secreto_2 "1" = 101719807038821996.
Proof. vm_compute. reflexivity. Qed.
Example hash_long_seed1 : py_hash_str secreto_1 "123456789012" = 942787722168464544.
Proof. vm_compute. reflexivity. Qed.
Example str_of_int_42 : str_of_int 42 = "42"%string /\ str_of_int (-7) = "-7"%string /\ str_of_int 0 = "0"%string.
Proof. vm_compute. auto. Qed.

(** ** Generic facts about the session loop *)

Section Bucle.

Context {G : Type} {RS : RandomState G}.

(** Case analysis on the pairs returned by the draws. *)
Ltac partir :=
  repeat match goal with
  | |- context [match ?x with pair _ _ => _ end] => destruct x eqn:?
  | H : context [match ?x with pair _ _ => _ end] |- _ => destruct x eqn:?
  end.

Lemma calcular_duracion_sesion_min paginas perfil genero (g : G) :
  (5 <= fst (calcular_duracion_sesion paginas perfil genero g))%Q.
Proof.
  unfold calcular_duracion_sesion. partir. simpl.
  match goal with |- context [Qlt_le_dec ?a ?b] => destruct (Qlt_le_dec a b) end.
  - apply Qlt_le_weak. assumption.
  - apply Qle_refl.
Qed.

Lemma min_max_acotado x restantes :
  0 <= restantes ->
  0 <= Z.min (Z.max 1 x) restantes <= restantes /\
  (1 <= restantes -> 1 <= Z.min (Z.max 1 x) restantes).
Proof. lia. Qed.

Lemma paginas_sesion_completado_acotada n :
  regla_acotada (paginas_sesion_completado (G := G) n).
Proof.
  intros i restantes g H. unfold paginas_sesion_completado. partir. simpl.
  apply min_max_acotado. exact H.
Qed.

Lemma paginas_sesion_abandono_temprano_acotada n :
  regla_acotada (paginas_sesion_abandono_temprano (G := G) n).
Proof.
  intros i restantes g H. unfold paginas_sesion_abandono_temprano. partir. simpl.
  apply min_max_acotado. exact H.
Qed.

Lemma paginas_sesion_abandono_medio_acotada n :
  regla_acotada (paginas_sesion_abandono_medio (G := G) n).
Proof.
  intros i restantes g H. unfold paginas_sesion_abandono_medio. partir. simpl.
  apply min_max_acotado. exact H.
Qed.

Section ConRegla.

Variable regla : Z -> Z -> G -> Z * G.
Variables book user num_pages : Z.
Variable perfil : Perfil.
Variable genero : pyval.
Variables num_sesiones objetivo : Z.

Local Abbreviation bucle :=
  (bucle_sesiones regla book user num_pages perfil genero num_sesiones objetivo).

Lemma bucle_encadenadas ts : forall i acum g,
  encadenadas acum (fst (bucle ts i acum g)).
Proof.
  induction ts as [|t r IH]; intros i acum g; simpl; [exact I|].
  partir. simpl. repeat split; [lia|].
  match goal with H : bucle_sesiones _ _ _ _ _ _ _ _ r ?i' ?a' ?g' = _ |- _ =>
    specialize (IH i' a' g'); rewrite H in IH end.
  exact IH.
Qed.

Lemma bucle_inicios ts : forall i acum g,
  map session_start (fst (bucle ts i acum g)) = ts.
Proof.
  induction ts as [|t r IH]; intros i acum g; simpl; [reflexivity|].
  partir. simpl. f_equal.
  match goal with H : bucle_sesiones _ _ _ _ _ _ _ _ r ?i' ?a' ?g' = _ |- _ =>
    specialize (IH i' a' g'); rewrite H in IH end.
  exact IH.
Qed.

Lemma bucle_duracion ts : forall i acum g,
  Forall (fun s => (5 <= duration_minutes s)%Q) (fst (bucle ts i acum g)).
Proof.
  induction ts as [|t r IH]; intros i acum g; simpl; [constructor|].
  partir. simpl. constructor.
  - simpl.
    match goal with H : calcular_duracion_sesion ?p ?pf ?ge ?g0 = (?d, _) |- _ =>
      pose proof (calcular_duracion_sesion_min p pf ge g0) as Hd; rewrite H in Hd end.
    exact Hd.
  - match goal with H : bucle_sesiones _ _ _ _ _ _ _ _ r ?i' ?a' ?g' = _ |- _ =>
      specialize (IH i' a' g'); rewrite H in IH end.
    exact IH.
Qed.

Lemma bucle_paginas ts : regla_acotada regla -> forall i acum g,
  acum <= objetivo ->
  Forall (fun s => 0 <= pages_read s /\ progress_end s <= objetivo /\
                   (progress_start s < objetivo -> 1 <= pages_read s))
         (fst (bucle ts i acum g)).
Proof.
  intros Hregla.
  induction ts as [|t r IH]; intros i acum g Hacum; simpl; [constructor|].
  partir. simpl.
  assert (Hp : 0 <= z <= objetivo - acum /\ (1 <= objetivo - acum -> 1 <= z)).
  { destruct (i =? num_sesiones - 1).
    - match goal with H : (_, _) = (z, _) |- _ => inversion H; subst end. lia.
    - match goal with H : regla ?a ?b ?c = (z, _) |- _ =>
        pose proof (Hregla a b c) as Hr; rewrite H in Hr end.
      apply Hr. lia. }
  constructor.
  - simpl. lia.
  - match goal with H : bucle_sesiones _ _ _ _ _ _ _ _ r ?i' ?a' ?g' = _ |- _ =>
      specialize (IH i' a' g'); rewrite H in IH end.
    apply IH. lia.
Qed.

Lemma bucle_final ts : forall i acum g,
  i + Z.of_nat (List.length ts) = num_sesiones -> ts <> [] ->
  progreso_final (fst (bucle ts i acum g)) = Some objetivo.
Proof.
  induction ts as [|t r IH]; intros i acum g Hlen Hne; [congruence|].
  destruct r as [|t' r'].
  - simpl in *. replace (i =? num_sesiones - 1) with true
      by (symmetry; apply Z.eqb_eq; lia).
    partir. simpl. unfold progreso_final. simpl. f_equal. lia.
  - assert (Hlen' : (i + 1) + Z.of_nat (List.length (t' :: r')) = num_sesiones)
      by (simpl List.length in *; lia).
    remember (t' :: r') as resto eqn:Hresto.
    simpl. partir. simpl.
    match goal with H : bucle_sesiones _ _ _ _ _ _ _ _ resto ?i' ?a' ?g' = _ |- _ =>
      specialize (IH i' a' g' Hlen' ltac:(subst resto; discriminate));
      rewrite H in IH; pose proof (bucle_inicios resto i' a' g') as Hm;
      rewrite H in Hm end.
    simpl fst in *. destruct l as [|s ss'].
    + subst resto. discriminate Hm.
    + exact IH.
Qed.

Lemma bucle_longitud ts : forall i acum g,
  List.length (fst (bucle ts i acum g)) = List.length ts.
Proof.
  intros i acum g. rewrite <- (bucle_inicios ts i acum g) at 2.
  rewrite length_map. reflexivity.
Qed.

End ConRegla.

End Bucle.

(** ** The temporal pattern *)

Section Patron.

Context {G : Type} {RS : RandomState G}.

Ltac partir :=
  repeat match goal with
  | |- context [match ?x with pair _ _ => _ end] => destruct x eqn:?
  end.

Lemma patron_bucle_longitud n k : forall i fecha (g : G),
  List.length (fst (patron_bucle n k i fecha g)) = k.
Proof.
  induction k as [|k IH]; intros i fecha g; simpl; [reflexivity|].
  partir. simpl. f_equal.
  match goal with H : patron_bucle n k ?i' ?f' ?g' = _ |- _ =>
    specialize (IH i' f' g'); rewrite H in IH end.
  exact IH.
Qed.

Lemma dias_tempranos_acotados x : In x [0; 1; 1; 2; 3] -> 0 <= x.
Proof. simpl. intuition lia. Qed.

Lemma dias_tardios_acotados x : In x [1; 2; 3; 4; 5; 7] -> 1 <= x.
Proof. simpl. intuition lia. Qed.

Lemma hora_semana_acotada x :
  In x [7; 8; 9; 12; 13; 19; 20; 21; 22; 23] -> 7 <= x <= 23.
Proof. simpl. intuition lia. Qed.

Lemma hora_finde_acotada x :
  In x [8; 9; 10; 11; 12; 13; 14; 15; 16; 17; 18; 19; 20; 21; 22; 23] -> 7 <= x <= 23.
Proof. simpl. intuition lia. Qed.

Lemma hora_acotada (fecha : datetime) (g1 : G) : forall h g2,
  (if weekday fecha <? 5
   then choice [7; 8; 9; 12; 13; 19; 20; 21; 22; 23]
          [0.08; 0.08; 0.06; 0.08; 0.07; 0.15; 0.15; 0.15; 0.12; 0.06]%Q g1
   else choice [8; 9; 10; 11; 12; 13; 14; 15; 16; 17; 18; 19; 20; 21; 22; 23]
          [0.05; 0.08; 0.10; 0.08; 0.06; 0.05; 0.05; 0.05; 0.08; 0.10;
           0.10; 0.08; 0.06; 0.04; 0.01; 0.01]%Q g1) = (h, g2) -> 7 <= h <= 23.
Proof.
  intros h g2 E. apply (f_equal fst) in E. cbn [fst] in E. subst h.
  destruct (weekday fecha <? 5).
  - apply hora_semana_acotada. apply choice_in. discriminate.
  - apply hora_finde_acotada. apply choice_in. discriminate.
Qed.

Lemma patron_bucle_ok n k : forall i fecha (g : G),
  patron_ok n i (ordinal fecha) (microsecond fecha)
    (fst (patron_bucle n k i fecha g)).
Proof.
  induction k as [|k IH]; intros i fecha g; simpl; [exact I|].
  destruct (Qlt_le_dec (inject_Z i) (inject_Z n * 0.3)) as [Hi|Hi].
  - (* first 30%: the gap may be 0 *)
    pose proof (choice_in [0; 1; 1; 2; 3] [0.3; 0.4; 0.2; 0.07; 0.03]%Q g
                  ltac:(discriminate)) as Hd.
    destruct (choice [0; 1; 1; 2; 3] _ g) as [dias g1]. simpl fst in Hd.
    apply dias_tempranos_acotados in Hd.
    match goal with |- context [if weekday ?f <? 5 then ?a else ?b] =>
      destruct (if weekday f <? 5 then a else b) as [hora g2] eqn:Hhora end.
    apply hora_acotada in Hhora.
    partir. simpl.
    match goal with H : randint 0 60 ?g2 = (?m, _) |- _ =>
      pose proof (randint_range 0 60 g2 ltac:(lia)) as Hm; rewrite H in Hm;
      simpl fst in Hm end.
    match goal with H : patron_bucle n k ?i' ?f' ?g' = _ |- _ =>
      specialize (IH i' f' g'); rewrite H in IH end.
    simpl in IH.
    repeat split; try lia.
    + intros Hc. exfalso. apply (Qlt_irrefl (inject_Z i)).
      eapply Qlt_le_trans; eassumption.
    + exact IH.
  - (* remaining sessions: the gap is at least one day *)
    pose proof (choice_in [1; 2; 3; 4; 5; 7] [0.25; 0.25; 0.2; 0.15; 0.1; 0.05]%Q g
                  ltac:(discriminate)) as Hd.
    destruct (choice [1; 2; 3; 4; 5; 7] _ g) as [dias g1]. simpl fst in Hd.
    apply dias_tardios_acotados in Hd.
    match goal with |- context [if weekday ?f <? 5 then ?a else ?b] =>
      destruct (if weekday f <? 5 then a else b) as [hora g2] eqn:Hhora end.
    apply hora_acotada in Hhora.
    partir. simpl.
    match goal with H : randint 0 60 ?g2 = (?m, _) |- _ =>
      pose proof (randint_range 0 60 g2 ltac:(lia)) as Hm; rewrite H in Hm;
      simpl fst in Hm end.
    match goal with H : patron_bucle n k ?i' ?f' ?g' = _ |- _ =>
      specialize (IH i' f' g'); rewrite H in IH end.
    simpl in IH.
    repeat split; try lia. exact IH.
Qed.

End Patron.

(** ** The three generators *)

Section Generadores.

Context {G : Type} {RS : RandomState G}.

Lemma trunc_no_negativo q :
  (0 <= q)%Q -> (inject_Z (trunc q) <= q)%Q /\ (q < inject_Z (trunc q) + 1)%Q /\ 0 <= trunc q.
Proof.
  intros Hq.
  assert (Hf : trunc q = Qfloor q).
  { destruct q as [a b]. unfold trunc, Qfloor. simpl.
    apply Z.quot_div_nonneg; [|lia].
    unfold Qle in Hq. simpl in Hq. lia. }
  rewrite Hf. repeat split.
  - apply Qfloor_le.
  - pose proof (Qlt_floor q) as H. rewrite inject_Z_plus in H. exact H.
  - change 0 with (Qfloor 0). apply Qfloor_resp_le. exact Hq.
Qed.

Lemma objetivo_parcial (num_pages : Z) (lo hi u : Q) :
  0 <= num_pages -> (0 <= lo)%Q -> (lo <= u)%Q -> (u < hi)%Q ->
  let objetivo := trunc (inject_Z num_pages * u) in
  0 <= objetivo /\
  (lo * inject_Z num_pages - 1 < inject_Z objetivo)%Q /\
  (inject_Z objetivo <= hi * inject_Z num_pages)%Q.
Proof.
  intros Hn Hlo Hu1 Hu2 objetivo.
  assert (Hn' : (0 <= inject_Z num_pages)%Q)
    by (change 0%Q with (inject_Z 0); rewrite <- Zle_Qle; exact Hn).
  assert (Hpos : (0 <= inject_Z num_pages * u)%Q) by nra.
  destruct (trunc_no_negativo _ Hpos) as [H1 [H2 H3]].
  fold objetivo in H1, H2, H3.
  repeat split; [exact H3 | nra | nra].
Qed.

Lemma secuencia_generada (regla : Z -> Z -> G -> Z * G)
    book user num_pages perfil genero n objetivo fecha (g g1 : G) :
  regla_acotada regla -> 1 <= n -> 0 <= objetivo ->
  let ts := fst (generar_patron_temporal_sesiones n fecha g) in
  let ss := fst (bucle_sesiones regla book user num_pages perfil genero n
                   objetivo ts 0 0 g1) in
  secuencia_valida objetivo ss /\ Z.of_nat (List.length ss) = n.
Proof.
  intros Hregla Hn Hobj ts ss.
  assert (Hts : List.length ts = Z.to_nat n)
    by apply patron_bucle_longitud.
  assert (Hss : List.length ss = Z.to_nat n)
    by (unfold ss; rewrite bucle_longitud; exact Hts).
  assert (Hne : ts <> []).
  { intros E. rewrite E in Hts. simpl in Hts. lia. }
  split; [|lia].
  unfold secuencia_valida. repeat split.
  - intros E. rewrite E in Hss. simpl in Hss. lia.
  - apply bucle_encadenadas.
  - apply bucle_final; [lia | exact Hne].
  - apply bucle_duracion.
  - apply bucle_paginas; [exact Hregla | exact Hobj].
  - exists (ordinal fecha), (microsecond fecha).
    unfold ss at 2. rewrite bucle_inicios.
    replace (Z.of_nat (List.length ss)) with n by lia.
    apply patron_bucle_ok.
Qed.

Lemma simular_sesiones_completado_valida secreto ahora book user num_pages genero (g : G) :
  0 <= num_pages ->
  let ss := fst (simular_sesiones_completado secreto ahora book user num_pages genero g) in
  let n := Z.of_nat (List.length ss) in
  secuencia_valida num_pages ss /\
  3 <= n < 40 /\
  (num_pages < 150 -> 3 <= n < 8) /\
  (150 <= num_pages < 300 -> 6 <= n < 15) /\
  (300 <= num_pages < 500 -> 10 <= n < 25) /\
  (500 <= num_pages -> 15 <= n < 40).
Proof.
  intros Hnp. unfold simular_sesiones_completado.
  set (sorteo := if num_pages <? 150 then randint 3 8 g
                 else if num_pages <? 300 then randint 6 15 g
                 else if num_pages <? 500 then randint 10 25 g
                 else randint 15 40 g).
  assert (Hrango : 3 <= fst sorteo < 40 /\
                   (num_pages < 150 -> 3 <= fst sorteo < 8) /\
                   (150 <= num_pages < 300 -> 6 <= fst sorteo < 15) /\
                   (300 <= num_pages < 500 -> 10 <= fst sorteo < 25) /\
                   (500 <= num_pages -> 15 <= fst sorteo < 40)).
  { unfold sorteo.
    destruct (Z.ltb_spec num_pages 150);
      [pose proof (randint_range 3 8 g ltac:(lia)); lia|].
    destruct (Z.ltb_spec num_pages 300);
      [pose proof (randint_range 6 15 g ltac:(lia)); lia|].
    destruct (Z.ltb_spec num_pages 500);
      [pose proof (randint_range 10 25 g ltac:(lia)); lia|].
    pose proof (randint_range 15 40 g ltac:(lia)); lia. }
  destruct sorteo as [n g1]. simpl fst in Hrango.
  destruct (randint 30 365 g1) as [dias g2].
  destruct (generar_patron_temporal_sesiones n (add_days ahora (- dias)) g2)
    as [ts g3] eqn:Ets.
  pose proof (secuencia_generada (paginas_sesion_completado n) book user num_pages
                (determinar_perfil_lector secreto user) genero n num_pages
                (add_days ahora (- dias)) g2 g3
                (paginas_sesion_completado_acotada n) ltac:(lia) Hnp) as H.
  rewrite Ets in H. simpl in H. destruct H as [Hv Hl].
  cbv zeta. rewrite Hl. split; [exact Hv | exact Hrango].
Qed.

Lemma simular_sesiones_abandono_temprano_valida
    secreto ahora book user num_pages genero (g : G) :
  0 <= num_pages ->
  let ss := fst (simular_sesiones_abandono_temprano secreto ahora book user
                   num_pages genero g) in
  exists objetivo,
    secuencia_valida objetivo ss /\
    1 <= Z.of_nat (List.length ss) < 5 /\
    0 <= objetivo /\
    (0.05 * inject_Z num_pages - 1 < inject_Z objetivo)%Q /\
    (inject_Z objetivo <= 0.30 * inject_Z num_pages)%Q.
Proof.
  intros Hnp. unfold simular_sesiones_abandono_temprano.
  pose proof (randint_range 1 5 g ltac:(lia)) as Hn.
  destruct (randint 1 5 g) as [n g1]. simpl fst in Hn.
  destruct (randint 30 180 g1) as [dias g2].
  destruct (generar_patron_temporal_sesiones n (add_days ahora (- dias)) g2)
    as [ts g3] eqn:Ets.
  pose proof (uniform_range 0.05 0.30 g3 ltac:(reflexivity)) as [Hu1 Hu2].
  destruct (uniform 0.05 0.30 g3) as [u g4]. simpl fst in Hu1, Hu2.
  destruct (objetivo_parcial num_pages 0.05 0.30 u Hnp ltac:(discriminate) Hu1 Hu2)
    as [Ho [Hlo Hhi]].
  pose proof (secuencia_generada (paginas_sesion_abandono_temprano n) book user
                num_pages (determinar_perfil_lector secreto user) genero n
                (trunc (inject_Z num_pages * u))
                (add_days ahora (- dias)) g2 g4
                (paginas_sesion_abandono_temprano_acotada n) ltac:(lia) Ho) as H.
  rewrite Ets in H. simpl in H. destruct H as [Hv Hl].
  cbv zeta. exists (trunc (inject_Z num_pages * u)).
  split; [exact Hv|]. rewrite Hl.
  split; [lia|]. split; [exact Ho|]. split; assumption.
Qed.

Lemma simular_sesiones_abandono_medio_valida
    secreto ahora book user num_pages genero (g : G) :
  0 <= num_pages ->
  let ss := fst (simular_sesiones_abandono_medio secreto ahora book user
                   num_pages genero g) in
  exists objetivo,
    secuencia_valida objetivo ss /\
    5 <= Z.of_nat (List.length ss) < 15 /\
    0 <= objetivo /\
    (0.30 * inject_Z num_pages - 1 < inject_Z objetivo)%Q /\
    (inject_Z objetivo <= 0.70 * inject_Z num_pages)%Q.
Proof.
  intros Hnp. unfold simular_sesiones_abandono_medio.
  pose proof (randint_range 5 15 g ltac:(lia)) as Hn.
  destruct (randint 5 15 g) as [n g1]. simpl fst in Hn.
  destruct (randint 60 300 g1) as [dias g2].
  destruct (generar_patron_temporal_sesiones n (add_days ahora (- dias)) g2)
    as [ts g3] eqn:Ets.
  pose proof (uniform_range 0.30 0.70 g3 ltac:(reflexivity)) as [Hu1 Hu2].
  destruct (uniform 0.30 0.70 g3) as [u g4]. simpl fst in Hu1, Hu2.
  destruct (objetivo_parcial num_pages 0.30 0.70 u Hnp ltac:(discriminate) Hu1 Hu2)
    as [Ho [Hlo Hhi]].
  pose proof (secuencia_generada (paginas_sesion_abandono_medio n) book user
                num_pages (determinar_perfil_lector secreto user) genero n
                (trunc (inject_Z num_pages * u))
                (add_days ahora (- dias)) g2 g4
                (paginas_sesion_abandono_medio_acotada n) ltac:(lia) Ho) as H.
  rewrite Ets in H. simpl in H. destruct H as [Hv Hl].
  cbv zeta. exists (trunc (inject_Z num_pages * u)).
  split; [exact Hv|]. rewrite Hl.
  split; [lia|]. split; [exact Ho|]. split; assumption.
Qed.

End Generadores.

(** ** The dispatch on a row *)

Section Interaccion.

Context {G : Type} {RS : RandomState G}.
Variable float_of_str : string -> option pyfloat.

Lemma convertir_num_pages_min v n :
  convertir_num_pages float_of_str v = inr n -> 1 <= n.
Proof.
  unfold convertir_num_pages.
  destruct (if notna v then _ else _) as [[| |]|m]; intros H;
    inversion H; subst; lia.
Qed.

(** A row that yields sessions yields the output of one of the three
    generators on the converted page count, or no session at all. *)
Lemma simular_para_interaccion_rutas secreto ahora row (g : G) ss g' :
  simular_para_interaccion float_of_str secreto ahora row g = inr (ss, g') ->
  exists num_pages,
    convertir_num_pages float_of_str (get_or (f_num_pages row) (PInt 300))
      = inr num_pages /\
    1 <= num_pages /\
    (ss = [] \/
     exists g0,
       let genero := get_or (f_genres row) (PStr "default") in
       (ss, g') = simular_sesiones_completado secreto ahora
                    (f_book_id row) (f_user_id row) num_pages genero g0 \/
       (ss, g') = simular_sesiones_abandono_temprano secreto ahora
                    (f_book_id row) (f_user_id row) num_pages genero g0 \/
       (ss, g') = simular_sesiones_abandono_medio secreto ahora
                    (f_book_id row) (f_user_id row) num_pages genero g0).
Proof.
  unfold simular_para_interaccion.
  destruct (convertir_num_pages float_of_str (get_or (f_num_pages row) (PInt 300)))
    as [e|num_pages] eqn:Enp; [discriminate|].
  intros H. exists num_pages. split; [reflexivity|].
  split; [eapply convertir_num_pages_min; exact Enp|].
  destruct (py_eq_num (get_or (f_is_read row) (PInt 0)) 0
            && isna (get_or (f_rating row) (PInt 3))).
  { left. inversion H. reflexivity. }
  right.
  destruct (if py_eq_num (get_or (f_is_read row) (PInt 0)) 1
            then py_ge_num (get_or (f_rating row) (PInt 3)) 4
            else inr false) as [e|[|]]; [discriminate| |].
  { exists g. left. inversion H. reflexivity. }
  destruct (py_le_num (get_or (f_rating row) (PInt 3)) 2) as [e|[|]];
    [discriminate| |].
  { exists g. right. left. inversion H. reflexivity. }
  destruct (py_int (get_or (f_rating row) (PInt 3))) as [e|r]; [discriminate|].
  destruct (numero (get_or (f_abandono_score row) (PInt 0))) as [e|ab]; [discriminate|].
  destruct (numero (get_or (f_engagement_score row) (PInt 0))) as [e|en]; [discriminate|].
  destruct (numero (get_or (f_complejidad_score row) (PInt 0))) as [e|co]; [discriminate|].
  destruct (numero (get_or (f_ritmo_score row) (PInt 0))) as [e|ri]; [discriminate|].
  destruct (random g) as [x g0]. exists g0.
  destruct (f_lt (FNum x) _).
  - destruct (f_lt en _); inversion H; auto.
  - inversion H; auto.
Qed.

Lemma simular_para_interaccion_valida secreto ahora row (g : G) ss g' :
  simular_para_interaccion float_of_str secreto ahora row g = inr (ss, g') ->
  ss = [] \/
  exists num_pages objetivo,
    convertir_num_pages float_of_str (get_or (f_num_pages row) (PInt 300))
      = inr num_pages /\
    secuencia_valida objetivo ss /\ objetivo <= num_pages.
Proof.
  intros H. apply simular_para_interaccion_rutas in H.
  destruct H as [np [Enp [Hnp [Hnil | [g0 Hruta]]]]]; [left; exact Hnil | right].
  exists np. cbv zeta in Hruta.
  assert (Hnp0 : 0 <= np) by lia.
  assert (Hq : (0 <= inject_Z np)%Q)
    by (change 0%Q with (inject_Z 0); rewrite <- Zle_Qle; exact Hnp0).
  destruct Hruta as [Hc | [Ht | Hm]].
  - exists np.
    pose proof (simular_sesiones_completado_valida secreto ahora (f_book_id row)
                  (f_user_id row) np (get_or (f_genres row) (PStr "default")) g0 Hnp0) as Hv.
    rewrite <- Hc in Hv. simpl in Hv. destruct Hv as [Hv _].
    split; [exact Enp|]. split; [exact Hv | lia].
  - pose proof (simular_sesiones_abandono_temprano_valida secreto ahora (f_book_id row)
                  (f_user_id row) np (get_or (f_genres row) (PStr "default")) g0 Hnp0) as Hv.
    rewrite <- Ht in Hv. simpl in Hv. destruct Hv as [obj [Hv [_ [_ [_ Hhi]]]]].
    exists obj. split; [exact Enp|]. split; [exact Hv|].
    rewrite Zle_Qle. lra.
  - pose proof (simular_sesiones_abandono_medio_valida secreto ahora (f_book_id row)
                  (f_user_id row) np (get_or (f_genres row) (PStr "default")) g0 Hnp0) as Hv.
    rewrite <- Hm in Hv. simpl in Hv. destruct Hv as [obj [Hv [_ [_ [_ Hhi]]]]].
    exists obj. split; [exact Enp|]. split; [exact Hv|].
    rewrite Zle_Qle. lra.
Qed.

End Interaccion.

(** ** Consequences of a chained sequence *)

Lemma encadenadas_primera inicio ss s :
  encadenadas inicio ss -> hd_error ss = Some s -> progress_start s = inicio.
Proof.
  destruct ss as [|a r]; simpl; [discriminate|].
  intros [H _] E. congruence.
Qed.

Lemma encadenadas_consecutivas ss : forall inicio i a b,
  encadenadas inicio ss ->
  nth_error ss i = Some a -> nth_error ss (S i) = Some b ->
  progress_start b = progress_end a.
Proof.
  induction ss as [|s r IH]; intros inicio i a b Hc Ha Hb.
  - destruct i; discriminate.
  - destruct Hc as [_ [_ Hr]]. destruct i as [|i].
    + simpl in Ha, Hb. destruct r as [|s' r']; [discriminate|].
      simpl in Hb. destruct Hr as [Hs _]. congruence.
    + simpl in Ha, Hb. eapply IH; eassumption.
Qed.

Lemma encadenadas_paginas ss : forall inicio s,
  encadenadas inicio ss -> In s ss ->
  pages_read s = progress_end s - progress_start s.
Proof.
  induction ss as [|a r IH]; intros inicio s Hc Hin; [contradiction|].
  destruct Hc as [_ [Hp Hr]]. destruct Hin as [E|Hin].
  - congruence.
  - eapply IH; eassumption.
Qed.

(** * Properties of the generated sessions *)

(** C1. In every session sequence the simulator generates for one
    interaction the progress values chain: the first session starts at
    progress 0, every later session starts where the previous one ended,
    and [pages_read = progress_end - progress_start] in every session. *)
Theorem progreso_encadenado :
  forall (G : Type) (RS : RandomState G) (float_of_str : string -> option pyfloat)
         secreto ahora row (g : G) ss g',
    simular_para_interaccion float_of_str secreto ahora row g = inr (ss, g') ->
    (forall s, hd_error ss = Some s -> progress_start s = 0) /\
    (forall i a b, nth_error ss i = Some a -> nth_error ss (S i) = Some b ->
                   progress_start b = progress_end a) /\
    (forall s, In s ss -> pages_read s = progress_end s - progress_start s).
Proof.
  intros G RS fos secreto ahora row g ss g' H.
  apply simular_para_interaccion_valida in H.
  assert (Hc : encadenadas 0 ss).
  { destruct H as [E | [np [obj [_ [Hv _]]]]].
    - subst ss. exact I.
    - apply Hv. }
  repeat split.
  - intros s. apply encadenadas_primera. exact Hc.
  - intros i a b. apply encadenadas_consecutivas with (inicio := 0). exact Hc.
  - intros s. apply encadenadas_paginas with (inicio := 0). exact Hc.
Qed.

Lemma progreso_encadenado_witness :
  correr secreto_1 ahora_ejemplo fila_medio cinta_medio
    = inr (sesiones_medio, cinta_de corrida_medio) /\
  (forall s, hd_error sesiones_medio = Some s -> progress_start s = 0) /\
  (forall i a b, nth_error sesiones_medio i = Some a ->
                 nth_error sesiones_medio (S i) = Some b ->
                 progress_start b = progress_end a) /\
  (forall s, In s sesiones_medio ->
             pages_read s = progress_end s - progress_start s).
Proof.
  split.
  - vm_compute. reflexivity.
  - apply (progreso_encadenado cinta RandomState_cinta float_decimal secreto_1
             ahora_ejemplo fila_medio cinta_medio sesiones_medio
             (cinta_de corrida_medio)).
    vm_compute. reflexivity.
Defined.

(** C2. The terminal progress of a generated sequence never exceeds the
    page count; the completed generator ends at exactly [num_pages]; the
    early-abandonment generator ends within 5% to 30% of [num_pages] and
    the midway one within 30% to 70%, each up to one page of truncation. *)
Theorem progreso_objetivo :
  forall (G : Type) (RS : RandomState G) (float_of_str : string -> option pyfloat)
         secreto ahora,
    (forall row (g : G) ss g' num_pages p,
       simular_para_interaccion float_of_str secreto ahora row g = inr (ss, g') ->
       convertir_num_pages float_of_str (get_or (f_num_pages row) (PInt 300))
         = inr num_pages ->
       progreso_final ss = Some p -> p <= num_pages) /\
    (forall book user num_pages genero (g : G),
       1 <= num_pages ->
       progreso_final
         (fst (simular_sesiones_completado secreto ahora book user num_pages genero g))
       = Some num_pages) /\
    (forall book user num_pages genero (g : G),
       1 <= num_pages ->
       exists p,
         progreso_final
           (fst (simular_sesiones_abandono_temprano secreto ahora book user
                   num_pages genero g)) = Some p /\
         (0.05 * inject_Z num_pages - 1 < inject_Z p)%Q /\
         (inject_Z p <= 0.30 * inject_Z num_pages)%Q) /\
    (forall book user num_pages genero (g : G),
       1 <= num_pages ->
       exists p,
         progreso_final
           (fst (simular_sesiones_abandono_medio secreto ahora book user
                   num_pages genero g)) = Some p /\
         (0.30 * inject_Z num_pages - 1 < inject_Z p)%Q /\
         (inject_Z p <= 0.70 * inject_Z num_pages)%Q).
Proof.
  intros G RS fos secreto ahora. repeat split.
  - intros row g ss g' np p H Enp Hp.
    apply simular_para_interaccion_valida in H.
    destruct H as [E | [np' [obj [Enp' [Hv Hle]]]]].
    + subst ss. discriminate Hp.
    + destruct Hv as [_ [_ [Hf _]]]. rewrite Hf in Hp.
      rewrite Enp in Enp'. inversion Enp'; inversion Hp; subst. exact Hle.
  - intros book user np genero g Hnp.
    pose proof (simular_sesiones_completado_valida secreto ahora book user np
                  genero g ltac:(lia)) as [Hv _].
    apply Hv.
  - intros book user np genero g Hnp.
    pose proof (simular_sesiones_abandono_temprano_valida secreto ahora book user np
                  genero g ltac:(lia)) as [obj [Hv [_ [_ [Hlo Hhi]]]]].
    exists obj. split; [apply Hv | split; assumption].
  - intros book user np genero g Hnp.
    pose proof (simular_sesiones_abandono_medio_valida secreto ahora book user np
                  genero g ltac:(lia)) as [obj [Hv [_ [_ [Hlo Hhi]]]]].
    exists obj. split; [apply Hv | split; assumption].
Qed.

Lemma progreso_objetivo_witness :
  (correr secreto_1 ahora_ejemplo fila_medio cinta_medio
     = inr (sesiones_medio, cinta_de corrida_medio) /\
   convertir_num_pages float_decimal (get_or (f_num_pages fila_medio) (PInt 300))
     = inr 200 /\
   progreso_final sesiones_medio = Some 90 /\ 90 <= 200) /\
  (1 <= 100 /\
   progreso_final
     (fst (simular_sesiones_completado secreto_1 ahora_ejemplo 7 1 100
             (PStr "fiction") cinta_completado)) = Some 100) /\
  (1 <= 200 /\
   exists p,
     progreso_final
       (fst (simular_sesiones_abandono_temprano secreto_1 ahora_ejemplo 7 1 200
               (PStr "fiction") cinta_completado)) = Some p /\
     (0.05 * inject_Z 200 - 1 < inject_Z p)%Q /\
     (inject_Z p <= 0.30 * inject_Z 200)%Q) /\
  (1 <= 200 /\
   exists p,
     progreso_final
       (fst (simular_sesiones_abandono_medio secreto_1 ahora_ejemplo 7 1 200
               (PStr "fiction") cinta_completado)) = Some p /\
     (0.30 * inject_Z 200 - 1 < inject_Z p)%Q /\
     (inject_Z p <= 0.70 * inject_Z 200)%Q).
Proof.
  pose proof (progreso_objetivo cinta RandomState_cinta float_decimal secreto_1
                ahora_ejemplo) as [HA [HB [HC HD]]].
  assert (E1 : correr secreto_1 ahora_ejemplo fila_medio cinta_medio
               = inr (sesiones_medio, cinta_de corrida_medio))
    by (vm_compute; reflexivity).
  assert (E2 : convertir_num_pages float_decimal
                 (get_or (f_num_pages fila_medio) (PInt 300)) = inr 200)
    by (vm_compute; reflexivity).
  assert (E3 : progreso_final sesiones_medio = Some 90)
    by (vm_compute; reflexivity).
  split; [|split; [|split]].
  - split; [exact E1|]. split; [exact E2|]. split; [exact E3|].
    exact (HA fila_medio cinta_medio sesiones_medio (cinta_de corrida_medio)
             200 90 E1 E2 E3).
  - split; [lia|]. apply HB. lia.
  - split; [lia|]. apply HC. lia.
  - split; [lia|]. apply HD. lia.
Defined.

Lemma patron_ok_consecutivos l : forall n i dia us k a b,
  patron_ok n i dia us l ->
  nth_error l k = Some a -> nth_error l (S k) = Some b ->
  ordinal a <= ordinal b /\
  ((inject_Z n * 0.3 <= inject_Z (i + Z.of_nat (S k)))%Q -> dt_lt a b).
Proof.
  induction l as [|t r IH]; intros n i dia us k a b Hok Ha Hb.
  - destruct k; discriminate.
  - destruct Hok as [_ [_ [Hh [Hm [Hs [Hus Hr]]]]]].
    destruct k as [|k].
    + simpl in Ha, Hb. inversion Ha; subst t. clear Ha.
      destruct r as [|t' r']; [discriminate|].
      simpl in Hb. inversion Hb; subst t'. clear Hb.
      destruct Hr as [Hd [Hd1 [Hh' [Hm' [Hs' [Hus' _]]]]]].
      split; [exact Hd|].
      change (i + Z.of_nat 1) with (i + 1). intros Hc. specialize (Hd1 Hc).
      unfold dt_lt, dt_key. lia.
    + simpl in Ha, Hb.
      replace (i + Z.of_nat (S (S k))) with ((i + 1) + Z.of_nat (S k)) by lia.
      eapply IH; eassumption.
Qed.

(** C4 (as amended). Within every generated sequence the calendar day of
    [session_start] never goes back from one session to the next, and
    [session_start] strictly increases into every session whose index is
    at or past 30% of the session count, where the day gap is at least 1.
    Among the first 30% of the sessions the gap may be 0 days and the time
    of day is drawn afresh, so no strict order holds there. *)
Theorem inicios_ordenados :
  forall (G : Type) (RS : RandomState G) (float_of_str : string -> option pyfloat)
         secreto ahora row (g : G) ss g',
    simular_para_interaccion float_of_str secreto ahora row g = inr (ss, g') ->
    forall i a b,
      nth_error ss i = Some a -> nth_error ss (S i) = Some b ->
      ordinal (session_start a) <= ordinal (session_start b) /\
      ((inject_Z (Z.of_nat (List.length ss)) * 0.3 <= inject_Z (Z.of_nat (S i)))%Q ->
       dt_lt (session_start a) (session_start b)).
Proof.
  intros G RS fos secreto ahora row g ss g' H i a b Ha Hb.
  apply simular_para_interaccion_valida in H.
  destruct H as [E | [np [obj [_ [Hv _]]]]].
  - subst ss. destruct i; discriminate.
  - destruct Hv as [_ [_ [_ [_ [_ [dia [us Hok]]]]]]].
    apply (map_nth_error session_start) in Ha, Hb.
    exact (patron_ok_consecutivos _ _ 0 dia us i _ _ Hok Ha Hb).
Qed.

Lemma inicios_ordenados_witness :
  correr secreto_1 ahora_ejemplo fila_medio cinta_medio
    = inr (sesiones_medio, cinta_de corrida_medio) /\
  forall i a b,
    nth_error sesiones_medio i = Some a -> nth_error sesiones_medio (S i) = Some b ->
    ordinal (session_start a) <= ordinal (session_start b) /\
    ((inject_Z (Z.of_nat (List.length sesiones_medio)) * 0.3
        <= inject_Z (Z.of_nat (S i)))%Q ->
     dt_lt (session_start a) (session_start b)).
Proof.
  split.
  - vm_compute. reflexivity.
  - apply (inicios_ordenados cinta RandomState_cinta float_decimal secreto_1
             ahora_ejemplo fila_medio cinta_medio sesiones_medio
             (cinta_de corrida_medio)).
    vm_compute. reflexivity.
Defined.

(** C4 (as stated) fails: in the four-session run of the 100-page book the
    second session starts on the same day as the first, at 08:07, before
    the first one's 23:05. *)
Lemma inicios_no_estrictos :
  correr secreto_1 ahora_ejemplo fila_completado cinta_completado
    = inr (sesiones_completado, cinta_de corrida_completado) /\
  exists a b,
    nth_error sesiones_completado 0 = Some a /\
    nth_error sesiones_completado 1 = Some b /\
    ~ dt_lt (session_start a) (session_start b).
Proof.
  split; [vm_compute; reflexivity|].
  eexists. eexists.
  split; [vm_compute; reflexivity|].
  split; [vm_compute; reflexivity|].
  vm_compute. intros H. discriminate H.
Qed.

(** C9 (as amended). Every session has [pages_read >= 0]; a session that
    starts before the terminal progress of its sequence reads at least one
    page, and a session that starts once the terminal progress is reached
    reads none. *)
Theorem paginas_no_negativas :
  forall (G : Type) (RS : RandomState G) (float_of_str : string -> option pyfloat)
         secreto ahora row (g : G) ss g',
    simular_para_interaccion float_of_str secreto ahora row g = inr (ss, g') ->
    forall s, In s ss ->
      0 <= pages_read s /\
      forall p, progreso_final ss = Some p ->
        progress_start s <= p /\
        (progress_start s < p -> 1 <= pages_read s) /\
        (progress_start s = p -> pages_read s = 0).
Proof.
  intros G RS fos secreto ahora row g ss g' H s Hin.
  apply simular_para_interaccion_valida in H.
  destruct H as [E | [np [obj [_ [Hv _]]]]]; [subst ss; contradiction|].
  destruct Hv as [_ [Hc [Hf [_ [Hp _]]]]].
  rewrite Forall_forall in Hp. destruct (Hp s Hin) as [H0 [Hend H1]].
  pose proof (encadenadas_paginas ss 0 s Hc Hin) as Heq.
  split; [exact H0|].
  intros p Ep. rewrite Hf in Ep. inversion Ep; subst p.
  repeat split; [lia | exact H1 | lia].
Qed.

Lemma paginas_no_negativas_witness :
  correr secreto_1 ahora_ejemplo fila_medio cinta_medio
    = inr (sesiones_medio, cinta_de corrida_medio) /\
  forall s, In s sesiones_medio ->
    0 <= pages_read s /\
    forall p, progreso_final sesiones_medio = Some p ->
      progress_start s <= p /\
      (progress_start s < p -> 1 <= pages_read s) /\
      (progress_start s = p -> pages_read s = 0).
Proof.
  split.
  - vm_compute. reflexivity.
  - apply (paginas_no_negativas cinta RandomState_cinta float_decimal secreto_1
             ahora_ejemplo fila_medio cinta_medio sesiones_medio
             (cinta_de corrida_medio)).
    vm_compute. reflexivity.
Defined.

(** C9 (as stated) fails: a one-page book abandoned early has a target of
    [int(1 * u)] = 0 pages, and its only session reads 0 pages. *)
Lemma paginas_cero :
  correr secreto_1 ahora_ejemplo fila_una_pagina []
    = inr (sesiones_una_pagina, cinta_de corrida_una_pagina) /\
  exists s, In s sesiones_una_pagina /\ ~ (1 <= pages_read s).
Proof.
  split; [vm_compute; reflexivity|].
  eexists. split; [left; reflexivity|].
  vm_compute. intros H. apply H. reflexivity.
Qed.

(** C10 (as amended). A read interaction rated 5 on a 320-page book runs
    the completed generator, produces between 10 and 24 sessions (320
    pages fall in the 300-to-499 bracket, drawn by [randint(10, 25)]), and
    its last session ends at progress 320. *)
Theorem escenario_320 :
  forall (G : Type) (RS : RandomState G) (float_of_str : string -> option pyfloat)
         secreto ahora row (g : G),
    f_is_read row = Some (PInt 1) ->
    f_rating row = Some (PInt 5) ->
    f_num_pages row = Some (PInt 320) ->
    let salida :=
      simular_sesiones_completado secreto ahora (f_book_id row) (f_user_id row)
        320 (get_or (f_genres row) (PStr "default")) g in
    simular_para_interaccion float_of_str secreto ahora row g = inr salida /\
    10 <= Z.of_nat (List.length (fst salida)) <= 24 /\
    progreso_final (fst salida) = Some 320.
Proof.
  intros G RS fos secreto ahora row g Hr Hra Hnp salida.
  split.
  - unfold simular_para_interaccion. rewrite Hr, Hra, Hnp. reflexivity.
  - pose proof (simular_sesiones_completado_valida secreto ahora (f_book_id row)
                  (f_user_id row) 320 (get_or (f_genres row) (PStr "default")) g
                  ltac:(lia)) as [Hv [_ [_ [_ [H _]]]]].
    fold salida in Hv, H. split; [lia | apply Hv].
Qed.

Lemma escenario_320_witness :
  f_is_read fila_320 = Some (PInt 1) /\
  f_rating fila_320 = Some (PInt 5) /\
  f_num_pages fila_320 = Some (PInt 320) /\
  let salida :=
    simular_sesiones_completado secreto_1 ahora_ejemplo (f_book_id fila_320)
      (f_user_id fila_320) 320 (get_or (f_genres fila_320) (PStr "default"))
      [20%Q] in
  simular_para_interaccion float_decimal secreto_1 ahora_ejemplo fila_320 [20%Q]
    = inr salida /\
  10 <= Z.of_nat (List.length (fst salida)) <= 24 /\
  progreso_final (fst salida) = Some 320.
Proof.
  split; [reflexivity|]. split; [reflexivity|]. split; [reflexivity|].
  apply (escenario_320 cinta RandomState_cinta float_decimal secreto_1
           ahora_ejemplo fila_320 [20%Q]); reflexivity.
Defined.

(** C10 (as stated) fails: with the session count drawn as 20 the run has
    20 sessions, outside the range 6 to 15. *)
Lemma escenario_320_fuera_de_rango :
  correr secreto_1 ahora_ejemplo fila_320 [20%Q]
    = inr (sesiones_320, cinta_de corrida_320) /\
  ~ (6 <= Z.of_nat (List.length sesiones_320) <= 15).
Proof.
  split; [vm_compute; reflexivity|].
  vm_compute. intros [_ H]. apply H. reflexivity.
Qed.

(** ** The adjusted abandonment probability *)

Lemma py_min_uno s :
  f_lt (FNum 0) s = true ->
  exists m, py_min s (FNum 1) = FNum m /\ (0 < m)%Q /\ (m <= 1)%Q.
Proof.
  destruct s as [q| | |]; simpl; try discriminate.
  - destruct (Qlt_le_dec 0 q) as [Hq|]; [intros _|discriminate].
    unfold py_min. simpl. destruct (Qlt_le_dec 1 q).
    + exists 1%Q. repeat split; discriminate.
    + exists q. repeat split; assumption.
  - intros _. exists 1%Q. repeat split; discriminate.
Qed.

Lemma py_min_uno_abs s :
  f_lt s (FNum 0) = true ->
  exists m, py_min (f_abs s) (FNum 1) = FNum m /\ (0 < m)%Q /\ (m <= 1)%Q.
Proof.
  intros H. apply py_min_uno.
  destruct s as [q| | |]; simpl in *; try discriminate; [|reflexivity].
  destruct (Qlt_le_dec q 0) as [Hq|]; [|discriminate].
  destruct (Qlt_le_dec 0 (Qabs q)) as [|Hc]; [reflexivity|].
  exfalso. apply (Qlt_irrefl 0).
  apply Qlt_le_trans with (y := Qabs q); [|exact Hc].
  rewrite Qabs_neg by (apply Qlt_le_weak; exact Hq). lra.
Qed.

Lemma clamp_finito p :
  exists q, py_max (FNum 0) (py_min (FNum 1) (FNum p)) = FNum q /\
            (0 <= q)%Q /\ (q <= 1)%Q /\ (q == Qmax 0 (Qmin 1 p))%Q.
Proof.
  unfold py_min, py_max. simpl.
  destruct (Qlt_le_dec p 1) as [H1|H1]; simpl.
  - destruct (Qlt_le_dec 0 p) as [H0|H0].
    + exists p. repeat split; [lra | lra |].
      rewrite (Q.min_r 1 p) by lra. rewrite Q.max_r by lra. reflexivity.
    + exists 0%Q. repeat split; [lra | lra |].
      rewrite (Q.min_r 1 p) by lra. rewrite Q.max_l by lra. reflexivity.
  - exists 1%Q. repeat split; [lra | lra |].
    rewrite (Q.min_l 1 p) by lra. rewrite Q.max_r by lra. reflexivity.
Qed.

Lemma py_min_finito a :
  exists m, py_min (FNum a) (FNum 1) = FNum m /\ (m == Qmin a 1)%Q.
Proof.
  unfold py_min. simpl. destruct (Qlt_le_dec 1 a).
  - exists 1%Q. split; [reflexivity|]. rewrite Q.min_r by lra. reflexivity.
  - exists a. split; [reflexivity|]. rewrite Q.min_l by lra. reflexivity.
Qed.

Lemma lit_0 : lit 0.0 = FNum 0.
Proof. vm_compute. reflexivity. Qed.

Lemma lit_1 : lit 1.0 = FNum 1.
Proof. vm_compute. reflexivity. Qed.

(** The clamp returns a number of [0, 1] whatever it is given. *)
Lemma clamp_total x :
  exists q, py_max (FNum 0) (py_min (FNum 1) x) = FNum q /\ (0 <= q)%Q /\ (q <= 1)%Q.
Proof.
  destruct x as [p| | |].
  - destruct (clamp_finito p) as [q [Hq [H0 [H1 _]]]]. exists q. auto.
  - exists 1%Q. repeat split; discriminate.
  - exists 1%Q. repeat split; discriminate.
  - exists 0%Q. repeat split; discriminate.
Qed.

Lemma clamp_cerca p P q Q K :
  (q == Qmax 0 (Qmin 1 p))%Q -> (Q == Qmax 0 (Qmin 1 P))%Q ->
  (Qabs (p - P) <= K)%Q -> (Qabs (q - Q) <= K)%Q.
Proof.
  intros Hq HQ H. apply Qabs_Qle_condition in H. apply Qabs_Qle_condition.
  rewrite Hq, HQ.
  pose proof (Q.max_spec 0 (Qmin 1 p)) as A1. pose proof (Q.min_spec 1 p) as A2.
  pose proof (Q.max_spec 0 (Qmin 1 P)) as A3. pose proof (Q.min_spec 1 P) as A4.
  set (x := Qmin 1 p) in *. set (y := Qmin 1 P) in *.
  set (X := Qmax 0 x) in *. set (Y := Qmax 0 y) in *.
  destruct A1 as [[? ?]|[? ?]], A2 as [[? ?]|[? ?]],
           A3 as [[? ?]|[? ?]], A4 as [[? ?]|[? ?]]; split; lra.
Qed.

(** One adjustment in binary64: the literal, the product and the sum (or
    difference) each add at most 2^-53 to the distance from the exact
    value. *)
Lemma paso (resta : bool) p P K m w :
  (Qabs (p - P) <= K)%Q -> (K <= 1 # 100)%Q -> (Qabs P <= 3 # 2)%Q ->
  (0 <= m)%Q -> (m <= 1)%Q -> (0 <= w)%Q -> (w <= 1 # 4)%Q ->
  exists p',
    (if resta then fl_sub else fl_add) (FNum p) (fl_mul (FNum m) (lit w)) = FNum p' /\
    (Qabs (p' - (if resta then P - m * w else P + m * w))
       <= K + (3 # 9007199254740992))%Q.
Proof.
  intros Hp HK HP Hm0 Hm1 Hw0 Hw1.
  apply Qabs_Qle_condition in Hp. apply Qabs_Qle_condition in HP.
  destruct (b64_cerca w) as [w' [Ew Hw]].
  { apply Qabs_Qlt_condition. split; lra. }
  apply Qabs_Qle_condition in Hw.
  unfold lit. rewrite Ew. cbn [fl_mul f_mul fl].
  assert (Hmw : (- (1 # 9007199254740992) <= m * w' - m * w
                 /\ m * w' - m * w <= 1 # 9007199254740992)%Q) by (split; nra).
  assert (Hmw0 : (0 <= m * w /\ m * w <= 1 # 4)%Q) by (split; nra).
  set (mw := (m * w)%Q) in *. set (mw' := (m * w')%Q) in *.
  destruct (b64_cerca mw') as [t [Et Ht]].
  { apply Qabs_Qlt_condition. split; lra. }
  apply Qabs_Qle_condition in Ht. rewrite Et.
  destruct resta; cbn [fl_add fl_sub f_sub f_neg f_add fl].
  - destruct (b64_cerca (p + - t)) as [p' [Ep Hp']].
    { apply Qabs_Qlt_condition. split; lra. }
    apply Qabs_Qle_condition in Hp'. exists p'. split; [exact Ep|].
    apply Qabs_Qle_condition. split; lra.
  - destruct (b64_cerca (p + t)) as [p' [Ep Hp']].
    { apply Qabs_Qlt_condition. split; lra. }
    apply Qabs_Qle_condition in Hp'. exists p'. split; [exact Ep|].
    apply Qabs_Qle_condition. split; lra.
Qed.

(** One guarded adjustment: [T] is the exact term, 0 when the guard is
    false. *)
Lemma etapa (resta cond : bool) (ms : pyfloat) p P K w :
  (Qabs (p - P) <= K)%Q -> (K <= 1 # 100)%Q -> (Qabs P <= 3 # 2)%Q ->
  (0 <= w)%Q -> (w <= 1 # 4)%Q ->
  (cond = true -> exists m, ms = FNum m /\ (0 < m)%Q /\ (m <= 1)%Q) ->
  exists p' T,
    (if cond then (if resta then fl_sub else fl_add) (FNum p) (fl_mul ms (lit w))
     else FNum p) = FNum p' /\
    (Qabs (p' - (if resta then P - T else P + T))
       <= K + (3 # 9007199254740992))%Q /\
    (0 <= T)%Q /\ (T <= w)%Q /\
    (cond = false -> T == 0)%Q /\
    (forall m, cond = true -> ms = FNum m -> T == m * w)%Q.
Proof.
  intros Hp HK HP Hw0 Hw1 Hms. destruct cond.
  - destruct (Hms eq_refl) as [m [-> [Hm0 Hm1]]].
    destruct (paso resta p P K m w Hp HK HP ltac:(lra) Hm1 Hw0 Hw1) as [p' [Ep Hp']].
    exists p', (m * w)%Q. split; [exact Ep|]. split; [exact Hp'|].
    split; [nra|]. split; [nra|]. split; [discriminate|].
    intros m' _ Em. inversion Em. reflexivity.
  - exists p, 0%Q. split; [reflexivity|].
    split.
    + apply Qabs_Qle_condition in Hp. apply Qabs_Qle_condition.
      destruct resta; split; lra.
    + split; [lra|]. split; [exact Hw0|]. split; [reflexivity|]. discriminate.
Qed.

(** The probability the code computes is within 13 roundings of 2^-53 of
    the exact clamped sum [base + T1 - T2 + T3 + T4], where each [T] is
    the exact adjustment of its rule. *)
Lemma probabilidad_ajustada_cerca base ab en co ri :
  (0 <= base)%Q -> (base <= 1)%Q ->
  exists q T1 T2 T3 T4,
    probabilidad_ajustada base ab en co ri = FNum q /\
    (0 <= q)%Q /\ (q <= 1)%Q /\
    (Qabs (q - Qmax 0 (Qmin 1 (base + T1 - T2 + T3 + T4)))
       <= 13 # 9007199254740992)%Q /\
    ((0 <= T1)%Q /\ (T1 <= 0.25)%Q /\
     (f_lt (FNum 0) ab = false -> T1 == 0)%Q /\
     (forall m, f_lt (FNum 0) ab = true -> py_min ab (FNum 1) = FNum m ->
                T1 == m * 0.25)%Q) /\
    ((0 <= T2)%Q /\ (T2 <= 0.15)%Q /\
     (f_lt (FNum 0) en = false -> T2 == 0)%Q /\
     (forall m, f_lt (FNum 0) en = true -> py_min en (FNum 1) = FNum m ->
                T2 == m * 0.15)%Q) /\
    ((0 <= T3)%Q /\ (T3 <= 0.10)%Q /\
     (f_lt (FNum 0) co = false -> T3 == 0)%Q /\
     (forall m, f_lt (FNum 0) co = true -> py_min co (FNum 1) = FNum m ->
                T3 == m * 0.10)%Q) /\
    ((0 <= T4)%Q /\ (T4 <= 0.08)%Q /\
     (f_lt ri (FNum 0) = false -> T4 == 0)%Q /\
     (forall m, f_lt ri (FNum 0) = true -> py_min (f_abs ri) (FNum 1) = FNum m ->
                T4 == m * 0.08)%Q).
Proof.
  intros Hb0 Hb1. unfold probabilidad_ajustada. cbv zeta. rewrite lit_0, lit_1.
  destruct (b64_cerca base) as [p0 [E0 H0]].
  { apply Qabs_Qlt_condition. split; lra. }
  change (lit base) with (b64 base). rewrite E0.
  destruct (etapa false (f_lt (FNum 0) ab) (py_min ab (FNum 1)) p0 base
              (1 # 9007199254740992) 0.25 H0 ltac:(lra)
              ltac:(apply Qabs_Qle_condition; split; lra) ltac:(lra) ltac:(lra)
              (py_min_uno ab))
    as [p1 [T1 [E1 [H1 [A1 [B1 [C1 D1]]]]]]].
  rewrite E1. clear E1.
  destruct (etapa true (f_lt (FNum 0) en) (py_min en (FNum 1)) p1 (base + T1) _ 0.15
              H1 ltac:(lra) ltac:(apply Qabs_Qle_condition; split; lra)
              ltac:(lra) ltac:(lra) (py_min_uno en))
    as [p2 [T2 [E2 [H2 [A2 [B2 [C2 D2]]]]]]].
  rewrite E2. clear E2.
  destruct (etapa false (f_lt (FNum 0) co) (py_min co (FNum 1)) p2 (base + T1 - T2) _ 0.10
              H2 ltac:(lra) ltac:(apply Qabs_Qle_condition; split; lra)
              ltac:(lra) ltac:(lra) (py_min_uno co))
    as [p3 [T3 [E3 [H3 [A3 [B3 [C3 D3]]]]]]].
  rewrite E3. clear E3.
  destruct (etapa false (f_lt ri (FNum 0)) (py_min (f_abs ri) (FNum 1)) p3
              (base + T1 - T2 + T3) _ 0.08
              H3 ltac:(lra) ltac:(apply Qabs_Qle_condition; split; lra)
              ltac:(lra) ltac:(lra) (py_min_uno_abs ri))
    as [p4 [T4 [E4 [H4 [A4 [B4 [C4 D4]]]]]]].
  rewrite E4. clear E4.
  destruct (clamp_finito p4) as [q [Eq [Hq0 [Hq1 Hq]]]].
  exists q, T1, T2, T3, T4. split; [exact Eq|]. split; [exact Hq0|]. split; [exact Hq1|].
  split.
  { apply (clamp_cerca p4 (base + T1 - T2 + T3 + T4)); [exact Hq | reflexivity|].
    apply Qabs_Qle_condition in H4. apply Qabs_Qle_condition. split; lra. }
  repeat split; assumption.
Qed.

Lemma probabilidad_ajustada_acotada base ab en co ri :
  exists q, probabilidad_ajustada base ab en co ri = FNum q /\
            (0 <= q)%Q /\ (q <= 1)%Q.
Proof.
  unfold probabilidad_ajustada. rewrite lit_0, lit_1. apply clamp_total.
Qed.

Lemma py_min_finito_pos a m :
  py_min (FNum a) (FNum 1) = FNum m -> (m == Qmin a 1)%Q.
Proof.
  intros H. destruct (py_min_finito a) as [m' [E Hm]].
  rewrite E in H. inversion H. subst. exact Hm.
Qed.

(** For finite scores the code's value is within 2^-49 of the formula of
    the specification evaluated on the rationals. *)
Lemma probabilidad_ajustada_spec a e c r :
  exists q,
    probabilidad_ajustada (prob_base 3) (FNum a) (FNum e) (FNum c) (FNum r) = FNum q /\
    (Qabs (q - prob_rating3_spec a e c r) <= 1 # 562949953421312)%Q.
Proof.
  destruct (probabilidad_ajustada_cerca (prob_base 3) (FNum a) (FNum e) (FNum c) (FNum r))
    as [q [T1 [T2 [T3 [T4 [Eq [_ [_ [H [R1 [R2 [R3 R4]]]]]]]]]]]];
    [discriminate | discriminate |].
  destruct R1 as [_ [_ [C1 D1]]], R2 as [_ [_ [C2 D2]]],
           R3 as [_ [_ [C3 D3]]], R4 as [_ [_ [C4 D4]]].
  exists q. split; [exact Eq|].
  assert (E1 : (T1 == if Qlt_le_dec 0 a then Qmin a 1 * 0.25 else 0)%Q).
  { cbn [f_lt] in C1, D1. destruct (Qlt_le_dec 0 a); [|apply C1; reflexivity].
    destruct (py_min_finito a) as [m [Em Hm]].
    rewrite (D1 m eq_refl Em), Hm. reflexivity. }
  assert (E2 : (T2 == if Qlt_le_dec 0 e then Qmin e 1 * 0.15 else 0)%Q).
  { cbn [f_lt] in C2, D2. destruct (Qlt_le_dec 0 e); [|apply C2; reflexivity].
    destruct (py_min_finito e) as [m [Em Hm]].
    rewrite (D2 m eq_refl Em), Hm. reflexivity. }
  assert (E3 : (T3 == if Qlt_le_dec 0 c then Qmin c 1 * 0.10 else 0)%Q).
  { cbn [f_lt] in C3, D3. destruct (Qlt_le_dec 0 c); [|apply C3; reflexivity].
    destruct (py_min_finito c) as [m [Em Hm]].
    rewrite (D3 m eq_refl Em), Hm. reflexivity. }
  assert (E4 : (T4 == if Qlt_le_dec r 0 then Qmin (Qabs r) 1 * 0.08 else 0)%Q).
  { cbn [f_lt f_abs] in C4, D4. destruct (Qlt_le_dec r 0); [|apply C4; reflexivity].
    destruct (py_min_finito (Qabs r)) as [m [Em Hm]].
    rewrite (D4 m eq_refl Em), Hm. reflexivity. }
  assert (Es : (prob_rating3_spec a e c r
                == Qmax 0 (Qmin 1 (prob_base 3 + T1 - T2 + T3 + T4)))%Q).
  { unfold prob_rating3_spec. rewrite E1, E2, E3, E4. reflexivity. }
  rewrite Es. eapply Qle_trans; [exact H|]. discriminate.
Qed.

(** C5 (as amended). For a rating-3 interaction the probability compared
    with the coin flip is the base 0.40 adjusted by the four
    review-feature rules and clamped, computed in binary64.  It lies in
    [0, 1] whatever the four scores are (NaN and infinite scores
    included); for finite scores it is within 2^-49 of the value of the
    formula on the rationals; and for [abandono_score] = 0.8 with the
    other scores 0 it is 0.6000000000000001, the float that follows 0.60,
    which exceeds 0.60 by 1/(5 * 2^51). *)
Theorem probabilidad_rating3 :
  (forall ab en co ri : pyfloat,
     exists q, probabilidad_ajustada (prob_base 3) ab en co ri = FNum q /\
               (0 <= q)%Q /\ (q <= 1)%Q) /\
  (forall a e c r : Q,
     exists q,
       probabilidad_ajustada (prob_base 3) (FNum a) (FNum e) (FNum c) (FNum r)
         = FNum q /\
       (Qabs (q - prob_rating3_spec a e c r) <= 1 # 562949953421312)%Q) /\
  (exists q,
     probabilidad_ajustada (prob_base 3) (lit 0.8) (FNum 0) (FNum 0) (FNum 0)
       = FNum q /\
     (q - 0.60 == 1 # 11258999068426240)%Q) /\
  (forall (G : Type) (RS : RandomState G) (float_of_str : string -> option pyfloat)
          secreto ahora row (g : G) ab en co ri num_pages,
     f_rating row = Some (PInt 3) ->
     numero (get_or (f_abandono_score row) (PInt 0)) = inr ab ->
     numero (get_or (f_engagement_score row) (PInt 0)) = inr en ->
     numero (get_or (f_complejidad_score row) (PInt 0)) = inr co ->
     numero (get_or (f_ritmo_score row) (PInt 0)) = inr ri ->
     convertir_num_pages float_of_str (get_or (f_num_pages row) (PInt 300))
       = inr num_pages ->
     simular_para_interaccion float_of_str secreto ahora row g =
       inr (let genero := get_or (f_genres row) (PStr "default") in
            let '(x, g1) := random g in
            if f_lt (FNum x) (probabilidad_ajustada (prob_base 3) ab en co ri) then
              if f_lt en (lit (-0.2)) then
                simular_sesiones_abandono_temprano secreto ahora (f_book_id row)
                  (f_user_id row) num_pages genero g1
              else
                simular_sesiones_abandono_medio secreto ahora (f_book_id row)
                  (f_user_id row) num_pages genero g1
            else
              simular_sesiones_completado secreto ahora (f_book_id row)
                (f_user_id row) num_pages genero g1)).
Proof.
  split; [intros; apply probabilidad_ajustada_acotada|].
  split; [apply probabilidad_ajustada_spec|].
  split; [eexists; split; [vm_compute; reflexivity | reflexivity]|].
  intros G RS fos secreto ahora row g ab en co ri np Hr Hab Hen Hco Hri Hnp.
  unfold simular_para_interaccion.
  rewrite Hnp, Hr, Hab, Hen, Hco, Hri. simpl get_or.
  change (isna (PInt 3)) with false. rewrite andb_false_r.
  replace (if py_eq_num (get_or (f_is_read row) (PInt 0)) 1
           then py_ge_num (PInt 3) 4 else inr false)
    with (@inr Exn bool false)
    by (destruct (py_eq_num (get_or (f_is_read row) (PInt 0)) 1); reflexivity).
  change (py_le_num (PInt 3) 2) with (@inr Exn bool false).
  change (py_int (PInt 3)) with (@inr Exn Z 3).
  cbv iota beta. destruct (random g) as [x g1].
  destruct (f_lt (FNum x) _); [destruct (f_lt en _)|]; reflexivity.
Qed.

Lemma probabilidad_rating3_witness :
  let row := fila_rating3 (lit 0.8) (FNum 0) (FNum 0) (FNum 0) in
  f_rating row = Some (PInt 3) /\
  numero (get_or (f_abandono_score row) (PInt 0)) = inr (lit 0.8) /\
  numero (get_or (f_engagement_score row) (PInt 0)) = inr (FNum 0) /\
  numero (get_or (f_complejidad_score row) (PInt 0)) = inr (FNum 0) /\
  numero (get_or (f_ritmo_score row) (PInt 0)) = inr (FNum 0) /\
  convertir_num_pages float_decimal (get_or (f_num_pages row) (PInt 300)) = inr 300 /\
  simular_para_interaccion float_decimal secreto_1 ahora_ejemplo row [0.59%Q] =
    inr (let genero := get_or (f_genres row) (PStr "default") in
         let '(x, g1) := random [0.59%Q] in
         if f_lt (FNum x)
              (probabilidad_ajustada (prob_base 3) (lit 0.8) (FNum 0) (FNum 0) (FNum 0))
         then
           if f_lt (FNum 0) (lit (-0.2)) then
             simular_sesiones_abandono_temprano secreto_1 ahora_ejemplo (f_book_id row)
               (f_user_id row) 300 genero g1
           else
             simular_sesiones_abandono_medio secreto_1 ahora_ejemplo (f_book_id row)
               (f_user_id row) 300 genero g1
         else
           simular_sesiones_completado secreto_1 ahora_ejemplo (f_book_id row)
             (f_user_id row) 300 genero g1).
Proof.
  intros row.
  split; [reflexivity|]. split; [reflexivity|]. split; [reflexivity|].
  split; [reflexivity|]. split; [reflexivity|]. split; [vm_compute; reflexivity|].
  apply (proj2 (proj2 (proj2 probabilidad_rating3)) cinta RandomState_cinta
           float_decimal secreto_1 ahora_ejemplo row [0.59%Q]
           (lit 0.8) (FNum 0) (FNum 0) (FNum 0) 300); reflexivity.
Defined.

(** C5 (as stated) fails: for [abandono_score] = 0.8 with the other
    scores 0 the code's probability is 0.6000000000000001.  It is neither
    the number 0.60 nor the float the literal 0.60 denotes, which lies
    strictly below it: a draw equal to that float abandons the book. *)
Lemma probabilidad_rating3_no_exacta :
  probabilidad_ajustada (prob_base 3) (lit 0.8) (FNum 0) (FNum 0) (FNum 0)
    = FNum (1351079888211149 # 2251799813685248) /\
  ~ f_equiv (probabilidad_ajustada (prob_base 3) (lit 0.8) (FNum 0) (FNum 0) (FNum 0))
            (FNum 0.60) /\
  ~ f_equiv (probabilidad_ajustada (prob_base 3) (lit 0.8) (FNum 0) (FNum 0) (FNum 0))
            (lit 0.60) /\
  f_lt (lit 0.60)
       (probabilidad_ajustada (prob_base 3) (lit 0.8) (FNum 0) (FNum 0) (FNum 0)) = true /\
  List.length
    (sesiones_de (correr secreto_1 ahora_ejemplo
                    (fila_rating3 (lit 0.8) (FNum 0) (FNum 0) (FNum 0))
                    [redondear 0.60]))
    = 5%nat.
Proof.
  split; [vm_compute; reflexivity|].
  split; [vm_compute; intros H; discriminate H|].
  split; [vm_compute; intros H; discriminate H|].
  split; vm_compute; reflexivity.
Qed.

(** With a draw of 0.59, below the adjusted probability, the row above
    abandons midway; with the unadjusted base 0.40 it would have
    completed. *)
Example moneda_rating3 :
  List.length
    (sesiones_de (correr secreto_1 ahora_ejemplo
                    (fila_rating3 (lit 0.8) (FNum 0) (FNum 0) (FNum 0)) [0.59%Q]))
    = 5%nat /\
  List.length
    (sesiones_de (correr secreto_1 ahora_ejemplo
                    (fila_rating3 (FNum 0) (FNum 0) (FNum 0) (FNum 0)) [0.59%Q]))
    = 10%nat.
Proof. split; vm_compute; reflexivity. Qed.

(** ** What a run depends on besides the seed *)

(** The residues 0 to 99 split 20 / 55 / 25 between the three profiles. *)
Lemma particion_perfiles :
  let residuos := map Z.of_nat (seq 0 100) in
  let cuenta p :=
    List.length (filter (fun h => match perfil_de_hash h, p with
                                  | rapido, rapido | medio, medio | lento, lento => true
                                  | _, _ => false
                                  end) residuos) in
  cuenta rapido = 20%nat /\ cuenta medio = 55%nat /\ cuenta lento = 25%nat.
Proof. vm_compute. repeat split; reflexivity. Qed.

(** Within one process (one hash secret) the profile is a function of the
    user identifier and of nothing else, and it is always one of the three
    residue classes. *)
Lemma perfil_en_un_proceso secreto user :
  let h := py_hash_str secreto (str_of_int user) mod 100 in
  0 <= h < 100 /\
  determinar_perfil_lector secreto user =
    (if h <? 20 then rapido else if h <? 75 then medio else lento).
Proof.
  intros h. split; [apply Z.mod_pos_bound; lia | reflexivity].
Qed.

(** C6 (failing input). The profile of user 1 is [medio] in a process
    whose hash secret is that of [PYTHONHASHSEED=1] and [lento] in one
    whose secret is that of [PYTHONHASHSEED=2]: the profile is not a
    function of the user identifier across runs. *)
Theorem perfil_depende_del_proceso :
  determinar_perfil_lector secreto_1 1 = medio /\
  determinar_perfil_lector secreto_2 1 = lento /\
  determinar_perfil_lector secreto_1 1 <> determinar_perfil_lector secreto_2 1.
Proof.
  split; [vm_compute; reflexivity|].
  split; [vm_compute; reflexivity|].
  vm_compute. discriminate.
Qed.

(** C3 (failing input). The same row simulated from the same generator
    state yields different session starts when the clock reads one day
    later, and different durations when the process has another hash
    secret; the page counts are the same in the three runs. *)
Theorem simulacion_no_reproducible :
  let base := sesiones_de (correr secreto_1 ahora_ejemplo fila_completado cinta_completado) in
  let otro_dia := sesiones_de (correr secreto_1 ahora_siguiente fila_completado cinta_completado) in
  let otro_proceso := sesiones_de (correr secreto_2 ahora_ejemplo fila_completado cinta_completado) in
  map session_start base <> map session_start otro_dia /\
  map duration_minutes base <> map duration_minutes otro_proceso /\
  map pages_read base = map pages_read otro_dia /\
  map pages_read base = map pages_read otro_proceso.
Proof.
  split; [vm_compute; discriminate|].
  split; [vm_compute; discriminate|].
  split; vm_compute; reflexivity.
Qed.

(** C7 (failing input). A read row whose rating is missing (NaN) passes
    the three rating tests as false and reaches [int(rating)], which
    raises [ValueError]; a row whose page count is infinite raises
    [OverflowError], which the handler around the conversion does not
    name.  Neither returns a session list. *)
Theorem rating_ausente_lanza :
  forall (G : Type) (RS : RandomState G) (float_of_str : string -> option pyfloat)
         secreto ahora (g : G),
    simular_para_interaccion float_of_str secreto ahora fila_sin_rating g
      = inl ValueError /\
    simular_para_interaccion float_of_str secreto ahora fila_paginas_inf g
      = inl OverflowError.
Proof.
  intros. split; reflexivity.
Qed.

(** The cases of malformed data that the row dispatch does absorb: a
    missing, unparsable or NaN page count becomes 300, and an unread row
    without rating yields no session. *)
Lemma datos_ausentes_absorbidos :
  forall (G : Type) (RS : RandomState G) (float_of_str : string -> option pyfloat),
    convertir_num_pages float_of_str (PFloat FNaN) = inr 300 /\
    convertir_num_pages float_of_str PNone = inr 300 /\
    (forall s, float_of_str s = None ->
               convertir_num_pages float_of_str (PStr s) = inr 300) /\
    (forall secreto ahora (g : G) num_pages,
       Z.abs num_pages <= 2 ^ 53 ->
       simular_para_interaccion float_of_str secreto ahora
         (fila (PInt 0) (PFloat FNaN) (PInt num_pages)) g = inr ([], g)).
Proof.
  intros G RS fos. repeat split.
  - intros s Hs. unfold convertir_num_pages. simpl. rewrite Hs. reflexivity.
  - intros secreto ahora g np Hnp. unfold simular_para_interaccion, convertir_num_pages.
    cbn [fila f_num_pages f_is_read f_rating get_or notna isna negb py_float].
    rewrite (b64_entero np Hnp). reflexivity.
Qed.

(** * Further properties of the simulator *)

Section CamposDelBucle.

Context {G : Type} {RS : RandomState G}.

Ltac partir :=
  repeat match goal with
  | |- context [match ?x with pair _ _ => _ end] => destruct x eqn:?
  end.

Variable regla : Z -> Z -> G -> Z * G.
Variables book user num_pages : Z.
Variable perfil : Perfil.
Variable genero : pyval.
Variables num_sesiones objetivo : Z.

Local Abbreviation bucle :=
  (bucle_sesiones regla book user num_pages perfil genero num_sesiones objetivo).

Lemma bucle_campos ts : forall i acum g,
  Forall (campos_derivados book user num_pages) (fst (bucle ts i acum g)).
Proof.
  induction ts as [|t r IH]; intros i acum g; simpl; [constructor|].
  partir. simpl. constructor.
  - repeat split.
  - match goal with H : bucle_sesiones _ _ _ _ _ _ _ _ r ?i' ?a' ?g' = _ |- _ =>
      specialize (IH i' a' g'); rewrite H in IH end.
    exact IH.
Qed.

Lemma bucle_duracion_formula ts : forall i acum g,
  Forall (fun s => exists g0,
            duration_minutes s
              = fst (calcular_duracion_sesion (pages_read s) perfil genero g0))
         (fst (bucle ts i acum g)).
Proof.
  induction ts as [|t r IH]; intros i acum g; simpl; [constructor|].
  destruct (if i =? num_sesiones - 1 then (objetivo - acum, g)
            else regla i (objetivo - acum) g) as [p g1].
  destruct (calcular_duracion_sesion p perfil genero g1) as [d g2] eqn:Ed.
  specialize (IH (i + 1) (acum + p) g2).
  destruct (bucle_sesiones regla book user num_pages perfil genero num_sesiones
              objetivo r (i + 1) (acum + p) g2) as [resto g3].
  simpl. constructor; [|exact IH].
  simpl. exists g1. rewrite Ed. reflexivity.
Qed.

Lemma bucle_rango ts : regla_acotada regla -> forall i acum g,
  0 <= acum <= objetivo ->
  Forall (fun s => acum <= progress_start s /\
                   progress_start s <= progress_end s /\
                   progress_end s <= objetivo)
         (fst (bucle ts i acum g)).
Proof.
  intros Hregla.
  induction ts as [|t r IH]; intros i acum g Hacum; simpl; [constructor|].
  destruct (if i =? num_sesiones - 1 then (objetivo - acum, g)
            else regla i (objetivo - acum) g) as [p g1] eqn:Ep.
  assert (Hp : 0 <= p <= objetivo - acum).
  { destruct (i =? num_sesiones - 1).
    - inversion Ep; subst. lia.
    - pose proof (Hregla i (objetivo - acum) g ltac:(lia)) as [Hr _].
      rewrite Ep in Hr. exact Hr. }
  partir. simpl. constructor.
  - simpl. lia.
  - match goal with H : bucle_sesiones _ _ _ _ _ _ _ _ r ?i' ?a' ?g' = _ |- _ =>
      specialize (IH i' a' g' ltac:(lia)); rewrite H in IH end.
    eapply Forall_impl; [|exact IH]. simpl. intros s; lia.
Qed.

End CamposDelBucle.

Section FormaDeLaSalida.

Context {G : Type} {RS : RandomState G}.
Variable float_of_str : string -> option pyfloat.

(** Every non-empty output is the session loop run on the timestamps of
    the temporal pattern, for a bounded page rule, a session count between
    1 and 39, a page target between 0 and the page count, and a start date
    between 364 and 30 days before the clock reading. *)
Lemma simular_para_interaccion_forma secreto ahora row (g : G) ss g' :
  simular_para_interaccion float_of_str secreto ahora row g = inr (ss, g') ->
  ss = [] \/
  exists num_pages regla n objetivo dias g0 g1,
    convertir_num_pages float_of_str (get_or (f_num_pages row) (PInt 300))
      = inr num_pages /\
    1 <= num_pages /\ regla_acotada regla /\ 1 <= n <= 39 /\
    0 <= objetivo <= num_pages /\ 30 <= dias <= 364 /\
    ss = fst (bucle_sesiones regla (f_book_id row) (f_user_id row) num_pages
                (determinar_perfil_lector secreto (f_user_id row))
                (get_or (f_genres row) (PStr "default")) n objetivo
                (fst (generar_patron_temporal_sesiones n
                        (add_days ahora (- dias)) g0)) 0 0 g1).
Proof.
  intros H. apply simular_para_interaccion_rutas in H.
  destruct H as [np [Enp [Hnp [Hnil | [g0 Hruta]]]]]; [left; exact Hnil | right].
  exists np. cbv zeta in Hruta.
  assert (Hq : (0 <= inject_Z np)%Q)
    by (change 0%Q with (inject_Z 0); rewrite <- Zle_Qle; lia).
  destruct Hruta as [Hc | [Ht | Hm]].
  - unfold simular_sesiones_completado in Hc.
    set (sorteo := if np <? 150 then randint 3 8 g0
                   else if np <? 300 then randint 6 15 g0
                   else if np <? 500 then randint 10 25 g0
                   else randint 15 40 g0) in Hc.
    assert (Hn : 3 <= fst sorteo < 40).
    { unfold sorteo.
      destruct (np <? 150); [pose proof (randint_range 3 8 g0 ltac:(lia)); lia|].
      destruct (np <? 300); [pose proof (randint_range 6 15 g0 ltac:(lia)); lia|].
      destruct (np <? 500); [pose proof (randint_range 10 25 g0 ltac:(lia)); lia|].
      pose proof (randint_range 15 40 g0 ltac:(lia)); lia. }
    destruct sorteo as [n g1]. simpl fst in Hn.
    pose proof (randint_range 30 365 g1 ltac:(lia)) as Hd.
    destruct (randint 30 365 g1) as [dias g2]. simpl fst in Hd.
    destruct (generar_patron_temporal_sesiones n (add_days ahora (- dias)) g2)
      as [ts g3] eqn:Ets.
    exists (paginas_sesion_completado n), n, np, dias, g2, g3.
    rewrite Ets. simpl fst. rewrite <- Hc. simpl fst.
    split; [exact Enp|]. split; [lia|].
    split; [apply paginas_sesion_completado_acotada|].
    split; [lia|]. split; [lia|]. split; [lia|]. reflexivity.
  - unfold simular_sesiones_abandono_temprano in Ht.
    pose proof (randint_range 1 5 g0 ltac:(lia)) as Hn.
    destruct (randint 1 5 g0) as [n g1]. simpl fst in Hn.
    pose proof (randint_range 30 180 g1 ltac:(lia)) as Hd.
    destruct (randint 30 180 g1) as [dias g2]. simpl fst in Hd.
    destruct (generar_patron_temporal_sesiones n (add_days ahora (- dias)) g2)
      as [ts g3] eqn:Ets.
    pose proof (uniform_range 0.05 0.30 g3 ltac:(reflexivity)) as [Hu1 Hu2].
    destruct (uniform 0.05 0.30 g3) as [u g4]. simpl fst in Hu1, Hu2.
    destruct (objetivo_parcial np 0.05 0.30 u ltac:(lia) ltac:(discriminate) Hu1 Hu2)
      as [Ho [_ Hhi]].
    exists (paginas_sesion_abandono_temprano n), n,
           (trunc (inject_Z np * u)), dias, g2, g4.
    rewrite Ets. simpl fst. rewrite <- Ht. simpl fst.
    assert (trunc (inject_Z np * u) <= np) by (rewrite Zle_Qle; lra).
    split; [exact Enp|]. split; [lia|].
    split; [apply paginas_sesion_abandono_temprano_acotada|].
    split; [lia|]. split; [lia|]. split; [lia|]. reflexivity.
  - unfold simular_sesiones_abandono_medio in Hm.
    pose proof (randint_range 5 15 g0 ltac:(lia)) as Hn.
    destruct (randint 5 15 g0) as [n g1]. simpl fst in Hn.
    pose proof (randint_range 60 300 g1 ltac:(lia)) as Hd.
    destruct (randint 60 300 g1) as [dias g2]. simpl fst in Hd.
    destruct (generar_patron_temporal_sesiones n (add_days ahora (- dias)) g2)
      as [ts g3] eqn:Ets.
    pose proof (uniform_range 0.30 0.70 g3 ltac:(reflexivity)) as [Hu1 Hu2].
    destruct (uniform 0.30 0.70 g3) as [u g4]. simpl fst in Hu1, Hu2.
    destruct (objetivo_parcial np 0.30 0.70 u ltac:(lia) ltac:(discriminate) Hu1 Hu2)
      as [Ho [_ Hhi]].
    exists (paginas_sesion_abandono_medio n), n,
           (trunc (inject_Z np * u)), dias, g2, g4.
    rewrite Ets. simpl fst. rewrite <- Hm. simpl fst.
    assert (trunc (inject_Z np * u) <= np) by (rewrite Zle_Qle; lra).
    split; [exact Enp|]. split; [lia|].
    split; [apply paginas_sesion_abandono_medio_acotada|].
    split; [lia|]. split; [lia|]. split; [lia|]. reflexivity.
Qed.

End FormaDeLaSalida.

(** ** The duration of a session *)

(** The formula of [calcular_duracion_sesion]: the words over a speed
    drawn from the range of the profile, plus a normal noise of scale 10%
    of that base, floored at 5. *)
Lemma calcular_duracion_sesion_formula {G : Type} {RS : RandomState G}
    paginas perfil genero (g : G) :
  let rango := velocidad_lectura_palabras_min perfil in
  let velocidad := fst (uniform (fst rango) (snd rango) g) in
  let g1 := snd (uniform (fst rango) (snd rango) g) in
  let base := (inject_Z (paginas * palabras_pag genero) / velocidad)%Q in
  let ruido := fst (normal 0 (base * 0.1) g1) in
  (fst rango <= velocidad)%Q /\ (velocidad < snd rango)%Q /\
  (fst (calcular_duracion_sesion paginas perfil genero g) == Qmax 5 (base + ruido))%Q.
Proof.
  intros rango velocidad g1 base ruido.
  assert (Hr : (fst rango < snd rango)%Q)
    by (unfold rango; destruct perfil; reflexivity).
  destruct (uniform_range (fst rango) (snd rango) g Hr) as [Hlo Hhi].
  split; [exact Hlo|]. split; [exact Hhi|].
  unfold calcular_duracion_sesion.
  replace (velocidad_lectura_palabras_min perfil) with (fst rango, snd rango)
    by (unfold rango; destruct (velocidad_lectura_palabras_min perfil); reflexivity).
  unfold velocidad, g1 in *.
  destruct (uniform (fst rango) (snd rango) g) as [v g2]. simpl fst in *. simpl snd in *.
  unfold ruido in *. unfold base in *.
  destruct (normal 0 (inject_Z (paginas * palabras_pag genero) / v * 0.1) g2)
    as [r g3]. simpl fst.
  destruct (Qlt_le_dec 5 (inject_Z (paginas * palabras_pag genero) / v + r)) as [Hc|Hc].
  - symmetry. apply Q.max_r. apply Qlt_le_weak. exact Hc.
  - symmetry. apply Q.max_l. exact Hc.
Qed.

(** C8. Every generated session lasts at least 5 minutes, and its
    duration is the formula on its own inputs: the words of the session
    (its [pages_read] times the words per page of the row's genre) over a
    speed drawn from the range of the profile of the row's user, plus a
    normal noise of scale 10% of that base, floored at 5. *)
Theorem duracion_minima :
  forall (G : Type) (RS : RandomState G) (float_of_str : string -> option pyfloat)
         secreto ahora row (g : G) ss g',
    simular_para_interaccion float_of_str secreto ahora row g = inr (ss, g') ->
    forall s, In s ss ->
      (5 <= duration_minutes s)%Q /\
      exists g0 : G,
        let rango := velocidad_lectura_palabras_min
                       (determinar_perfil_lector secreto (f_user_id row)) in
        let velocidad := fst (uniform (fst rango) (snd rango) g0) in
        let g1 := snd (uniform (fst rango) (snd rango) g0) in
        let palabras :=
          pages_read s * palabras_pag (get_or (f_genres row) (PStr "default")) in
        let base := (inject_Z palabras / velocidad)%Q in
        let ruido := fst (normal 0 (base * 0.1) g1) in
        (fst rango <= velocidad)%Q /\ (velocidad < snd rango)%Q /\
        (duration_minutes s == Qmax 5 (base + ruido))%Q.
Proof.
  intros G RS fos secreto ahora row g ss g' H s Hin.
  apply simular_para_interaccion_forma in H.
  destruct H as [E | [np [regla [n [obj [dias [g0 [g1 [_ [_ [_ [_ [_ [_ Hss]]]]]]]]]]]]]];
    [subst ss; contradiction|].
  pose proof (bucle_duracion_formula regla (f_book_id row) (f_user_id row) np
                (determinar_perfil_lector secreto (f_user_id row))
                (get_or (f_genres row) (PStr "default")) n obj
                (fst (generar_patron_temporal_sesiones n (add_days ahora (- dias)) g0))
                0 0 g1) as Hf.
  rewrite <- Hss in Hf. rewrite Forall_forall in Hf.
  destruct (Hf s Hin) as [gs Hd].
  split.
  - rewrite Hd. apply calcular_duracion_sesion_min.
  - exists gs. cbv zeta. rewrite Hd. apply calcular_duracion_sesion_formula.
Qed.

Lemma duracion_minima_witness :
  correr secreto_1 ahora_ejemplo fila_medio cinta_medio
    = inr (sesiones_medio, cinta_de corrida_medio) /\
  forall s, In s sesiones_medio ->
    (5 <= duration_minutes s)%Q /\
    exists g0 : cinta,
      let rango := velocidad_lectura_palabras_min
                     (determinar_perfil_lector secreto_1 (f_user_id fila_medio)) in
      let velocidad := fst (uniform (fst rango) (snd rango) g0) in
      let g1 := snd (uniform (fst rango) (snd rango) g0) in
      let palabras :=
        pages_read s * palabras_pag (get_or (f_genres fila_medio) (PStr "default")) in
      let base := (inject_Z palabras / velocidad)%Q in
      let ruido := fst (normal 0 (base * 0.1) g1) in
      (fst rango <= velocidad)%Q /\ (velocidad < snd rango)%Q /\
      (duration_minutes s == Qmax 5 (base + ruido))%Q.
Proof.
  split.
  - vm_compute. reflexivity.
  - apply (duracion_minima cinta RandomState_cinta float_decimal
             secreto_1 ahora_ejemplo fila_medio cinta_medio sesiones_medio
             (cinta_de corrida_medio)).
    vm_compute. reflexivity.
Defined.

(** ** Session counts and the temporal pattern *)

Section Conteos.

Context {G : Type} {RS : RandomState G}.

Ltac partir :=
  repeat match goal with
  | |- context [match ?x with pair _ _ => _ end] => destruct x eqn:?
  end.

Lemma longitud_salida (regla : Z -> Z -> G -> Z * G)
    book user num_pages perfil genero n objetivo fecha (g g1 : G) :
  List.length
    (fst (bucle_sesiones regla book user num_pages perfil genero n objetivo
            (fst (generar_patron_temporal_sesiones n fecha g)) 0 0 g1))
  = Z.to_nat n.
Proof.
  rewrite bucle_longitud. apply patron_bucle_longitud.
Qed.

Lemma dias_tempranos_max x : In x [0; 1; 1; 2; 3] -> 0 <= x <= 7.
Proof. simpl. intuition lia. Qed.

Lemma dias_tardios_max x : In x [1; 2; 3; 4; 5; 7] -> 0 <= x <= 7.
Proof. simpl. intuition lia. Qed.

Lemma patron_bucle_rango n k : forall i fecha (g : G),
  Forall (fun t => ordinal fecha <= ordinal t <= ordinal fecha + 7 * Z.of_nat k /\
                   7 <= hour t <= 23 /\ 0 <= minute t <= 59 /\ second t = 0 /\
                   microsecond t = microsecond fecha)
         (fst (patron_bucle n k i fecha g)).
Proof.
  induction k as [|k IH]; intros i fecha g; [constructor|].
  cbn [patron_bucle].
  assert (Hd : forall dias g1,
    (if Qlt_le_dec (inject_Z i) (inject_Z n * 0.3)
     then choice [0; 1; 1; 2; 3] [0.3; 0.4; 0.2; 0.07; 0.03]%Q g
     else choice [1; 2; 3; 4; 5; 7] [0.25; 0.25; 0.2; 0.15; 0.1; 0.05]%Q g)
    = (dias, g1) -> 0 <= dias <= 7).
  { intros dias g1 E. apply (f_equal fst) in E. cbn [fst] in E. subst dias.
    destruct (Qlt_le_dec (inject_Z i) (inject_Z n * 0.3)).
    - apply dias_tempranos_max. apply choice_in. discriminate.
    - apply dias_tardios_max. apply choice_in. discriminate. }
  destruct (if Qlt_le_dec (inject_Z i) (inject_Z n * 0.3)
            then choice [0; 1; 1; 2; 3] _ g else choice [1; 2; 3; 4; 5; 7] _ g)
    as [dias g1] eqn:Edias.
  specialize (Hd dias g1 eq_refl).
  match goal with |- context [if weekday ?f <? 5 then ?a else ?b] =>
    destruct (if weekday f <? 5 then a else b) as [hora g2] eqn:Hhora end.
  apply hora_acotada in Hhora.
  pose proof (randint_range 0 60 g2 ltac:(lia)) as Hm.
  destruct (randint 0 60 g2) as [minuto g3]. simpl fst in Hm.
  specialize (IH (i + 1) (add_days fecha dias) g3).
  destruct (patron_bucle n k (i + 1) (add_days fecha dias) g3) as [resto g4].
  simpl fst in *. constructor.
  - cbn [ordinal hour minute second microsecond replace add_days]. lia.
  - eapply Forall_impl; [|exact IH].
    cbn [ordinal hour minute second microsecond replace add_days]. intros t. lia.
Qed.

End Conteos.

(** X2. [generar_patron_temporal_sesiones] returns one timestamp per
    requested session (none when the count is not positive); every
    timestamp falls on the start date or up to 7 days per session after
    it, at a whole minute between 07:00 and 23:59, and keeps the
    microsecond of the start date. *)
Theorem patron_temporal_forma :
  forall (G : Type) (RS : RandomState G) n fecha (g : G),
    let ts := fst (generar_patron_temporal_sesiones n fecha g) in
    List.length ts = Z.to_nat n /\
    Forall (fun t => ordinal fecha <= ordinal t <= ordinal fecha + 7 * Z.max 0 n /\
                     7 <= hour t <= 23 /\ 0 <= minute t <= 59 /\ second t = 0 /\
                     microsecond t = microsecond fecha) ts.
Proof.
  intros G0 RS0 n fecha g ts. split.
  - apply patron_bucle_longitud.
  - unfold ts, generar_patron_temporal_sesiones.
    replace (Z.max 0 n) with (Z.of_nat (Z.to_nat n)) by lia.
    apply patron_bucle_rango.
Qed.

(** X1. The number of sessions of each generator, for a book of at
    least one page: the completed one draws 3 to 7 sessions below 150
    pages, 6 to 14 below 300, 10 to 24 below 500 and 15 to 39 from 500
    pages on; early abandonment has 1 to 4 sessions and midway abandonment
    5 to 14 (the upper end of every [randint] is excluded). *)
Theorem numero_de_sesiones :
  forall (G : Type) (RS : RandomState G) secreto ahora book user num_pages genero (g : G),
    1 <= num_pages ->
    let nc := Z.of_nat (List.length (fst (simular_sesiones_completado secreto ahora
                                            book user num_pages genero g))) in
    let nt := Z.of_nat (List.length (fst (simular_sesiones_abandono_temprano secreto ahora
                                            book user num_pages genero g))) in
    let nm := Z.of_nat (List.length (fst (simular_sesiones_abandono_medio secreto ahora
                                            book user num_pages genero g))) in
    (num_pages < 150 -> 3 <= nc <= 7) /\
    (150 <= num_pages < 300 -> 6 <= nc <= 14) /\
    (300 <= num_pages < 500 -> 10 <= nc <= 24) /\
    (500 <= num_pages -> 15 <= nc <= 39) /\
    1 <= nt <= 4 /\ 5 <= nm <= 14.
Proof.
  intros G RS secreto ahora book user np genero g _ nc nt nm.
  assert (Hc : (np < 150 -> 3 <= nc <= 7) /\ (150 <= np < 300 -> 6 <= nc <= 14) /\
               (300 <= np < 500 -> 10 <= nc <= 24) /\ (500 <= np -> 15 <= nc <= 39)).
  { unfold nc, simular_sesiones_completado.
    set (sorteo := if np <? 150 then randint 3 8 g
                   else if np <? 300 then randint 6 15 g
                   else if np <? 500 then randint 10 25 g
                   else randint 15 40 g).
    assert (Hr : (np < 150 -> 3 <= fst sorteo <= 7) /\
                 (150 <= np < 300 -> 6 <= fst sorteo <= 14) /\
                 (300 <= np < 500 -> 10 <= fst sorteo <= 24) /\
                 (500 <= np -> 15 <= fst sorteo <= 39)).
    { unfold sorteo.
      destruct (Z.ltb_spec np 150);
        [pose proof (randint_range 3 8 g ltac:(lia)); lia|].
      destruct (Z.ltb_spec np 300);
        [pose proof (randint_range 6 15 g ltac:(lia)); lia|].
      destruct (Z.ltb_spec np 500);
        [pose proof (randint_range 10 25 g ltac:(lia)); lia|].
      pose proof (randint_range 15 40 g ltac:(lia)); lia. }
    destruct sorteo as [n g1]. simpl fst in Hr.
    destruct (randint 30 365 g1) as [dias g2].
    pose proof (longitud_salida (paginas_sesion_completado n) book user np
                  (determinar_perfil_lector secreto user) genero n np
                  (add_days ahora (- dias)) g2) as Hl.
    destruct (generar_patron_temporal_sesiones n (add_days ahora (- dias)) g2)
      as [ts g3]. simpl fst in Hl. rewrite Hl. lia. }
  assert (Ht : 1 <= nt <= 4).
  { unfold nt, simular_sesiones_abandono_temprano.
    pose proof (randint_range 1 5 g ltac:(lia)) as Hn.
    destruct (randint 1 5 g) as [n g1]. simpl fst in Hn.
    destruct (randint 30 180 g1) as [dias g2].
    pose proof (longitud_salida (paginas_sesion_abandono_temprano n) book user np
                  (determinar_perfil_lector secreto user) genero n) as Hl.
    specialize (fun o => Hl o (add_days ahora (- dias)) g2).
    destruct (generar_patron_temporal_sesiones n (add_days ahora (- dias)) g2)
      as [ts g3]. simpl fst in Hl.
    destruct (uniform 0.05 0.30 g3) as [u g4]. rewrite Hl. lia. }
  assert (Hm : 5 <= nm <= 14).
  { unfold nm, simular_sesiones_abandono_medio.
    pose proof (randint_range 5 15 g ltac:(lia)) as Hn.
    destruct (randint 5 15 g) as [n g1]. simpl fst in Hn.
    destruct (randint 60 300 g1) as [dias g2].
    pose proof (longitud_salida (paginas_sesion_abandono_medio n) book user np
                  (determinar_perfil_lector secreto user) genero n) as Hl.
    specialize (fun o => Hl o (add_days ahora (- dias)) g2).
    destruct (generar_patron_temporal_sesiones n (add_days ahora (- dias)) g2)
      as [ts g3]. simpl fst in Hl.
    destruct (uniform 0.30 0.70 g3) as [u g4]. rewrite Hl. lia. }
  tauto.
Qed.

Lemma numero_de_sesiones_witness :
  let nc np :=
    Z.of_nat (List.length (fst (simular_sesiones_completado secreto_1 ahora_ejemplo
                                  7 1 np (PStr "fiction") cinta_completado))) in
  (1 <= 100 < 150 /\ 3 <= nc 100 <= 7) /\
  (150 <= 200 < 300 /\ 6 <= nc 200 <= 14) /\
  (300 <= 320 < 500 /\ 10 <= nc 320 <= 24) /\
  (500 <= 600 /\ 15 <= nc 600 <= 39).
Proof.
  intros nc.
  pose proof (fun np => numero_de_sesiones cinta RandomState_cinta secreto_1
                          ahora_ejemplo 7 1 np (PStr "fiction") cinta_completado) as H.
  split; [|split; [|split]].
  - split; [lia|]. apply (proj1 (H 100 ltac:(lia))). lia.
  - split; [lia|]. apply (proj1 (proj2 (H 200 ltac:(lia)))). lia.
  - split; [lia|]. apply (proj1 (proj2 (proj2 (H 320 ltac:(lia))))). lia.
  - split; [lia|]. apply (proj1 (proj2 (proj2 (proj2 (H 600 ltac:(lia)))))). lia.
Defined.

(** ** The end of a session *)

Lemma dt_key_of_key k : dt_key (of_key k) = k.
Proof.
  unfold dt_key, of_key. cbn [ordinal hour minute second microsecond].
  Z.div_mod_to_equations. lia.
Qed.

Lemma of_key_valida k : hora_valida (of_key k).
Proof.
  unfold hora_valida, of_key. cbn [hour minute second microsecond].
  repeat split; try (apply Z.mod_pos_bound; lia).
Qed.

Lemma of_key_dt_key d : hora_valida d -> of_key (dt_key d) = d.
Proof.
  destruct d as [o h m s u]. unfold hora_valida, of_key, dt_key.
  cbn [ordinal hour minute second microsecond]. intros [Hh [Hm [Hs Hu]]].
  f_equal; Z.div_mod_to_equations; lia.
Qed.

Lemma pow2_menos_28 : (pow2 (-28) == 1 # 268435456)%Q.
Proof. reflexivity. Qed.

(** [timedelta(minutes=d)] for a duration of at least 5 minutes: at least
    300000000 microseconds, and within 1/2 + 2^-28 microseconds of the
    duration (the rounding of the product, then the rounding to whole
    microseconds). *)
Lemma timedelta_minutes_cerca (d : Q) :
  (5 <= d)%Q ->
  300000000 <= timedelta_minutes d /\
  (Qabs (inject_Z (timedelta_minutes d) - d * 60000000)
     <= (1 # 2) + (1 # 268435456))%Q.
Proof.
  intros Hd. unfold timedelta_minutes.
  destruct (trunc_no_negativo d ltac:(lra)) as [T1 [T2 T3]].
  set (T := trunc d) in *.
  set (x := ((d - inject_Z T) * 60000000)%Q).
  assert (Hx0 : (0 <= x)%Q) by (unfold x; lra).
  assert (Hx1 : (x < 60000000)%Q) by (unfold x; lra).
  assert (Hx : (Qabs x < pow2 26)%Q).
  { apply Qabs_Qlt_condition. change (pow2 26) with (inject_Z (2 ^ 26)).
    change (inject_Z (2 ^ 26)) with 67108864%Q. split; lra. }
  pose proof (redondear_error x 26 ltac:(lia) Hx) as He.
  change (26 - 54) with (-28) in He. rewrite pow2_menos_28 in He.
  apply Qabs_Qle_condition in He.
  pose proof (redondear_no_negativo x Hx0) as Hr0.
  destruct (round_half_even_cerca (redondear x)) as [H1 [H2 H3]].
  assert (H0 : 0 <= Qfloor (redondear x)).
  { change 0 with (Qfloor 0). apply Qfloor_resp_le. exact Hr0. }
  assert (HT : 5 <= T).
  { assert (Hlt : (inject_Z 5 < inject_Z (T + 1))%Q).
    { rewrite inject_Z_plus. change (inject_Z 5) with 5%Q.
      change (inject_Z 1) with 1%Q. lra. }
    rewrite <- Zlt_Qlt in Hlt. lia. }
  split; [lia|].
  rewrite inject_Z_plus, inject_Z_mult.
  change (inject_Z 60000000) with 60000000%Q.
  apply Qabs_Qle_condition. unfold x in *. split; lra.
Qed.

Lemma add_minutes_transcurrido (ts : datetime) (d : Q) :
  (5 <= d)%Q ->
  let transcurrido := dt_key (add_minutes ts d) - dt_key ts in
  transcurrido = timedelta_minutes d /\
  300000000 <= transcurrido /\
  (Qabs (inject_Z transcurrido - d * 60000000) <= (1 # 2) + (1 # 268435456))%Q /\
  hora_valida (add_minutes ts d).
Proof.
  intros Hd transcurrido. unfold transcurrido, add_minutes.
  rewrite dt_key_of_key.
  replace (dt_key ts + timedelta_minutes d - dt_key ts)
    with (timedelta_minutes d) by lia.
  destruct (timedelta_minutes_cerca d Hd) as [H1 H2].
  split; [reflexivity|]. split; [exact H1|]. split; [exact H2|].
  apply of_key_valida.
Qed.

Lemma fin_generado :
  forall (G : Type) (RS : RandomState G) (float_of_str : string -> option pyfloat)
         secreto ahora row (g : G) ss g',
    simular_para_interaccion float_of_str secreto ahora row g = inr (ss, g') ->
    Forall (fun s => session_end s
                       = add_minutes (session_start s) (duration_minutes s) /\
                     (5 <= duration_minutes s)%Q) ss.
Proof.
  intros G RS fos secreto ahora row g ss g' H.
  pose proof (simular_para_interaccion_valida fos _ _ _ _ _ _ H) as Hv.
  apply simular_para_interaccion_forma in H.
  destruct H as [E | [np [regla [n [obj [dias [g0 [g1 [_ [_ [_ [_ [_ [_ Hss]]]]]]]]]]]]]];
    [subst ss; constructor|].
  destruct Hv as [E | [np' [obj' [_ [Hv _]]]]]; [rewrite E; constructor|].
  destruct Hv as [_ [_ [_ [Hd _]]]].
  pose proof (bucle_campos regla (f_book_id row) (f_user_id row) np
                (determinar_perfil_lector secreto (f_user_id row))
                (get_or (f_genres row) (PStr "default")) n obj
                (fst (generar_patron_temporal_sesiones n (add_days ahora (- dias)) g0))
                0 0 g1) as Hc.
  rewrite <- Hss in Hc. rewrite Forall_forall in *.
  intros s Hin. destruct (Hc s Hin) as [_ [_ [Hend _]]].
  split; [exact Hend | exact (Hd s Hin)].
Qed.

(** X3. Every generated session ends at its start plus
    [timedelta(minutes=duration_minutes)]: at least 5 minutes after the
    start, with the time between the two timestamps within 1/2 + 2^-28
    microseconds of the recorded duration, and at a well-formed time of
    day. *)
Theorem fin_de_sesion :
  forall (G : Type) (RS : RandomState G) (float_of_str : string -> option pyfloat)
         secreto ahora row (g : G) ss g',
    simular_para_interaccion float_of_str secreto ahora row g = inr (ss, g') ->
    forall s, In s ss ->
      let transcurrido := dt_key (session_end s) - dt_key (session_start s) in
      transcurrido = timedelta_minutes (duration_minutes s) /\
      300000000 <= transcurrido /\
      (Qabs (inject_Z transcurrido - duration_minutes s * 60000000)
         <= (1 # 2) + (1 # 268435456))%Q /\
      hora_valida (session_end s).
Proof.
  intros G RS fos secreto ahora row g ss g' H s Hin.
  pose proof (fin_generado G RS fos _ _ _ _ _ _ H) as Hf.
  rewrite Forall_forall in Hf. destruct (Hf s Hin) as [Hend Hd].
  rewrite Hend. apply add_minutes_transcurrido. exact Hd.
Qed.

Lemma fin_de_sesion_witness :
  correr secreto_1 ahora_ejemplo fila_medio cinta_medio
    = inr (sesiones_medio, cinta_de corrida_medio) /\
  forall s, In s sesiones_medio ->
    let transcurrido := dt_key (session_end s) - dt_key (session_start s) in
    transcurrido = timedelta_minutes (duration_minutes s) /\
    300000000 <= transcurrido /\
    (Qabs (inject_Z transcurrido - duration_minutes s * 60000000)
       <= (1 # 2) + (1 # 268435456))%Q /\
    hora_valida (session_end s).
Proof.
  split.
  - vm_compute. reflexivity.
  - apply (fin_de_sesion cinta RandomState_cinta float_decimal secreto_1
             ahora_ejemplo fila_medio cinta_medio sesiones_medio
             (cinta_de corrida_medio)).
    vm_compute. reflexivity.
Defined.

(** ** Progress, pages and percentages *)

Lemma encadenadas_desde ss : forall inicio s,
  encadenadas inicio ss ->
  Forall (fun x => progress_start x <= progress_end x) ss ->
  In s ss -> inicio <= progress_start s.
Proof.
  induction ss as [|a r IH]; intros inicio s Hc Hf Hin; [contradiction|].
  destruct Hc as [Ha [_ Hr]]. inversion Hf as [|? ? Hle Hf']; subst.
  destruct Hin as [E|Hin]; [subst; lia|].
  specialize (IH _ _ Hr Hf' Hin). lia.
Qed.

Lemma encadenadas_no_retrocede ss : forall inicio i j a b,
  encadenadas inicio ss ->
  Forall (fun x => progress_start x <= progress_end x) ss ->
  (i < j)%nat -> nth_error ss i = Some a -> nth_error ss j = Some b ->
  progress_end a <= progress_start b.
Proof.
  induction ss as [|x r IH]; intros inicio i j a b Hc Hf Hij Ha Hb.
  - destruct i; discriminate.
  - destruct Hc as [_ [_ Hr]]. inversion Hf as [|? ? Hle Hf']; subst.
    destruct j as [|j]; [lia|]. simpl in Hb. destruct i as [|i].
    + simpl in Ha. inversion Ha; subst x.
      apply (encadenadas_desde r _ b Hr Hf'). eapply nth_error_In. exact Hb.
    + simpl in Ha. apply (IH _ i j a b Hr Hf'); [lia | exact Ha | exact Hb].
Qed.

Lemma ultimo_no_vacio {A : Type} (b : A) r : exists x, ultimo (b :: r) = Some x.
Proof.
  revert b. induction r as [|c r IH]; intros b; [exists b; reflexivity|].
  destruct (IH c) as [x Hx]. exists x. exact Hx.
Qed.

Lemma encadenadas_suma ss : forall inicio,
  encadenadas inicio ss ->
  paginas_totales ss =
    match progreso_final ss with
    | Some p => p - inicio
    | None => 0
    end.
Proof.
  induction ss as [|a r IH]; intros inicio Hc; [reflexivity|].
  destruct Hc as [Ha [Hp Hr]]. specialize (IH _ Hr).
  unfold paginas_totales in *. cbn [map fold_right]. rewrite IH.
  unfold progreso_final. destruct r as [|b r'].
  - cbn [ultimo option_map]. lia.
  - change (ultimo (a :: b :: r')) with (ultimo (b :: r')).
    destruct (ultimo_no_vacio b r') as [x Hx]. rewrite Hx.
    cbn [option_map]. lia.
Qed.

Lemma porcentaje_monotono (a b n : Z) :
  0 < n -> a <= b ->
  (inject_Z a / inject_Z n * 100 <= inject_Z b / inject_Z n * 100)%Q.
Proof.
  intros Hn Hab.
  assert (Hq : (0 < inject_Z n)%Q)
    by (change 0%Q with (inject_Z 0); rewrite <- Zlt_Qlt; exact Hn).
  apply Qmult_le_compat_r; [|discriminate].
  unfold Qdiv. apply Qmult_le_compat_r.
  - rewrite <- Zle_Qle. exact Hab.
  - apply Qlt_le_weak. apply Qinv_lt_0_compat. exact Hq.
Qed.

Section RangoDelProgreso.

Context {G : Type} {RS : RandomState G}.
Variable float_of_str : string -> option pyfloat.

Lemma progreso_en_rango secreto ahora row (g : G) ss g' num_pages :
  simular_para_interaccion float_of_str secreto ahora row g = inr (ss, g') ->
  convertir_num_pages float_of_str (get_or (f_num_pages row) (PInt 300))
    = inr num_pages ->
  Forall (fun s => 0 <= progress_start s /\ progress_start s <= progress_end s /\
                   progress_end s <= num_pages) ss.
Proof.
  intros H Enp. apply simular_para_interaccion_forma in H.
  destruct H as [E | [np2 [regla [n [obj [dias [g0 [g1 [Enp2 [_ [Hr [_ [Ho [_ Hss]]]]]]]]]]]]]].
  { subst ss. constructor. }
  rewrite Enp in Enp2. inversion Enp2; subst np2. clear Enp2.
  pose proof (bucle_rango regla (f_book_id row) (f_user_id row) num_pages
                (determinar_perfil_lector secreto (f_user_id row))
                (get_or (f_genres row) (PStr "default")) n obj
                (fst (generar_patron_temporal_sesiones n (add_days ahora (- dias)) g0))
                Hr 0 0 g1 ltac:(lia)) as Hb.
  rewrite <- Hss in Hb.
  eapply Forall_impl; [|exact Hb]. simpl. intros s. lia.
Qed.

End RangoDelProgreso.

(** X4. In every generated session progress is bounded and never goes
    back: [0 <= progress_start <= progress_end <= num_pages] (the page
    count after conversion), a later session starts at or after the end
    of every earlier one, and the pages read in the sequence add up to
    its terminal progress. *)
Theorem progreso_acotado :
  forall (G : Type) (RS : RandomState G) (float_of_str : string -> option pyfloat)
         secreto ahora row (g : G) ss g' num_pages,
    simular_para_interaccion float_of_str secreto ahora row g = inr (ss, g') ->
    convertir_num_pages float_of_str (get_or (f_num_pages row) (PInt 300))
      = inr num_pages ->
    (forall s, In s ss ->
       0 <= progress_start s /\ progress_start s <= progress_end s /\
       progress_end s <= num_pages) /\
    (forall i j a b, (i < j)%nat ->
       nth_error ss i = Some a -> nth_error ss j = Some b ->
       progress_end a <= progress_start b) /\
    paginas_totales ss = match progreso_final ss with Some p => p | None => 0 end.
Proof.
  intros G RS fos secreto ahora row g ss g' np H Enp.
  pose proof (progreso_en_rango fos _ _ _ _ _ _ _ H Enp) as Hb.
  apply simular_para_interaccion_valida in H.
  assert (Hc : encadenadas 0 ss).
  { destruct H as [E | [np' [obj' [_ [Hv _]]]]]; [subst ss; exact I | apply Hv]. }
  assert (Hf : Forall (fun x => progress_start x <= progress_end x) ss)
    by (eapply Forall_impl; [|exact Hb]; simpl; intros; lia).
  split; [|split].
  - intros s Hin. rewrite Forall_forall in Hb. exact (Hb s Hin).
  - intros i j a b. apply encadenadas_no_retrocede with (inicio := 0); assumption.
  - rewrite (encadenadas_suma ss 0 Hc).
    destruct (progreso_final ss); [lia | reflexivity].
Qed.

Lemma progreso_acotado_witness :
  correr secreto_1 ahora_ejemplo fila_medio cinta_medio
    = inr (sesiones_medio, cinta_de corrida_medio) /\
  convertir_num_pages float_decimal (get_or (f_num_pages fila_medio) (PInt 300))
    = inr 200 /\
  (forall s, In s sesiones_medio ->
     0 <= progress_start s /\ progress_start s <= progress_end s /\
     progress_end s <= 200) /\
  (forall i j a b, (i < j)%nat ->
     nth_error sesiones_medio i = Some a -> nth_error sesiones_medio j = Some b ->
     progress_end a <= progress_start b) /\
  paginas_totales sesiones_medio
    = match progreso_final sesiones_medio with Some p => p | None => 0 end.
Proof.
  split; [vm_compute; reflexivity|]. split; [vm_compute; reflexivity|].
  apply (progreso_acotado cinta RandomState_cinta float_decimal secreto_1
           ahora_ejemplo fila_medio cinta_medio sesiones_medio
           (cinta_de corrida_medio) 200); vm_compute; reflexivity.
Defined.

Lemma porcentaje_en_rango (a n : Z) :
  0 < n -> 0 <= a <= n ->
  (0 <= inject_Z a / inject_Z n * 100)%Q /\ (inject_Z a / inject_Z n * 100 <= 100)%Q.
Proof.
  intros Hn Ha. split.
  - pose proof (porcentaje_monotono 0 a n Hn ltac:(lia)) as H0.
    setoid_replace (inject_Z 0 / inject_Z n * 100)%Q with 0%Q in H0; [exact H0|].
    unfold Qdiv. change (inject_Z 0) with 0%Q. ring.
  - pose proof (porcentaje_monotono a n n Hn ltac:(lia)) as H1.
    setoid_replace (inject_Z n / inject_Z n * 100)%Q with 100%Q in H1; [exact H1|].
    field. intros Hz. unfold Qeq in Hz. simpl in Hz. lia.
Qed.

Lemma porcentajes_generados :
  forall (G : Type) (RS : RandomState G) (float_of_str : string -> option pyfloat)
         secreto ahora row (g : G) ss g' num_pages,
    simular_para_interaccion float_of_str secreto ahora row g = inr (ss, g') ->
    convertir_num_pages float_of_str (get_or (f_num_pages row) (PInt 300))
      = inr num_pages ->
    Forall (fun s =>
              completion_pct_start s
                = (inject_Z (progress_start s) / inject_Z num_pages * 100)%Q /\
              completion_pct_end s
                = (inject_Z (progress_end s) / inject_Z num_pages * 100)%Q) ss.
Proof.
  intros G RS fos secreto ahora row g ss g' np H Enp.
  apply simular_para_interaccion_forma in H.
  destruct H as [E | [np2 [regla [n [obj [dias [g0 [g1 [Enp2 [_ [_ [_ [_ [_ Hss]]]]]]]]]]]]]];
    [rewrite E; constructor|].
  rewrite Enp in Enp2. inversion Enp2; subst np2. clear Enp2.
  pose proof (bucle_campos regla (f_book_id row) (f_user_id row) np
                (determinar_perfil_lector secreto (f_user_id row))
                (get_or (f_genres row) (PStr "default")) n obj
                (fst (generar_patron_temporal_sesiones n (add_days ahora (- dias)) g0))
                0 0 g1) as Hc.
  rewrite <- Hss in Hc.
  eapply Forall_impl; [|exact Hc]. intros s [_ [_ [_ [Hs He]]]].
  split; assumption.
Qed.

(** X5. The completion percentages of every generated session are the
    progress values over the converted page count times 100, and satisfy
    [0 <= completion_pct_start <= completion_pct_end <= 100]. *)
Theorem porcentajes_de_avance :
  forall (G : Type) (RS : RandomState G) (float_of_str : string -> option pyfloat)
         secreto ahora row (g : G) ss g' num_pages,
    simular_para_interaccion float_of_str secreto ahora row g = inr (ss, g') ->
    convertir_num_pages float_of_str (get_or (f_num_pages row) (PInt 300))
      = inr num_pages ->
    forall s, In s ss ->
      completion_pct_start s
        = (inject_Z (progress_start s) / inject_Z num_pages * 100)%Q /\
      completion_pct_end s
        = (inject_Z (progress_end s) / inject_Z num_pages * 100)%Q /\
      (0 <= completion_pct_start s)%Q /\
      (completion_pct_start s <= completion_pct_end s)%Q /\
      (completion_pct_end s <= 100)%Q.
Proof.
  intros G RS fos secreto ahora row g ss g' np H Enp s Hin.
  pose proof (progreso_en_rango fos _ _ _ _ _ _ _ H Enp) as Hb.
  pose proof (porcentajes_generados G RS fos _ _ _ _ _ _ _ H Enp) as Hq.
  pose proof (convertir_num_pages_min fos _ _ Enp) as Hnp.
  rewrite Forall_forall in Hb, Hq.
  specialize (Hb s Hin). destruct (Hq s Hin) as [Hs He].
  split; [exact Hs|]. split; [exact He|]. rewrite Hs, He.
  split; [|split].
  - apply porcentaje_en_rango; lia.
  - apply porcentaje_monotono; lia.
  - apply porcentaje_en_rango; lia.
Qed.

Lemma porcentajes_de_avance_witness :
  correr secreto_1 ahora_ejemplo fila_medio cinta_medio
    = inr (sesiones_medio, cinta_de corrida_medio) /\
  convertir_num_pages float_decimal (get_or (f_num_pages fila_medio) (PInt 300))
    = inr 200 /\
  forall s, In s sesiones_medio ->
    completion_pct_start s
      = (inject_Z (progress_start s) / inject_Z 200 * 100)%Q /\
    completion_pct_end s
      = (inject_Z (progress_end s) / inject_Z 200 * 100)%Q /\
    (0 <= completion_pct_start s)%Q /\
    (completion_pct_start s <= completion_pct_end s)%Q /\
    (completion_pct_end s <= 100)%Q.
Proof.
  split; [vm_compute; reflexivity|]. split; [vm_compute; reflexivity|].
  apply (porcentajes_de_avance cinta RandomState_cinta float_decimal secreto_1
           ahora_ejemplo fila_medio cinta_medio sesiones_medio
           (cinta_de corrida_medio) 200); vm_compute; reflexivity.
Defined.

(** ** Which generator a row selects *)

Lemma py_eq_num_1_no_0 v : py_eq_num v 1 = true -> py_eq_num v 0 = false.
Proof.
  unfold py_eq_num. destruct (as_float v) as [[q| | |]|]; simpl; try discriminate.
  intros H. apply Qeq_bool_iff in H.
  destruct (Qeq_bool q 0) eqn:E; [|reflexivity].
  apply Qeq_bool_iff in E. rewrite E in H. discriminate H.
Qed.

Lemma py_le_2_no_ge_4 v :
  py_le_num v 2 = inr true -> py_ge_num v 4 = inr false /\ isna v = false.
Proof.
  unfold py_le_num, py_ge_num.
  destruct v as [z|[q| | |]|s|]; simpl; try discriminate.
  - destruct (Qlt_le_dec 2 (inject_Z z)); [discriminate|]. intros _.
    destruct (Qlt_le_dec (inject_Z z) 4); [auto|]. lra.
  - destruct (Qlt_le_dec 2 q); [discriminate|]. intros _.
    destruct (Qlt_le_dec q 4); [auto|]. lra.
  - auto.
Qed.

(** X6. The two direct routes of the dispatch.  A row whose read flag
    equals 1 and whose rating is at least 4 runs the completed generator,
    and a row whose rating is at most 2 runs the early-abandonment
    generator whatever its read flag and review scores are; in both cases
    no coin is flipped, so the generator starts from the state the row
    received. *)
Theorem rutas_directas :
  forall (G : Type) (RS : RandomState G) (float_of_str : string -> option pyfloat)
         secreto ahora row (g : G) num_pages,
    convertir_num_pages float_of_str (get_or (f_num_pages row) (PInt 300))
      = inr num_pages ->
    (py_eq_num (get_or (f_is_read row) (PInt 0)) 1 = true ->
     py_ge_num (get_or (f_rating row) (PInt 3)) 4 = inr true ->
     simular_para_interaccion float_of_str secreto ahora row g =
       inr (simular_sesiones_completado secreto ahora (f_book_id row)
              (f_user_id row) num_pages (get_or (f_genres row) (PStr "default")) g)) /\
    (py_le_num (get_or (f_rating row) (PInt 3)) 2 = inr true ->
     simular_para_interaccion float_of_str secreto ahora row g =
       inr (simular_sesiones_abandono_temprano secreto ahora (f_book_id row)
              (f_user_id row) num_pages (get_or (f_genres row) (PStr "default")) g)).
Proof.
  intros G RS fos secreto ahora row g np Enp. split.
  - intros Hr Hra. unfold simular_para_interaccion.
    rewrite Enp, Hr, Hra, (py_eq_num_1_no_0 _ Hr). reflexivity.
  - intros Hle. destruct (py_le_2_no_ge_4 _ Hle) as [Hge Hna].
    unfold simular_para_interaccion.
    rewrite Enp, Hle, Hge, Hna, andb_false_r.
    destruct (py_eq_num (get_or (f_is_read row) (PInt 0)) 1); reflexivity.
Qed.

Lemma rutas_directas_witness :
  convertir_num_pages float_decimal (get_or (f_num_pages fila_320) (PInt 300))
    = inr 320 /\
  (py_eq_num (get_or (f_is_read fila_320) (PInt 0)) 1 = true /\
   py_ge_num (get_or (f_rating fila_320) (PInt 3)) 4 = inr true /\
   simular_para_interaccion float_decimal secreto_1 ahora_ejemplo fila_320 [] =
     inr (simular_sesiones_completado secreto_1 ahora_ejemplo (f_book_id fila_320)
            (f_user_id fila_320) 320 (get_or (f_genres fila_320) (PStr "default")) [])) /\
  convertir_num_pages float_decimal (get_or (f_num_pages fila_leida_2) (PInt 300))
    = inr 250 /\
  (py_le_num (get_or (f_rating fila_leida_2) (PInt 3)) 2 = inr true /\
   simular_para_interaccion float_decimal secreto_1 ahora_ejemplo fila_leida_2 [] =
     inr (simular_sesiones_abandono_temprano secreto_1 ahora_ejemplo
            (f_book_id fila_leida_2) (f_user_id fila_leida_2) 250
            (get_or (f_genres fila_leida_2) (PStr "default")) [])).
Proof.
  split; [reflexivity|]. split.
  - split; [reflexivity|]. split; [reflexivity|].
    apply (proj1 (rutas_directas cinta RandomState_cinta float_decimal secreto_1
                    ahora_ejemplo fila_320 [] 320 eq_refl)); reflexivity.
  - split; [reflexivity|]. split; [reflexivity|].
    apply (proj2 (rutas_directas cinta RandomState_cinta float_decimal secreto_1
                    ahora_ejemplo fila_leida_2 [] 250 eq_refl)); reflexivity.
Defined.

(** X7. Every other row with an integer rating flips the coin: a rating
    of 3 or more on a row that is not marked read (or a rating of exactly
    3, also when the rating column is absent and defaults to 3) draws one
    uniform number and compares it with the adjusted probability of base
    [prob_abandono.get(rating, 0.5)], so an unread row rated 4 or 5 can be
    simulated as abandoned.  The bases are 0.40, 0.15 and 0.05 for ratings
    3, 4 and 5, and 0.5 for any rating above 5. *)
Theorem moneda_por_rating :
  forall (G : Type) (RS : RandomState G) (float_of_str : string -> option pyfloat)
         secreto ahora row (g : G) num_pages r ab en co ri,
    convertir_num_pages float_of_str (get_or (f_num_pages row) (PInt 300))
      = inr num_pages ->
    get_or (f_rating row) (PInt 3) = PInt r ->
    3 <= r ->
    r = 3 \/ py_eq_num (get_or (f_is_read row) (PInt 0)) 1 = false ->
    numero (get_or (f_abandono_score row) (PInt 0)) = inr ab ->
    numero (get_or (f_engagement_score row) (PInt 0)) = inr en ->
    numero (get_or (f_complejidad_score row) (PInt 0)) = inr co ->
    numero (get_or (f_ritmo_score row) (PInt 0)) = inr ri ->
    simular_para_interaccion float_of_str secreto ahora row g =
      inr (rama_con_moneda secreto ahora row num_pages r ab en co ri g) /\
    (prob_base 3 = 0.40 /\ prob_base 4 = 0.15 /\ prob_base 5 = 0.05)%Q /\
    (5 < r -> prob_base r = 0.5%Q).
Proof.
  intros G RS fos secreto ahora row g np r ab en co ri Enp Hr H3 Hread
         Hab Hen Hco Hri.
  split; [|split; [repeat split|]].
  - unfold simular_para_interaccion, rama_con_moneda.
    rewrite Enp, Hr, Hab, Hen, Hco, Hri.
    change (isna (PInt r)) with false. rewrite andb_false_r.
    assert (Halto :
      (if py_eq_num (get_or (f_is_read row) (PInt 0)) 1
       then py_ge_num (PInt r) 4 else inr false) = @inr Exn bool false).
    { destruct Hread as [E | E].
      - subst r. destruct (py_eq_num _ 1); reflexivity.
      - rewrite E. reflexivity. }
    rewrite Halto.
    assert (Hbajo : py_le_num (PInt r) 2 = inr false).
    { unfold py_le_num. simpl.
      destruct (Qlt_le_dec 2 (inject_Z r)) as [|Hc]; [reflexivity|].
      exfalso. change 2%Q with (inject_Z 2) in Hc. rewrite <- Zle_Qle in Hc. lia. }
    rewrite Hbajo.
    assert (Hint : py_int (PInt r) = inr r).
    { unfold py_int, as_float, int_of_float, trunc, inject_Z.
      cbn [Qnum Qden]. rewrite Z.quot_1_r. reflexivity. }
    rewrite Hint. cbv iota beta. destruct (random g) as [x g1].
    destruct (f_lt (FNum x) _); [destruct (f_lt en _)|]; reflexivity.
  - intros H5. unfold prob_base, prob_abandono.
    destruct (Z.eqb_spec r 1); [lia|]. destruct (Z.eqb_spec r 2); [lia|].
    destruct (Z.eqb_spec r 3); [lia|]. destruct (Z.eqb_spec r 4); [lia|].
    destruct (Z.eqb_spec r 5); [lia|]. reflexivity.
Qed.

Lemma moneda_por_rating_witness :
  convertir_num_pages float_decimal (get_or (f_num_pages fila_no_leida_5) (PInt 300))
    = inr 250 /\
  get_or (f_rating fila_no_leida_5) (PInt 3) = PInt 5 /\
  3 <= 5 /\
  (5 = 3 \/ py_eq_num (get_or (f_is_read fila_no_leida_5) (PInt 0)) 1 = false) /\
  simular_para_interaccion float_decimal secreto_1 ahora_ejemplo fila_no_leida_5
      [0.01%Q]
    = inr (rama_con_moneda secreto_1 ahora_ejemplo fila_no_leida_5 250 5
             (FNum 0) (FNum 0) (FNum 0) (FNum 0) [0.01%Q]) /\
  List.length (fst (rama_con_moneda secreto_1 ahora_ejemplo fila_no_leida_5 250 5
                      (FNum 0) (FNum 0) (FNum 0) (FNum 0) [0.01%Q])) = 5%nat.
Proof.
  split; [reflexivity|]. split; [reflexivity|]. split; [lia|].
  split; [right; reflexivity|]. split.
  - apply (moneda_por_rating cinta RandomState_cinta float_decimal secreto_1
             ahora_ejemplo fila_no_leida_5 [0.01%Q] 250 5
             (FNum 0) (FNum 0) (FNum 0) (FNum 0));
      try reflexivity; [lia | right; reflexivity].
  - vm_compute. reflexivity.
Defined.

(** ** The window of the adjusted probability *)

(** X8. Whatever the review scores are (NaN and infinite scores
    included), the adjustments move the probability down by at most 0.15
    and up by at most 0.43, up to 2^-49 of binary64 rounding, for every
    base between 0.15 and 0.57; in particular a rating-3 interaction is
    abandoned with a probability between 0.2499 and 0.8301, never with
    certainty either way. *)
Theorem ventana_de_probabilidad :
  (forall base ab en co ri,
     (0.15 <= base)%Q -> (base <= 0.57)%Q ->
     exists q, probabilidad_ajustada base ab en co ri = FNum q /\
               (base - 0.15 - (1 # 562949953421312) <= q)%Q /\
               (q <= base + 0.43 + (1 # 562949953421312))%Q) /\
  (forall ab en co ri,
     exists q, probabilidad_ajustada (prob_base 3) ab en co ri = FNum q /\
               (0.2499 <= q)%Q /\ (q <= 0.8301)%Q).
Proof.
  assert (H : forall base ab en co ri,
     (0.15 <= base)%Q -> (base <= 0.57)%Q ->
     exists q, probabilidad_ajustada base ab en co ri = FNum q /\
               (base - 0.15 - (1 # 562949953421312) <= q)%Q /\
               (q <= base + 0.43 + (1 # 562949953421312))%Q).
  { intros base ab en co ri Hlo Hhi.
    destruct (probabilidad_ajustada_cerca base ab en co ri ltac:(lra) ltac:(lra))
      as [q [T1 [T2 [T3 [T4 [Eq [_ [_ [Hq [R1 [R2 [R3 R4]]]]]]]]]]]].
    destruct R1 as [A1 [B1 _]], R2 as [A2 [B2 _]],
             R3 as [A3 [B3 _]], R4 as [A4 [B4 _]].
    exists q. split; [exact Eq|].
    set (P := (base + T1 - T2 + T3 + T4)%Q) in *.
    assert (HP : (base - 0.15 <= P)%Q /\ (P <= base + 0.43)%Q)
      by (unfold P; split; lra).
    rewrite (Q.min_r 1 P) in Hq by lra. rewrite Q.max_r in Hq by lra.
    apply Qabs_Qle_condition in Hq. split; lra. }
  split; [exact H|].
  intros ab en co ri.
  destruct (H (prob_base 3) ab en co ri) as [q [E [A B]]];
    [discriminate | discriminate |].
  exists q. split; [exact E|]. change (prob_base 3) with 0.40%Q in A, B.
  split; lra.
Qed.

Lemma ventana_de_probabilidad_witness :
  (0.15 <= 0.40)%Q /\ (0.40 <= 0.57)%Q /\
  exists q,
    probabilidad_ajustada 0.40 (FNum 2) (FNum (-3)) FInf FNegInf = FNum q /\
    (0.40 - 0.15 - (1 # 562949953421312) <= q)%Q /\
    (q <= 0.40 + 0.43 + (1 # 562949953421312))%Q.
Proof.
  split; [discriminate|]. split; [discriminate|].
  apply (proj1 ventana_de_probabilidad 0.40%Q (FNum 2) (FNum (-3)) FInf FNegInf);
    discriminate.
Defined.

(** ** Conversions, missing data and exceptions *)

Lemma py_float_entero (float_of_str : string -> option pyfloat) z :
  Z.abs z < 2 ^ 1023 ->
  py_float float_of_str (PInt z) = inr (FNum (redondear (inject_Z z))).
Proof.
  intros Hz. cbn [py_float].
  rewrite (b64_finito (inject_Z z) 1023); [reflexivity | lia |].
  rewrite (pow2_Z 1023) by lia.
  change (Qabs (inject_Z z)) with (inject_Z (Z.abs z)).
  rewrite <- Zlt_Qlt. exact Hz.
Qed.

Lemma py_float_error (float_of_str : string -> option pyfloat) v e :
  py_float float_of_str v = inl e ->
  (e = OverflowError /\ exists z, v = PInt z /\ 2 ^ 1023 <= Z.abs z) \/
  (e = ValueError /\ exists s, v = PStr s) \/
  (e = TypeError /\ v = PNone).
Proof.
  destruct v as [z|f|s|]; intros H.
  - left. destruct (Z_lt_le_dec (Z.abs z) (2 ^ 1023)) as [Hz|Hz].
    + rewrite (py_float_entero float_of_str z Hz) in H. discriminate.
    + cbn [py_float] in H. destruct (b64 (inject_Z z)); inversion H; eauto.
  - discriminate.
  - right. left. simpl in H. destruct (float_of_str s); inversion H. eauto.
  - right. right. inversion H. auto.
Qed.

(** X9. The guarded conversion of the page count: it never yields less
    than 1; a missing cell (NaN or [None]) and a text that is not a number
    give 300; a finite float gives its truncation, floored at 1, and so
    does an integer up to 2^53 in magnitude, while a larger integer is
    first rounded to a float (2^53 + 1 gives 2^53); and the only exception
    that escapes is [OverflowError], which takes an infinite value or an
    integer of magnitude at least 2^1023, and which 2^1024 raises. *)
Theorem conversion_de_paginas :
  forall (float_of_str : string -> option pyfloat),
    (forall v n, convertir_num_pages float_of_str v = inr n -> 1 <= n) /\
    (forall v, isna v = true -> convertir_num_pages float_of_str v = inr 300) /\
    (forall s, float_of_str s = None ->
               convertir_num_pages float_of_str (PStr s) = inr 300) /\
    (forall s, float_of_str s = Some FNaN ->
               convertir_num_pages float_of_str (PStr s) = inr 300) /\
    (forall z, Z.abs z <= 2 ^ 53 ->
               convertir_num_pages float_of_str (PInt z) = inr (Z.max 1 z)) /\
    convertir_num_pages float_of_str (PInt (2 ^ 53 + 1)) = inr (2 ^ 53) /\
    (forall q, convertir_num_pages float_of_str (PFloat (FNum q))
               = inr (Z.max 1 (trunc q))) /\
    (forall s q, float_of_str s = Some (FNum q) ->
                 convertir_num_pages float_of_str (PStr s) = inr (Z.max 1 (trunc q))) /\
    (forall v e, convertir_num_pages float_of_str v = inl e ->
                 e = OverflowError /\
                 (py_float float_of_str v = inr FInf \/
                  py_float float_of_str v = inr FNegInf \/
                  exists z, v = PInt z /\ 2 ^ 1023 <= Z.abs z)) /\
    convertir_num_pages float_of_str (PInt (2 ^ 1024)) = inl OverflowError.
Proof.
  intros fos.
  split; [intros v n; apply convertir_num_pages_min|].
  split.
  { intros v Hv. unfold convertir_num_pages, notna. rewrite Hv. reflexivity. }
  split.
  { intros s Hs. unfold convertir_num_pages. simpl. rewrite Hs. reflexivity. }
  split.
  { intros s Hs. unfold convertir_num_pages. simpl. rewrite Hs. reflexivity. }
  split.
  { intros z Hz. unfold convertir_num_pages. cbn [notna isna negb py_float].
    rewrite (b64_entero z Hz). cbn [int_of_float].
    unfold trunc, inject_Z. cbn [Qnum Qden]. rewrite Z.quot_1_r. reflexivity. }
  split; [vm_compute; reflexivity|].
  split; [intros q; reflexivity|].
  split.
  { intros s q Hs. unfold convertir_num_pages. simpl. rewrite Hs. reflexivity. }
  split; [|vm_compute; reflexivity].
  intros v e. unfold convertir_num_pages.
  destruct (notna v); [|discriminate].
  destruct (py_float fos v) as [e'|[q| | |]] eqn:Epf; simpl.
  - destruct (py_float_error fos v e' Epf)
      as [[-> [z Hz]] | [[-> _] | [-> _]]]; try discriminate.
    intros H. inversion H. split; [reflexivity|]. right. right. exists z. exact Hz.
  - discriminate.
  - discriminate.
  - intros H. inversion H. auto.
  - intros H. inversion H. auto.
Qed.

Lemma conversion_de_paginas_witness :
  (convertir_num_pages float_decimal (PStr "320") = inr 320 /\ 1 <= 320) /\
  (isna PNone = true /\ convertir_num_pages float_decimal PNone = inr 300) /\
  (float_decimal "" = None /\ convertir_num_pages float_decimal (PStr "") = inr 300) /\
  (Z.abs (-7) <= 2 ^ 53 /\
   convertir_num_pages float_decimal (PInt (-7)) = inr (Z.max 1 (-7))) /\
  (convertir_num_pages float_decimal (PFloat FInf) = inl OverflowError /\
   OverflowError = OverflowError /\
   (py_float float_decimal (PFloat FInf) = inr FInf \/
    py_float float_decimal (PFloat FInf) = inr FNegInf \/
    exists z, PFloat FInf = PInt z /\ 2 ^ 1023 <= Z.abs z)).
Proof.
  pose proof (conversion_de_paginas float_decimal)
    as [H1 [H2 [H3 [_ [H5 [_ [_ [_ [H9 _]]]]]]]]].
  split; [|split; [|split; [|split]]].
  - split; [reflexivity|]. apply (H1 (PStr "320")). reflexivity.
  - split; [reflexivity|]. apply H2. reflexivity.
  - split; [reflexivity|]. apply H3. reflexivity.
  - assert (Hz : Z.abs (-7) <= 2 ^ 53) by (vm_compute; discriminate).
    split; [exact Hz|]. apply (H5 (-7) Hz).
  - split; [reflexivity|]. apply (H9 (PFloat FInf)). reflexivity.
Defined.

Section Excepciones.

Context {G : Type} {RS : RandomState G}.
Variable float_of_str : string -> option pyfloat.

Lemma convertir_num_pages_error v e :
  convertir_num_pages float_of_str v = inl e -> e = OverflowError.
Proof.
  unfold convertir_num_pages. destruct (notna v); [|discriminate].
  destruct v as [z|[q| | |]|s|]; cbn [py_float int_of_float]; try discriminate;
    try (intros H; inversion H; reflexivity).
  - destruct (b64 (inject_Z z)); cbn [int_of_float]; try discriminate;
      intros H; inversion H; reflexivity.
  - destruct (float_of_str s) as [[q| | |]|]; simpl; try discriminate;
      intros H; inversion H; reflexivity.
Qed.

Lemma generadores_no_vacios secreto ahora book user num_pages genero (g : G) :
  0 <= num_pages ->
  fst (simular_sesiones_completado secreto ahora book user num_pages genero g) <> [] /\
  fst (simular_sesiones_abandono_temprano secreto ahora book user num_pages genero g) <> [] /\
  fst (simular_sesiones_abandono_medio secreto ahora book user num_pages genero g) <> [].
Proof.
  intros Hnp. split; [|split].
  - apply (simular_sesiones_completado_valida secreto ahora book user num_pages genero g Hnp).
  - destruct (simular_sesiones_abandono_temprano_valida secreto ahora book user
                num_pages genero g Hnp) as [obj [Hv _]]. apply Hv.
  - destruct (simular_sesiones_abandono_medio_valida secreto ahora book user
                num_pages genero g Hnp) as [obj [Hv _]]. apply Hv.
Qed.

Lemma simular_value_error secreto ahora row (g : G) :
  simular_para_interaccion float_of_str secreto ahora row g = inl ValueError ->
  get_or (f_rating row) (PInt 3) = PFloat FNaN.
Proof.
  unfold simular_para_interaccion.
  destruct (convertir_num_pages float_of_str (get_or (f_num_pages row) (PInt 300)))
    as [e|np] eqn:Enp.
  { apply convertir_num_pages_error in Enp. subst e. discriminate. }
  destruct (py_eq_num (get_or (f_is_read row) (PInt 0)) 0
            && isna (get_or (f_rating row) (PInt 3))); [discriminate|].
  unfold py_ge_num, py_le_num, py_int, numero.
  destruct (get_or (f_rating row) (PInt 3)) as [z|[q| | |]|s|]; cbn [as_float int_of_float];
    try reflexivity;
    repeat match goal with
    | |- context [if ?b then _ else _] => destruct b
    | |- context [match as_float ?v with Some _ => _ | None => _ end] =>
        destruct (as_float v)
    | |- context [match random ?g with pair _ _ => _ end] => destruct (random g)
    end; discriminate.
Qed.

Lemma simular_value_error_inv secreto ahora row (g : G) :
  simular_para_interaccion float_of_str secreto ahora row g = inl ValueError ->
  (exists np, convertir_num_pages float_of_str (get_or (f_num_pages row) (PInt 300))
                = inr np) /\
  py_eq_num (get_or (f_is_read row) (PInt 0)) 0 = false.
Proof.
  intros H. pose proof (simular_value_error _ _ _ _ H) as Hr.
  unfold simular_para_interaccion in H. rewrite Hr in H.
  destruct (convertir_num_pages float_of_str (get_or (f_num_pages row) (PInt 300)))
    as [e|np] eqn:Enp.
  { apply convertir_num_pages_error in Enp. subst e. discriminate. }
  split; [eauto|].
  destruct (py_eq_num (get_or (f_is_read row) (PInt 0)) 0); [discriminate | reflexivity].
Qed.

Lemma simular_rating_nan secreto ahora row (g : G) np :
  convertir_num_pages float_of_str (get_or (f_num_pages row) (PInt 300)) = inr np ->
  get_or (f_rating row) (PInt 3) = PFloat FNaN ->
  py_eq_num (get_or (f_is_read row) (PInt 0)) 0 = false ->
  simular_para_interaccion float_of_str secreto ahora row g = inl ValueError.
Proof.
  intros Enp Hr H0. unfold simular_para_interaccion. rewrite Enp, Hr, H0.
  cbn [andb].
  destruct (py_eq_num (get_or (f_is_read row) (PInt 0)) 1); reflexivity.
Qed.

Lemma simular_rating_inf secreto ahora row (g : G) np :
  convertir_num_pages float_of_str (get_or (f_num_pages row) (PInt 300)) = inr np ->
  get_or (f_rating row) (PInt 3) = PFloat FInf ->
  py_eq_num (get_or (f_is_read row) (PInt 0)) 1 = false ->
  simular_para_interaccion float_of_str secreto ahora row g = inl OverflowError.
Proof.
  intros Enp Hr H1. unfold simular_para_interaccion. rewrite Enp, Hr, H1.
  change (isna (PFloat FInf)) with false. rewrite andb_false_r. reflexivity.
Qed.

Lemma simular_type_error secreto ahora row (g : G) :
  simular_para_interaccion float_of_str secreto ahora row g = inl TypeError ->
  as_float (get_or (f_rating row) (PInt 3)) = None \/
  as_float (get_or (f_abandono_score row) (PInt 0)) = None \/
  as_float (get_or (f_engagement_score row) (PInt 0)) = None \/
  as_float (get_or (f_complejidad_score row) (PInt 0)) = None \/
  as_float (get_or (f_ritmo_score row) (PInt 0)) = None.
Proof.
  unfold simular_para_interaccion.
  destruct (convertir_num_pages float_of_str (get_or (f_num_pages row) (PInt 300)))
    as [e|np] eqn:Enp.
  { apply convertir_num_pages_error in Enp. subst e. discriminate. }
  destruct (py_eq_num (get_or (f_is_read row) (PInt 0)) 0
            && isna (get_or (f_rating row) (PInt 3))); [discriminate|].
  unfold py_ge_num, py_le_num, py_int, numero.
  destruct (as_float (get_or (f_rating row) (PInt 3))) as [r|]; [|auto].
  destruct (as_float (get_or (f_abandono_score row) (PInt 0))) as [ab|]; [|auto].
  destruct (as_float (get_or (f_engagement_score row) (PInt 0))) as [en|]; [|auto].
  destruct (as_float (get_or (f_complejidad_score row) (PInt 0))) as [co|]; [|auto].
  destruct (as_float (get_or (f_ritmo_score row) (PInt 0))) as [ri|]; [|auto 6].
  destruct r as [q| | |]; cbn [int_of_float];
    repeat match goal with
    | |- context [if ?b then _ else _] => destruct b
    | |- context [match random ?g with pair _ _ => _ end] => destruct (random g)
    end; discriminate.
Qed.

Lemma simular_rating_no_numerico secreto ahora row (g : G) np :
  convertir_num_pages float_of_str (get_or (f_num_pages row) (PInt 300)) = inr np ->
  as_float (get_or (f_rating row) (PInt 3)) = None ->
  py_eq_num (get_or (f_is_read row) (PInt 0)) 0
    && isna (get_or (f_rating row) (PInt 3)) = false ->
  simular_para_interaccion float_of_str secreto ahora row g = inl TypeError.
Proof.
  intros Enp Hr H0. unfold simular_para_interaccion. rewrite Enp, H0.
  unfold py_ge_num, py_le_num. rewrite Hr.
  destruct (py_eq_num (get_or (f_is_read row) (PInt 0)) 1); reflexivity.
Qed.

Lemma salida_acotada secreto ahora row (g : G) ss g' :
  simular_para_interaccion float_of_str secreto ahora row g = inr (ss, g') ->
  (List.length ss <= 39)%nat.
Proof.
  intros H. apply simular_para_interaccion_forma in H.
  destruct H as [E | [np [regla [n [obj [dias [g0 [g1 [_ [_ [_ [Hn [_ [_ Hss]]]]]]]]]]]]]].
  - subst ss. simpl. lia.
  - rewrite Hss, longitud_salida. lia.
Qed.

End Excepciones.

(** X10. The exceptions of the dispatch.  [ValueError] escapes exactly
    for a NaN rating on a row whose page count converts and whose read
    flag does not equal 0 (the batch pipeline filters such ratings out
    before the loop).  [TypeError] escapes only when the rating or one of
    the four review scores is text or [None], and always does for such a
    rating outside the no-data case.  An infinite rating on a row whose
    read flag does not equal 1 raises [OverflowError], and an exception of
    the page-count conversion escapes as it is. *)
Theorem excepciones_de_la_fila :
  forall (G : Type) (RS : RandomState G) (float_of_str : string -> option pyfloat)
         secreto ahora row (g : G),
    let rating := get_or (f_rating row) (PInt 3) in
    let is_read := get_or (f_is_read row) (PInt 0) in
    let paginas :=
      convertir_num_pages float_of_str (get_or (f_num_pages row) (PInt 300)) in
    let salida := simular_para_interaccion float_of_str secreto ahora row g in
    (salida = inl ValueError <->
     (exists np, paginas = inr np) /\ rating = PFloat FNaN /\
     py_eq_num is_read 0 = false) /\
    (salida = inl TypeError ->
     as_float rating = None \/
     as_float (get_or (f_abandono_score row) (PInt 0)) = None \/
     as_float (get_or (f_engagement_score row) (PInt 0)) = None \/
     as_float (get_or (f_complejidad_score row) (PInt 0)) = None \/
     as_float (get_or (f_ritmo_score row) (PInt 0)) = None) /\
    (forall np, paginas = inr np -> as_float rating = None ->
                py_eq_num is_read 0 && isna rating = false ->
                salida = inl TypeError) /\
    (forall np, paginas = inr np -> rating = PFloat FInf ->
                py_eq_num is_read 1 = false ->
                salida = inl OverflowError) /\
    (forall e, paginas = inl e -> salida = inl e).
Proof.
  intros G RS fos secreto ahora row g rating is_read paginas salida.
  split; [split|].
  - intros H. destruct (simular_value_error_inv fos _ _ _ _ H) as [Hnp H0].
    split; [exact Hnp|]. split; [|exact H0].
    apply (simular_value_error fos _ _ _ _ H).
  - intros [[np Enp] [Hr H0]]. apply (simular_rating_nan fos _ _ _ _ np Enp Hr H0).
  - split; [apply simular_type_error|].
    split; [intros np; apply simular_rating_no_numerico|].
    split; [intros np; apply simular_rating_inf|].
    intros e He. unfold salida, simular_para_interaccion. fold paginas.
    rewrite He. reflexivity.
Qed.

Lemma excepciones_de_la_fila_witness :
  (exists np,
     convertir_num_pages float_decimal (get_or (f_num_pages fila_sin_rating) (PInt 300))
       = inr np) /\
  get_or (f_rating fila_sin_rating) (PInt 3) = PFloat FNaN /\
  py_eq_num (get_or (f_is_read fila_sin_rating) (PInt 0)) 0 = false /\
  simular_para_interaccion float_decimal secreto_1 ahora_ejemplo fila_sin_rating []
    = inl ValueError.
Proof.
  assert (H1 : exists np,
            convertir_num_pages float_decimal
              (get_or (f_num_pages fila_sin_rating) (PInt 300)) = inr np)
    by (exists 200; vm_compute; reflexivity).
  split; [exact H1|]. split; [reflexivity|]. split; [reflexivity|].
  apply (proj2 (proj1 (excepciones_de_la_fila cinta RandomState_cinta float_decimal
                         secreto_1 ahora_ejemplo fila_sin_rating []))).
  split; [exact H1|]. split; reflexivity.
Defined.

(** X11. The no-data case and its limits.  A row whose read flag equals 0
    and whose rating cell is null yields no session and leaves the
    generator untouched.  A row whose rating column is absent is not such
    a case: the rating defaults to 3 and the row always yields at least
    one session. *)
Theorem sin_datos_sin_sesiones :
  forall (G : Type) (RS : RandomState G) (float_of_str : string -> option pyfloat)
         secreto ahora row (g : G),
    (forall num_pages,
       convertir_num_pages float_of_str (get_or (f_num_pages row) (PInt 300))
         = inr num_pages ->
       py_eq_num (get_or (f_is_read row) (PInt 0)) 0 = true ->
       isna (get_or (f_rating row) (PInt 3)) = true ->
       simular_para_interaccion float_of_str secreto ahora row g = inr ([], g)) /\
    (forall ss g',
       f_rating row = None ->
       simular_para_interaccion float_of_str secreto ahora row g = inr (ss, g') ->
       ss <> []).
Proof.
  intros G RS fos secreto ahora row g. split.
  - intros np Enp Hr Hna. unfold simular_para_interaccion.
    rewrite Enp, Hr, Hna. reflexivity.
  - intros ss g' Hnone. unfold simular_para_interaccion. rewrite Hnone.
    cbn [get_or].
    destruct (convertir_num_pages fos (get_or (f_num_pages row) (PInt 300)))
      as [e|np] eqn:Enp; [discriminate|].
    pose proof (convertir_num_pages_min fos _ _ Enp) as Hnp.
    change (isna (PInt 3)) with false. rewrite andb_false_r.
    replace (if py_eq_num (get_or (f_is_read row) (PInt 0)) 1
             then py_ge_num (PInt 3) 4 else inr false)
      with (@inr Exn bool false)
      by (destruct (py_eq_num (get_or (f_is_read row) (PInt 0)) 1); reflexivity).
    change (py_le_num (PInt 3) 2) with (@inr Exn bool false).
    change (py_int (PInt 3)) with (@inr Exn Z 3).
    destruct (numero (get_or (f_abandono_score row) (PInt 0))); [discriminate|].
    destruct (numero (get_or (f_engagement_score row) (PInt 0))) as [|en]; [discriminate|].
    destruct (numero (get_or (f_complejidad_score row) (PInt 0))); [discriminate|].
    destruct (numero (get_or (f_ritmo_score row) (PInt 0))); [discriminate|].
    cbv iota beta. destruct (random g) as [x g1].
    pose proof (generadores_no_vacios secreto ahora (f_book_id row) (f_user_id row)
                  np (get_or (f_genres row) (PStr "default")) g1 ltac:(lia))
      as [Hc [Ht Hm]].
    destruct (f_lt (FNum x) _); [destruct (f_lt en _)|];
      intros H; inversion H as [H']; rewrite H' in *; simpl in *; assumption.
Qed.

Lemma sin_datos_sin_sesiones_witness :
  (convertir_num_pages float_decimal (get_or (f_num_pages fila_sin_datos) (PInt 300))
     = inr 412 /\
   py_eq_num (get_or (f_is_read fila_sin_datos) (PInt 0)) 0 = true /\
   isna (get_or (f_rating fila_sin_datos) (PInt 3)) = true /\
   simular_para_interaccion float_decimal secreto_1 ahora_ejemplo fila_sin_datos
     cinta_medio = inr ([], cinta_medio)) /\
  (f_rating fila_sin_columnas = None /\
   exists ss g',
     simular_para_interaccion float_decimal secreto_1 ahora_ejemplo fila_sin_columnas
       cinta_medio = inr (ss, g') /\ ss <> []).
Proof.
  split.
  - split; [reflexivity|]. split; [reflexivity|]. split; [reflexivity|].
    apply (proj1 (sin_datos_sin_sesiones cinta RandomState_cinta float_decimal
                    secreto_1 ahora_ejemplo fila_sin_datos cinta_medio) 412);
      reflexivity.
  - split; [reflexivity|].
    destruct (simular_para_interaccion float_decimal secreto_1 ahora_ejemplo
                fila_sin_columnas cinta_medio) as [e|[ss g']] eqn:E.
    + vm_compute in E. discriminate E.
    + exists ss, g'. split; [reflexivity|].
      apply (proj2 (sin_datos_sin_sesiones cinta RandomState_cinta float_decimal
                      secreto_1 ahora_ejemplo fila_sin_columnas cinta_medio)
               ss g' eq_refl E).
Defined.

(** ** The batch loop *)

Section LoteDeFilas.

Context {G : Type} {RS : RandomState G}.
Variable float_of_str : string -> option pyfloat.

Lemma generar_todas_concat secreto data : forall (g : G) todas g',
  generar_todas_sesiones float_of_str secreto data g = inr (todas, g') ->
  exists salidas,
    todas = List.concat salidas /\
    Forall2 (fun d ss => exists g1 g2,
               simular_para_interaccion float_of_str secreto (fst d) (snd d) g1
                 = inr (ss, g2)) data salidas.
Proof.
  induction data as [|[ahora row] resto IH]; intros g todas g' H; simpl in H.
  - inversion H; subst. exists []. split; [reflexivity | constructor].
  - destruct (simular_para_interaccion float_of_str secreto ahora row g)
      as [e|[ss g1]] eqn:E; [discriminate|].
    destruct (generar_todas_sesiones float_of_str secreto resto g1)
      as [e|[rest g2]] eqn:E2; [discriminate|].
    inversion H; subst. destruct (IH g1 rest g' E2) as [salidas [Hc Hf]].
    exists (ss :: salidas). split; [simpl; rewrite Hc; reflexivity|].
    constructor; [exists g, g1; exact E | exact Hf].
Qed.

Lemma generar_todas_aborta secreto data : forall (g : G) e,
  generar_todas_sesiones float_of_str secreto data g = inl e ->
  exists antes ahora row despues g1,
    data = antes ++ (ahora, row) :: despues /\
    simular_para_interaccion float_of_str secreto ahora row g1 = inl e.
Proof.
  induction data as [|[ahora row] resto IH]; intros g e H; simpl in H; [discriminate|].
  destruct (simular_para_interaccion float_of_str secreto ahora row g)
    as [e1|[ss g1]] eqn:E.
  - inversion H; subst. exists [], ahora, row, resto, g. split; [reflexivity | exact E].
  - destruct (generar_todas_sesiones float_of_str secreto resto g1)
      as [e2|[rest g2]] eqn:E2; [|discriminate].
    inversion H; subst.
    destruct (IH g1 e E2) as [antes [a [r [despues [g3 [Hd Hs]]]]]].
    exists ((ahora, row) :: antes), a, r, despues, g3.
    split; [rewrite Hd; reflexivity | exact Hs].
Qed.

End LoteDeFilas.

(** X12. The batch loop over the merged table.  A returned table is the
    concatenation, in row order, of what the simulator returned for each
    row, so it holds at most 39 sessions per row and each of its sessions
    lasts at least 5 minutes and reads a non-negative number of pages; and
    when the loop raises, the exception is the one some row raised. *)
Theorem lote_de_filas :
  forall (G : Type) (RS : RandomState G) (float_of_str : string -> option pyfloat)
         secreto data (g : G),
    (forall todas g',
       generar_todas_sesiones float_of_str secreto data g = inr (todas, g') ->
       (exists salidas,
          todas = List.concat salidas /\
          Forall2 (fun d ss => exists g1 g2,
                     simular_para_interaccion float_of_str secreto (fst d) (snd d) g1
                       = inr (ss, g2)) data salidas) /\
       (List.length todas <= 39 * List.length data)%nat /\
       Forall (fun s => (5 <= duration_minutes s)%Q /\ 0 <= pages_read s) todas) /\
    (forall e,
       generar_todas_sesiones float_of_str secreto data g = inl e ->
       exists antes ahora row despues g1,
         data = antes ++ (ahora, row) :: despues /\
         simular_para_interaccion float_of_str secreto ahora row g1 = inl e).
Proof.
  intros G RS fos secreto data g.
  split; [|apply generar_todas_aborta].
  intros todas g' H.
  destruct (generar_todas_concat fos secreto data g todas g' H) as [salidas [Hc Hf]].
  split; [exists salidas; split; assumption|].
  subst todas. clear H. induction Hf as [|d ss data' salidas' Hd Hf IH].
  - split; [simpl; lia | constructor].
  - destruct IH as [Hlen Hall]. destruct Hd as [g1 [g2 Hs]].
    pose proof (salida_acotada fos _ _ _ _ _ _ Hs) as Hl.
    split.
    + simpl. rewrite length_app. lia.
    + simpl. apply Forall_app. split; [|exact Hall].
      apply simular_para_interaccion_valida in Hs.
      destruct Hs as [E | [np [obj [_ [Hv _]]]]]; [subst ss; constructor|].
      destruct Hv as [_ [_ [_ [Hdur [Hpag _]]]]].
      rewrite Forall_forall in *. intros s Hin.
      split; [apply Hdur; exact Hin | apply (Hpag s Hin)].
Qed.

Lemma lote_de_filas_witness :
  exists todas g',
    generar_todas_sesiones float_decimal secreto_1 tabla_ejemplo cinta_completado
      = inr (todas, g') /\
    (List.length todas <= 39 * List.length tabla_ejemplo)%nat /\
    Forall (fun s => (5 <= duration_minutes s)%Q /\ 0 <= pages_read s) todas.
Proof.
  destruct (generar_todas_sesiones float_decimal secreto_1 tabla_ejemplo
              cinta_completado) as [e|[todas g']] eqn:E.
  - vm_compute in E. discriminate E.
  - exists todas, g'. split; [reflexivity|].
    exact (proj2 (proj1 (lote_de_filas cinta RandomState_cinta float_decimal secreto_1
                           tabla_ejemplo cinta_completado) todas g' E)).
Defined.

(** * Properties of the review analysis *)

Section PropiedadesDelAnalizador.

Import Analizador.

Ltac por_casos c := destruct c as [[] [] [] [] [] [] [] []]; vm_compute; auto.

Lemma minuscula_no_mayuscula c : es_mayuscula (minuscula c) = false.
Proof. por_casos c. Qed.

Lemma minuscula_fija c : es_mayuscula c = false -> minuscula c = c.
Proof. unfold minuscula. intros ->. reflexivity. Qed.

Lemma espacio_no_es_tag c : es_espacio c = true -> c <> menor /\ c <> mayor.
Proof. por_casos c; intros; split; discriminate. Qed.

(** *** Tag removal *)

Lemma quitar_tags_desde_Forall (P : ascii -> Prop) l : forall pend,
  Forall P l ->
  match pend with Some buf => Forall P buf | None => True end ->
  Forall P (quitar_tags_desde pend l).
Proof.
  induction l as [|c r IH]; intros pend Hl Hp.
  - destruct pend; simpl; [exact Hp | constructor].
  - inversion Hl as [|? ? Hc Hr]; subst. destruct pend as [buf|]; simpl.
    + destruct (Ascii.eqb c mayor).
      * destruct buf as [|b [|b' buf']].
        -- apply (IH None Hr I).
        -- simpl. constructor; [inversion Hp; assumption|].
           constructor; [exact Hc | apply (IH None Hr I)].
        -- apply (IH None Hr I).
      * apply IH; [exact Hr|]. apply Forall_app. split; [exact Hp | auto].
    + destruct (Ascii.eqb c menor).
      * apply IH; [exact Hr | auto].
      * constructor; [exact Hc | apply (IH None Hr I)].
Qed.

Lemma quitar_sin_cierre l : forall buf,
  Forall (fun c => c <> mayor) l ->
  quitar_tags_desde (Some buf) l = buf ++ l.
Proof.
  induction l as [|c r IH]; intros buf Hl; simpl.
  - rewrite app_nil_r. reflexivity.
  - inversion Hl as [|? ? Hc Hr]; subst.
    destruct (Ascii.eqb_spec c mayor) as [E|_]; [contradiction|].
    rewrite (IH _ Hr), <- app_assoc. reflexivity.
Qed.

Lemma quitar_con_cierre a : forall buf rest,
  Forall (fun c => c <> mayor) a -> buf <> [] ->
  quitar_tags_desde (Some buf) (a ++ mayor :: rest) =
    if (List.length (buf ++ a) =? 1)%nat
    then buf ++ mayor :: quitar_tags_desde None rest
    else quitar_tags_desde None rest.
Proof.
  induction a as [|c a IH]; intros buf rest Ha Hb.
  - rewrite app_nil_r. cbn [app quitar_tags_desde]. rewrite Ascii.eqb_refl.
    destruct buf as [|b [|b' buf']]; [contradiction | reflexivity | reflexivity].
  - inversion Ha as [|? ? Hc Ha']; subst. simpl.
    destruct (Ascii.eqb_spec c mayor) as [E|_]; [contradiction|].
    rewrite (IH (buf ++ [c]) rest Ha') by (destruct buf; discriminate).
    replace (List.length ((buf ++ [c]) ++ a) =? 1)%nat with false.
    + replace (List.length (buf ++ c :: a) =? 1)%nat with false; [reflexivity|].
      symmetry. apply Nat.eqb_neq. rewrite length_app. simpl.
      destruct buf; [contradiction | simpl; lia].
    + symmetry. apply Nat.eqb_neq. rewrite !length_app. simpl.
      destruct buf; [contradiction | simpl; lia].
Qed.

Lemma primer_cierre l :
  Forall (fun c => c <> mayor) l \/
  exists a rest, l = a ++ mayor :: rest /\ Forall (fun c => c <> mayor) a.
Proof.
  induction l as [|c r IH]; [left; constructor|].
  destruct (Ascii.eqb_spec c mayor) as [E|N].
  - right. exists [], r. subst c. split; [reflexivity | constructor].
  - destruct IH as [H | [a [rest [E Ha]]]].
    + left. constructor; assumption.
    + right. exists (c :: a), rest. subst r. split; [reflexivity|].
      constructor; assumption.
Qed.

Lemma quitar_tags_sin_tags l : sin_tags (quitar_tags l).
Proof.
  unfold quitar_tags.
  remember (List.length l) as n eqn:Hn.
  assert (Hle : (List.length l <= n)%nat) by lia. clear Hn.
  revert l Hle. induction n as [|n IH]; intros l Hle.
  - destruct l; [constructor | simpl in Hle; lia].
  - destruct l as [|c r]; [constructor|]. simpl in Hle. simpl.
    destruct (Ascii.eqb_spec c menor) as [E|N].
    + subst c. destruct (primer_cierre r) as [H | [a [rest [E Ha]]]].
      * rewrite (quitar_sin_cierre r [menor] H). simpl. apply st_abierto. exact H.
      * subst r. rewrite (quitar_con_cierre a [menor] rest Ha) by discriminate.
        assert (Hrest : (List.length rest <= n)%nat)
          by (rewrite length_app in Hle; simpl in Hle; lia).
        destruct a as [|x a'].
        -- simpl. apply st_vacio. apply IH. exact Hrest.
        -- simpl. apply IH. exact Hrest.
    + apply st_otro; [exact N | apply IH; lia].
Qed.

Lemma quitar_tags_fijo l : sin_tags l -> quitar_tags l = l.
Proof.
  unfold quitar_tags. induction 1 as [|c r Hc Hr IH|r Hr IH|r Hr].
  - reflexivity.
  - simpl. destruct (Ascii.eqb_spec c menor); [contradiction|]. rewrite IH. reflexivity.
  - simpl. rewrite IH. reflexivity.
  - simpl. rewrite (quitar_sin_cierre r _ Hr). reflexivity.
Qed.

(** *** White space *)

Lemma unir_cons_letra c w ws : unir ((c :: w) :: ws) = c :: unir (w :: ws).
Proof. destruct ws; reflexivity. Qed.

Lemma palabras_no_vacio c r :
  es_espacio c = false -> palabras (c :: r) <> [].
Proof.
  intros Hc. simpl. rewrite Hc. destruct r as [|d r']; [discriminate|].
  destruct (es_espacio d); [discriminate|].
  destruct (palabras (d :: r')); discriminate.
Qed.

Lemma compacta_palabras l : compacta l (unir (palabras l)).
Proof.
  remember (List.length l) as n eqn:Hn.
  assert (Hle : (List.length l <= n)%nat) by lia. clear Hn.
  revert l Hle. induction n as [|n IH]; intros l Hle.
  - destruct l; [constructor | simpl in Hle; lia].
  - destruct l as [|c r]; [constructor|]. simpl in Hle.
    cbn [palabras]. destruct (es_espacio c) eqn:Ec.
    + apply co_fuera; [exact Ec | apply IH; lia].
    + destruct r as [|d r']; [repeat constructor|].
      destruct (es_espacio d) eqn:Ed.
      * cbn [palabras]. rewrite Ed. simpl in Hle.
        pose proof (IH r' ltac:(lia)) as Hr.
        destruct (palabras r') as [|w ws].
        -- simpl. apply co_igual. apply co_fuera; assumption.
        -- change (unir ([c] :: w :: ws)) with (c :: espacio :: unir (w :: ws)).
           apply co_igual. apply co_espacio; assumption.
      * pose proof (IH (d :: r') ltac:(lia)) as Hr.
        pose proof (palabras_no_vacio d r' Ed) as Hne.
        destruct (palabras (d :: r')) as [|w ws]; [contradiction|].
        rewrite unir_cons_letra. apply co_igual. exact Hr.
Qed.

Lemma compacta_Forall (P : ascii -> Prop) l l' :
  compacta l l' -> P espacio -> Forall P l -> Forall P l'.
Proof.
  intros Hc Hp. induction Hc as [|c l l' Hc IH|c l l' He Hc IH|c l l' He Hc IH];
    intros Hl; [constructor| | |]; inversion Hl; subst; auto.
Qed.

Lemma compacta_sin_tags l l' : compacta l l' -> sin_tags l -> sin_tags l'.
Proof.
  intros Hc. induction Hc as [|c l l' Hc IH|c l l' He Hc IH|c l l' He Hc IH];
    intros Hs.
  - constructor.
  - inversion Hs as [|? ? Hn Hr|r Hr|r Hr]; subst.
    + apply st_otro; auto.
    + (* "<" ">" r *)
      inversion Hc as [|? ? ? Hc'|? ? ? He' Hc'|? ? ? He' Hc']; subst.
      * assert (Hm : sin_tags (mayor :: l'0))
          by (apply IH; apply st_otro; [discriminate | exact Hr]).
        apply st_vacio.
        inversion Hm as [|? ? Hn' Hr'|r1 Hr1|r1 Hr1]; subst; exact Hr'.
      * destruct (espacio_no_es_tag _ He') as [_ Hm]. contradiction.
      * destruct (espacio_no_es_tag _ He') as [_ Hm]. contradiction.
    + apply st_abierto. apply (compacta_Forall _ _ _ Hc); [discriminate | exact Hr].
  - inversion Hs as [|? ? Hn Hr|r Hr|r Hr]; subst.
    + auto.
    + destruct (espacio_no_es_tag _ He) as [Hm _]. contradiction.
    + destruct (espacio_no_es_tag _ He) as [Hm _]. contradiction.
  - inversion Hs as [|? ? Hn Hr|r Hr|r Hr]; subst.
    + apply st_otro; [discriminate | auto].
    + destruct (espacio_no_es_tag _ He) as [Hm _]. contradiction.
    + destruct (espacio_no_es_tag _ He) as [Hm _]. contradiction.
Qed.

Lemma palabras_son_palabras l : Forall sin_espacios (palabras l).
Proof.
  induction l as [|c r IH]; [constructor|].
  cbn [palabras]. destruct (es_espacio c) eqn:Ec; [exact IH|].
  destruct r as [|d r'].
  - repeat constructor; [discriminate | exact Ec].
  - destruct (es_espacio d) eqn:Ed.
    + constructor; [|exact IH]. split; [discriminate | repeat constructor; exact Ec].
    + destruct (palabras (d :: r')) as [|w ws].
      * repeat constructor; [discriminate | exact Ec].
      * inversion IH as [|? ? [Hw1 Hw2] Hws]; subst.
        constructor; [|exact Hws]. split; [discriminate | constructor; assumption].
Qed.

Lemma palabras_Forall (P : ascii -> Prop) l :
  Forall P l -> Forall (Forall P) (palabras l).
Proof.
  induction l as [|c r IH]; intros Hl; [constructor|].
  inversion Hl as [|? ? Hc Hr]; subst. specialize (IH Hr).
  cbn [palabras]. destruct (es_espacio c); [exact IH|].
  destruct r as [|d r']; [repeat constructor; exact Hc|].
  destruct (es_espacio d).
  - constructor; [repeat constructor; exact Hc | exact IH].
  - destruct (palabras (d :: r')) as [|w ws]; [repeat constructor; exact Hc|].
    inversion IH; subst. constructor; [constructor; assumption | assumption].
Qed.

Lemma palabras_de_palabra w rest :
  sin_espacios w ->
  palabras (w ++ espacio :: rest) = w :: palabras rest /\ palabras w = [w].
Proof.
  intros [Hne Hw]. induction w as [|c w IH]; [contradiction|].
  inversion Hw as [|? ? Hc Hw']; subst.
  destruct w as [|c' w''].
  - simpl. rewrite Hc. split; reflexivity.
  - inversion Hw' as [|? ? Hc' _]; subst.
    destruct (IH ltac:(discriminate) Hw') as [IH1 IH2].
    split.
    + change ((c :: c' :: w'') ++ espacio :: rest)
        with (c :: (c' :: w'') ++ espacio :: rest).
      cbn [palabras app]. rewrite Hc, Hc'.
      cbn [app] in IH1. cbn [palabras] in IH1. rewrite Hc' in IH1.
      rewrite IH1. reflexivity.
    + cbn [palabras]. rewrite Hc, Hc'.
      cbn [palabras] in IH2. rewrite Hc' in IH2. rewrite IH2. reflexivity.
Qed.

Lemma palabras_unir ws : Forall sin_espacios ws -> palabras (unir ws) = ws.
Proof.
  induction ws as [|w ws IH]; intros Hf; [reflexivity|].
  inversion Hf as [|? ? Hw Hws]; subst.
  destruct ws as [|w' ws'].
  - simpl. apply (palabras_de_palabra w [] Hw).
  - change (unir (w :: w' :: ws')) with (w ++ espacio :: unir (w' :: ws')).
    rewrite (proj1 (palabras_de_palabra w _ Hw)). rewrite (IH Hws). reflexivity.
Qed.

Lemma limpiar_lista_sin_mayusculas l :
  Forall (fun c => es_mayuscula c = false) (limpiar_lista l).
Proof.
  unfold limpiar_lista.
  apply (compacta_Forall _ _ _ (compacta_palabras _)); [reflexivity|].
  apply (quitar_tags_desde_Forall _ _ None); [|exact I].
  apply Forall_forall. intros c Hin. apply in_map_iff in Hin.
  destruct Hin as [x [<- _]]. apply minuscula_no_mayuscula.
Qed.

Lemma limpiar_lista_sin_tags l : sin_tags (limpiar_lista l).
Proof.
  unfold limpiar_lista.
  apply (compacta_sin_tags _ _ (compacta_palabras _)).
  apply quitar_tags_sin_tags.
Qed.

Lemma limpiar_lista_idempotente l :
  limpiar_lista (limpiar_lista l) = limpiar_lista l.
Proof.
  assert (Hm : map minuscula (limpiar_lista l) = limpiar_lista l).
  { pose proof (limpiar_lista_sin_mayusculas l) as Hf.
    induction (limpiar_lista l) as [|c r IH]; [reflexivity|].
    inversion Hf; subst. simpl. rewrite minuscula_fija by assumption.
    rewrite IH by assumption. reflexivity. }
  unfold limpiar_lista at 1. rewrite Hm.
  rewrite (quitar_tags_fijo _ (limpiar_lista_sin_tags l)).
  unfold limpiar_lista. rewrite palabras_unir; [reflexivity|].
  apply palabras_son_palabras.
Qed.

Lemma s2l_l2s l : s2l (l2s l) = l.
Proof. apply list_ascii_of_string_of_list_ascii. Qed.

(** X13. [limpiar_texto] is idempotent: cleaning a cleaned text changes
    nothing.  [analizar_review_individual] cleans the review and
    [contar_keywords] cleans it again; the second pass is therefore
    harmless, and counting in the cleaned text equals counting in the raw
    one. *)
Theorem limpiar_texto_idempotente :
  forall (texto : option string) (keywords : list string),
    limpiar_texto (Some (limpiar_texto texto)) = limpiar_texto texto /\
    contar_keywords (Some (limpiar_texto texto)) keywords
      = contar_keywords texto keywords.
Proof.
  assert (H : forall texto,
            limpiar_texto (Some (limpiar_texto texto)) = limpiar_texto texto).
  { intros [[|c s]|]; [reflexivity| |reflexivity].
    cbn [limpiar_texto].
    destruct (l2s (limpiar_lista (s2l (String c s)))) as [|c' s'] eqn:E;
      [reflexivity|].
    rewrite <- E. rewrite s2l_l2s, limpiar_lista_idempotente. reflexivity. }
  intros texto keywords. split; [apply H|].
  unfold contar_keywords. rewrite H. reflexivity.
Qed.

(** X14. The shape of a cleaned text: it is a sequence of words joined by
    single spaces, where a word is a non-empty run without white space and
    without upper-case letters, and it holds no tag (every [<] left in it
    is followed at once by [>] or by no [>] at all).  A missing or empty
    review cleans to the empty text. *)
Theorem limpiar_texto_forma :
  forall texto : option string,
    (exists ws, s2l (limpiar_texto texto) = unir ws /\ Forall palabra_limpia ws) /\
    sin_tags (s2l (limpiar_texto texto)) /\
    limpiar_texto None = EmptyString /\
    limpiar_texto (Some EmptyString) = EmptyString.
Proof.
  intros texto.
  assert (Hl : forall l,
    (exists ws, limpiar_lista l = unir ws /\ Forall palabra_limpia ws) /\
    sin_tags (limpiar_lista l)).
  { intros l. split; [|apply limpiar_lista_sin_tags].
    exists (palabras (limpiar_lista l)). split.
    - unfold limpiar_lista at 1. rewrite <- (palabras_unir (palabras _)) at 1
        by apply palabras_son_palabras. reflexivity.
    - pose proof (palabras_son_palabras (limpiar_lista l)) as H1.
      pose proof (palabras_Forall _ _ (limpiar_lista_sin_mayusculas l)) as H2.
      induction (palabras (limpiar_lista l)) as [|w ws IH]; [constructor|].
      inversion H1 as [|? ? [Hne Hsp] H1']; subst. inversion H2; subst.
      constructor; [|apply IH; assumption].
      split; [exact Hne|]. rewrite Forall_forall in *. auto. }
  split; [|split; [|split; reflexivity]].
  - destruct texto as [[|c s]|]; try (exists []; split; [reflexivity | constructor]).
    cbn [limpiar_texto]. rewrite s2l_l2s. apply Hl.
  - destruct texto as [[|c s]|]; try constructor.
    cbn [limpiar_texto]. rewrite s2l_l2s. apply Hl.
Qed.

(** *** Counting and aggregation *)

Lemma contar_desde_no_negativo sub l : forall saltar, 0 <= contar_desde sub saltar l.
Proof.
  induction l as [|c r IH]; intros saltar; cbn [contar_desde]; [lia|].
  destruct saltar; [|apply IH].
  destruct (prefijo sub (c :: r)); [|apply IH].
  pose proof (IH (List.length sub - 1)%nat). lia.
Qed.

Lemma contar_no_negativo sub texto : 0 <= contar sub texto.
Proof.
  unfold contar. destruct sub; [lia | apply contar_desde_no_negativo].
Qed.

Lemma contar_keywords_no_negativo texto keywords : 0 <= contar_keywords texto keywords.
Proof.
  unfold contar_keywords.
  assert (H : forall acc, 0 <= acc ->
    0 <= fold_left (fun contador keyword =>
                      contador + contar keyword (limpiar_texto texto)) keywords acc).
  { induction keywords as [|k ks IH]; intros acc Hacc; simpl; [exact Hacc|].
    apply IH. pose proof (contar_no_negativo k (limpiar_texto texto)). lia. }
  apply H. lia.
Qed.

Lemma suma_no_negativa (columna : Features -> Z) fs :
  Forall (fun f => 0 <= columna f) fs -> 0 <= suma columna fs.
Proof.
  unfold suma. induction 1 as [|f fs Hf _ IH]; simpl; lia.
Qed.

Lemma features_individuales_filtro reviews :
  List.length (features_individuales reviews)
    = List.length (filter con_texto reviews).
Proof.
  induction reviews as [|x r IH]; [reflexivity|].
  destruct x as [[|c s]|]; simpl; try assumption.
  rewrite IH. reflexivity.
Qed.

Lemma features_sin_negativos reviews :
  Forall (fun f => 0 <= abandono_mencionado f) (features_individuales reviews).
Proof.
  induction reviews as [|x r IH]; [constructor|].
  destruct x as [[|c s]|]; simpl; try assumption.
  constructor; [|exact IH]. simpl. apply contar_keywords_no_negativo.
Qed.

Lemma features_individuales_perm l l' :
  Permutation l l' ->
  Permutation (features_individuales l) (features_individuales l').
Proof.
  induction 1 as [|x l l' _ IH|x y l|l l' l'' _ IH1 _ IH2].
  - constructor.
  - simpl. destruct (analizar_review_individual x); [constructor|]; exact IH.
  - simpl. destruct (analizar_review_individual x), (analizar_review_individual y);
      try apply Permutation_refl. constructor.
  - eapply Permutation_trans; eassumption.
Qed.

Lemma suma_perm (columna : Features -> Z) fs fs' :
  Permutation fs fs' -> suma columna fs = suma columna fs'.
Proof.
  unfold suma. induction 1; simpl; lia.
Qed.

(** X15. [analizar_reviews_libro] returns nothing exactly when no review
    of the list is both present and non-empty.  Otherwise the number of
    reviews analysed is the number of such reviews (a review that is only
    white space or markup counts); each of the five mention counts is the
    total of its keyword column over the analysed reviews; each of the
    five scores is its total, or difference of totals, over that number;
    and the abandonment score is not negative. *)
Theorem analizar_reviews_libro_resultado :
  forall reviews : list (option string),
    let n := Z.of_nat (List.length (filter con_texto reviews)) in
    (analizar_reviews_libro reviews = None <-> n = 0) /\
    (forall f, analizar_reviews_libro reviews = Some f ->
       let fs := features_individuales reviews in
       num_reviews_analizadas f = n /\ 1 <= n <= Z.of_nat (List.length reviews) /\
       menciones f =
         [suma abandono_mencionado fs; suma engagement_alto fs;
          suma complejidad_alta fs; suma ritmo_lento fs; suma emocional_alto fs] /\
       Forall2 (fun puntaje total => (puntaje * inject_Z n == inject_Z total)%Q)
         (puntajes f)
         [suma abandono_mencionado fs;
          suma engagement_alto fs - suma engagement_bajo fs;
          suma complejidad_alta fs - suma lectura_facil fs;
          suma ritmo_rapido fs - suma ritmo_lento fs;
          suma emocional_alto fs - suma emocional_bajo fs] /\
       0 <= menciones_abandono f /\ (0 <= abandono_score f)%Q).
Proof.
  intros reviews n.
  pose proof (features_individuales_filtro reviews) as Hlen.
  pose proof (filter_length_le con_texto reviews) as Hle.
  unfold analizar_reviews_libro. split.
  - destruct reviews as [|r rs]; [split; reflexivity|].
    destruct (features_individuales (r :: rs)) as [|f fs] eqn:E.
    + split; [intros _; unfold n; rewrite <- Hlen; reflexivity | reflexivity].
    + split; [discriminate|]. unfold n. rewrite <- Hlen. simpl. lia.
  - intros f Hf. destruct reviews as [|r rs]; [discriminate|].
    pose proof (features_sin_negativos (r :: rs)) as Hpos.
    destruct (features_individuales (r :: rs)) as [|f0 fs] eqn:E; [discriminate|].
    assert (Hn : n = Z.of_nat (List.length (f0 :: fs))) by (unfold n; lia).
    assert (Hn1 : 1 <= n) by (rewrite Hn; simpl; lia).
    assert (Hq : ~ (inject_Z n == 0)%Q).
    { intros Hz. unfold Qeq in Hz. simpl in Hz. lia. }
    assert (Hq0 : (0 < inject_Z n)%Q).
    { change 0%Q with (inject_Z 0). rewrite <- Zlt_Qlt. lia. }
    pose proof (suma_no_negativa abandono_mencionado (f0 :: fs) Hpos) as Hs.
    inversion Hf; subst f; clear Hf.
    cbv zeta. unfold puntajes, menciones.
    cbn [num_reviews_analizadas menciones_abandono menciones_engagement_positivo
      menciones_complejidad menciones_ritmo_lento menciones_emocional
      abandono_score engagement_score complejidad_score ritmo_score emocional_score].
    replace (Z.pos (Pos.of_succ_nat (List.length fs))) with n
      by (rewrite Hn; reflexivity).
    split; [reflexivity|]. split; [lia|]. split; [reflexivity|].
    split.
    { repeat (apply Forall2_cons; [field; exact Hq|]). apply Forall2_nil. }
    split; [exact Hs|].
    apply Qle_shift_div_l; [exact Hq0|]. rewrite Qmult_0_l.
    change 0%Q with (inject_Z 0). rewrite <- Zle_Qle. exact Hs.
Qed.

Lemma analizar_reviews_libro_resultado_witness :
  let reviews := [Some "DNF. gave up. boring"; None; Some ""; Some "<br>";
                  Some "gripping and fast paced"]%string in
  let f := {| num_reviews_analizadas := 3;
              abandono_score := (inject_Z 2 / inject_Z 3)%Q;
              engagement_score := (inject_Z (2 - 1) / inject_Z 3)%Q;
              complejidad_score := (inject_Z (0 - 0) / inject_Z 3)%Q;
              ritmo_score := (inject_Z (2 - 0) / inject_Z 3)%Q;
              emocional_score := (inject_Z (0 - 0) / inject_Z 3)%Q;
              menciones_abandono := 2; menciones_engagement_positivo := 2;
              menciones_complejidad := 0; menciones_ritmo_lento := 0;
              menciones_emocional := 0 |} in
  analizar_reviews_libro reviews = Some f /\
  num_reviews_analizadas f = 3 /\ 0 <= menciones_abandono f /\
  (0 <= abandono_score f)%Q.
Proof.
  intros reviews f.
  assert (E : analizar_reviews_libro reviews = Some f) by (vm_compute; reflexivity).
  split; [exact E|].
  destruct (proj2 (analizar_reviews_libro_resultado reviews) f E)
    as [H1 [_ [_ [_ [H5 H6]]]]].
  split; [exact H1|]. split; [exact H5 | exact H6].
Defined.

Lemma review_sin_contenido review :
  con_texto review = true -> limpiar_texto review = EmptyString ->
  analizar_review_individual review = Some features_cero.
Proof.
  destruct review as [[|c s]|]; try discriminate. intros _ H.
  unfold analizar_review_individual. rewrite H. reflexivity.
Qed.

Lemma suma_features_cero columna fs :
  columna features_cero = 0 -> suma columna (features_cero :: fs) = suma columna fs.
Proof. intros H. unfold suma. simpl. rewrite H. reflexivity. Qed.

(** X17. A review that is not empty but cleans to the empty text (white
    space or markup only) still counts as analysed: it adds one to the
    number of reviews and leaves the five mention counts as they are, so
    each of the five scores of the book is scaled by n/(n+1); and a book
    whose only reviews are of this kind gets features, with the five
    scores and the five mention counts 0, rather than none. *)
Theorem reviews_sin_contenido_cuentan :
  forall (review : option string) (reviews : list (option string)),
    con_texto review = true -> limpiar_texto review = EmptyString ->
    (forall f, analizar_reviews_libro reviews = Some f ->
       exists f', analizar_reviews_libro (review :: reviews) = Some f' /\
         num_reviews_analizadas f' = num_reviews_analizadas f + 1 /\
         menciones f' = menciones f /\
         Forall2 (fun puntaje' puntaje =>
                    (puntaje' * inject_Z (num_reviews_analizadas f + 1)
                       == puntaje * inject_Z (num_reviews_analizadas f))%Q)
           (puntajes f') (puntajes f)) /\
    (analizar_reviews_libro reviews = None ->
       exists f', analizar_reviews_libro (review :: reviews) = Some f' /\
         num_reviews_analizadas f' = 1 /\
         menciones f' = [0; 0; 0; 0; 0] /\
         Forall (fun puntaje => (puntaje == 0)%Q) (puntajes f')).
Proof.
  intros review reviews Hct Hl.
  pose proof (review_sin_contenido review Hct Hl) as Hz.
  split.
  - intros f Hf. unfold analizar_reviews_libro in *.
    cbn [features_individuales]. rewrite Hz.
    destruct reviews as [|r rs]; [discriminate|].
    destruct (features_individuales (r :: rs)) as [|f0 fs] eqn:E; [discriminate|].
    assert (Hn : Z.of_nat (List.length (features_cero :: f0 :: fs))
                 = Z.of_nat (List.length (f0 :: fs)) + 1)
      by (cbn [List.length]; lia).
    assert (Hp : 1 <= Z.of_nat (List.length (f0 :: fs))) by (cbn [List.length]; lia).
    remember (Z.of_nat (List.length (f0 :: fs))) as n eqn:En.
    remember (Z.of_nat (List.length (features_cero :: f0 :: fs))) as n1 eqn:En1.
    injection Hf as Hf. subst f. eexists. split; [reflexivity|].
    unfold puntajes, menciones.
    cbn [num_reviews_analizadas menciones_abandono menciones_engagement_positivo
      menciones_complejidad menciones_ritmo_lento menciones_emocional
      abandono_score engagement_score complejidad_score ritmo_score emocional_score].
    rewrite Hn.
    rewrite !(suma_features_cero _ (f0 :: fs)) by reflexivity.
    assert (Hq : ~ (inject_Z n == 0)%Q)
      by (intros Hq; unfold Qeq in Hq; simpl in Hq; lia).
    assert (Hq1 : ~ (inject_Z (n + 1) == 0)%Q)
      by (intros Hq1; unfold Qeq in Hq1; simpl in Hq1; lia).
    split; [reflexivity|]. split; [reflexivity|].
    repeat (apply Forall2_cons; [field; split; assumption|]). apply Forall2_nil.
  - intros Hn. unfold analizar_reviews_libro in *.
    cbn [features_individuales]. rewrite Hz.
    assert (E : features_individuales reviews = []).
    { destruct reviews as [|r rs]; [reflexivity|].
      destruct (features_individuales (r :: rs)); [reflexivity | discriminate]. }
    rewrite E. eexists. split; [reflexivity|].
    split; [reflexivity|]. split; [reflexivity|].
    repeat (apply Forall_cons; [reflexivity|]). apply Forall_nil.
Qed.

Lemma reviews_sin_contenido_cuentan_witness :
  con_texto (Some "<br>  <p>"%string) = true /\
  limpiar_texto (Some "<br>  <p>"%string) = EmptyString /\
  analizar_reviews_libro [Some ""%string; None] = None /\
  exists f', analizar_reviews_libro [Some "<br>  <p>"; Some ""; None]%string = Some f' /\
    num_reviews_analizadas f' = 1 /\
    menciones f' = [0; 0; 0; 0; 0] /\
    Forall (fun puntaje => (puntaje == 0)%Q) (puntajes f').
Proof.
  split; [reflexivity|]. split; [vm_compute; reflexivity|]. split; [reflexivity|].
  apply (proj2 (reviews_sin_contenido_cuentan (Some "<br>  <p>"%string)
                  [Some ""%string; None] eq_refl ltac:(vm_compute; reflexivity))).
  reflexivity.
Defined.

(** X16. The book features do not depend on the order of the reviews. *)
Theorem analizar_reviews_libro_orden :
  forall l l' : list (option string),
    Permutation l l' ->
    analizar_reviews_libro l = analizar_reviews_libro l'.
Proof.
  intros l l' Hp.
  pose proof (features_individuales_perm l l' Hp) as Hf.
  pose proof (Permutation_length Hf) as Hlen.
  unfold analizar_reviews_libro.
  destruct l as [|x l0].
  { apply Permutation_nil in Hp. subst l'. reflexivity. }
  destruct l' as [|y l0'].
  { apply Permutation_sym, Permutation_nil in Hp.
    discriminate Hp. }
  destruct (features_individuales (x :: l0)) as [|f fs] eqn:E;
    destruct (features_individuales (y :: l0')) as [|f' fs'] eqn:E';
    try discriminate Hlen; [reflexivity|].
  rewrite Hlen.
  rewrite (suma_perm abandono_mencionado _ _ Hf), (suma_perm engagement_alto _ _ Hf),
    (suma_perm engagement_bajo _ _ Hf), (suma_perm complejidad_alta _ _ Hf),
    (suma_perm lectura_facil _ _ Hf), (suma_perm ritmo_lento _ _ Hf),
    (suma_perm ritmo_rapido _ _ Hf), (suma_perm emocional_alto _ _ Hf),
    (suma_perm emocional_bajo _ _ Hf).
  reflexivity.
Qed.

Lemma analizar_reviews_libro_orden_witness :
  Permutation
    [Some "DNF. gave up"; None; Some "so gripping"]%string
    [None; Some "so gripping"; Some "DNF. gave up"]%string /\
  analizar_reviews_libro [Some "DNF. gave up"; None; Some "so gripping"]%string
    = analizar_reviews_libro [None; Some "so gripping"; Some "DNF. gave up"]%string.
Proof.
  assert (Hp : Permutation
                 [Some "DNF. gave up"; None; Some "so gripping"]%string
                 [None; Some "so gripping"; Some "DNF. gave up"]%string).
  { apply (Permutation_cons_app [None; Some "so gripping"%string] []).
    apply Permutation_refl. }
  split; [exact Hp|].
  apply (analizar_reviews_libro_orden _ _ Hp).
Defined.

End PropiedadesDelAnalizador.

(** ** The validators of the cleaning step *)

Section PropiedadesDelLimpiador.
Import Limpiador.

Lemma filter_todo {A} (p : A -> bool) (l : list A) :
  Forall (fun x => p x = true) l -> filter p l = l.
Proof.
  induction 1 as [|x l Hx _ IH]; simpl; [reflexivity|].
  rewrite Hx, IH. reflexivity.
Qed.

Lemma filter_nada {A} (p : A -> bool) (l : list A) :
  Forall (fun x => p x = false) l -> filter p l = [].
Proof.
  induction 1 as [|x l Hx _ IH]; simpl; [reflexivity|].
  rewrite Hx. exact IH.
Qed.

Lemma filter_vacio {A} (p : A -> bool) (l : list A) :
  filter p l = [] -> Forall (fun x => p x = false) l.
Proof.
  induction l as [|x l IH]; simpl; intros H; [constructor|].
  destruct (p x) eqn:E; [discriminate|]. constructor; auto.
Qed.

Lemma filter_igual {A} (p : A -> bool) (l : list A) :
  List.length (filter p l) = List.length l -> Forall (fun x => p x = true) l.
Proof.
  induction l as [|x l IH]; simpl; intros H; [constructor|].
  pose proof (filter_length_le p l) as Hle.
  destruct (p x) eqn:E; simpl in H.
  - constructor; [exact E | apply IH; lia].
  - lia.
Qed.

Lemma map_fijo {A} (f : A -> A) (l : list A) :
  Forall (fun x => f x = x) l -> map f l = l.
Proof.
  induction 1 as [|x l Hx _ IH]; simpl; [reflexivity|].
  rewrite Hx, IH. reflexivity.
Qed.

Lemma map_fijo_inv {A} (f : A -> A) (l : list A) :
  map f l = l -> Forall (fun x => f x = x) l.
Proof.
  induction l as [|x l IH]; simpl; intros H; [constructor|].
  injection H as H1 H2. constructor; auto.
Qed.

Lemma contar_filas_cero p df :
  contar_filas p df = 0 <-> Forall (fun s => p s = false) df.
Proof.
  unfold contar_filas. split.
  - intros H. apply filter_vacio.
    destruct (filter p df); [reflexivity | simpl in H; lia].
  - intros H. rewrite (filter_nada _ _ H). reflexivity.
Qed.


(** *** Progress *)

Lemma progreso_coherente_bool s :
  progreso_coherente s <->
  progreso_invalido s = false /\ pages_inconsistentes s = false.
Proof.
  unfold progreso_coherente, progreso_invalido, pages_inconsistentes.
  rewrite !Z.ltb_ge. tauto.
Qed.

Lemma validar_consistencia_progreso_fijo df :
  Forall progreso_coherente df -> validar_consistencia_progreso df = (df, 0).
Proof.
  intros H. unfold validar_consistencia_progreso.
  assert (H1 : Forall (fun s => progreso_invalido s = false) df)
    by (eapply Forall_impl; [|exact H]; intros s Hs;
        apply progreso_coherente_bool in Hs; tauto).
  assert (H2 : Forall (fun s => pages_inconsistentes s = false) df)
    by (eapply Forall_impl; [|exact H]; intros s Hs;
        apply progreso_coherente_bool in Hs; tauto).
  rewrite (filter_todo (fun s => negb (progreso_invalido s)) df)
    by (eapply Forall_impl; [|exact H1]; simpl; intros s ->; reflexivity).
  apply (proj2 (contar_filas_cero _ _)) in H1 as ->.
  pose proof (proj2 (contar_filas_cero _ _) H2) as ->.
  f_equal. apply map_fijo.
  eapply Forall_impl; [|exact H2]. simpl. intros s ->. reflexivity.
Qed.


(** *** Timestamps *)

Lemma tiempo_coherente_bool s :
  tiempo_coherente s <-> inconsistencia_temporal s = false.
Proof.
  unfold tiempo_coherente, inconsistencia_temporal, fin_antes_de_inicio.
  rewrite Bool.orb_false_iff, Z.leb_gt.
  destruct (Qlt_le_dec 5 (Qabs (duracion_real s - duration_minutes s))) as [Hq|Hq].
  - split; [intros [_ H]; exfalso; apply (Qlt_not_le _ _ Hq H)
           | intros [_ H]; discriminate].
  - tauto.
Qed.

Lemma validar_consistencia_temporal_fijo df :
  Forall tiempo_coherente df -> validar_consistencia_temporal df = (df, 0).
Proof.
  intros H. unfold validar_consistencia_temporal.
  assert (H1 : contar_filas inconsistencia_temporal df = 0).
  { apply contar_filas_cero. eapply Forall_impl; [|exact H].
    intros s. apply tiempo_coherente_bool. }
  rewrite H1. reflexivity.
Qed.



(** *** Percentages *)

Lemma pct_en_rango_bool s : pct_en_rango s <-> pct_invalido s = false.
Proof.
  unfold pct_en_rango, pct_invalido.
  destruct (Qlt_le_dec (completion_pct_start s) 0) as [H1|H1];
  destruct (Qlt_le_dec 100 (completion_pct_start s)) as [H2|H2];
  destruct (Qlt_le_dec (completion_pct_end s) 0) as [H3|H3];
  destruct (Qlt_le_dec 100 (completion_pct_end s)) as [H4|H4];
  cbn [orb]; split; try discriminate; try tauto;
  intros [? [? [? ?]]]; lra.
Qed.

Lemma clip_0_100_rango x : (0 <= clip_0_100 x)%Q /\ (clip_0_100 x <= 100)%Q.
Proof.
  unfold clip_0_100.
  destruct (Qlt_le_dec x 0); [lra|].
  destruct (Qlt_le_dec 100 x); lra.
Qed.

Lemma clip_0_100_fijo x : (0 <= x)%Q -> (x <= 100)%Q -> clip_0_100 x = x.
Proof.
  intros H0 H1. unfold clip_0_100.
  destruct (Qlt_le_dec x 0); [lra|].
  destruct (Qlt_le_dec 100 x); [lra | reflexivity].
Qed.

Lemma validar_rangos_fijo df :
  Forall pct_en_rango df -> validar_rangos df = df.
Proof.
  intros H. unfold validar_rangos. apply map_fijo.
  eapply Forall_impl; [|exact H]. intros s Hs.
  apply pct_en_rango_bool in Hs. rewrite Hs. reflexivity.
Qed.

Lemma validar_rangos_en_rango df : Forall pct_en_rango (validar_rangos df).
Proof.
  unfold validar_rangos. apply Forall_forall. intros s Hin.
  apply in_map_iff in Hin. destruct Hin as [x [Hx _]]. subst s.
  destruct (pct_invalido x) eqn:E.
  - unfold pct_en_rango. cbn [con_pct completion_pct_start completion_pct_end].
    pose proof (clip_0_100_rango (completion_pct_start x)).
    pose proof (clip_0_100_rango (completion_pct_end x)). tauto.
  - apply pct_en_rango_bool. exact E.
Qed.






(** X20. [validar_rangos] returns as many rows as it gets, with both
    completion percentages in [0, 100] and every other column as it was;
    it returns the table unchanged exactly when every percentage already
    is in [0, 100]; and a second pass over its result changes nothing. *)
Theorem validar_rangos_efecto :
  forall df,
    let out := validar_rangos df in
    Forall pct_en_rango out /\
    map sin_porcentajes out = map sin_porcentajes df /\
    (out = df <-> Forall pct_en_rango df) /\
    validar_rangos out = out.
Proof.
  intros df out.
  pose proof (validar_rangos_en_rango df) as Hc. fold out in Hc.
  split; [exact Hc|]. split; [|split].
  - unfold out, validar_rangos. rewrite map_map. apply map_ext.
    intros s. destruct (pct_invalido s); reflexivity.
  - split.
    + intros E. rewrite E in Hc. exact Hc.
    + apply validar_rangos_fijo.
  - apply validar_rangos_fijo. exact Hc.
Qed.

Lemma sesiones_generadas_coherentes :
  forall (G : Type) (RS : RandomState G) (float_of_str : string -> option pyfloat)
         secreto ahora row (g : G) ss g',
    simular_para_interaccion float_of_str secreto ahora row g = inr (ss, g') ->
    Forall (fun s => tiempo_coherente s /\ progreso_coherente s /\ pct_en_rango s) ss.
Proof.
  intros G RS fos secreto ahora row g ss g' H.
  pose proof (fin_generado G RS fos _ _ _ _ _ _ H) as Ht.
  pose proof (simular_para_interaccion_valida fos _ _ _ _ _ _ H) as Hv.
  destruct Hv as [E | [np [obj [Enp [Hv _]]]]]; [subst ss; constructor|].
  pose proof (progreso_en_rango fos _ _ _ _ _ _ _ H Enp) as Hp.
  pose proof (porcentajes_generados G RS fos _ _ _ _ _ _ _ H Enp) as Hq.
  pose proof (convertir_num_pages_min fos _ _ Enp) as Hnp.
  destruct Hv as [_ [Hc _]].
  apply Forall_forall. intros s Hin.
  rewrite Forall_forall in Ht, Hp, Hq.
  destruct (Ht s Hin) as [Hend Hd].
  destruct (add_minutes_transcurrido (session_start s) (duration_minutes s) Hd)
    as [_ [T1 [T2 _]]].
  rewrite <- Hend in T1, T2.
  destruct (Hp s Hin) as [P0 [P1 P2]].
  destruct (Hq s Hin) as [Qs Qe].
  pose proof (encadenadas_paginas ss 0 s Hc Hin) as Epag.
  split; [|split].
  - split; [lia|].
    apply Qabs_Qle_condition in T2. apply Qabs_Qle_condition.
    unfold duracion_real. unfold Qdiv in *.
    change (/ 1000000)%Q with (1 # 1000000)%Q.
    change (/ 60)%Q with (1 # 60)%Q.
    split; lra.
  - split; [exact P1|]. rewrite Epag. lia.
  - unfold pct_en_rango. rewrite Qs, Qe.
    destruct (porcentaje_en_rango (progress_start s) np ltac:(lia) ltac:(lia)).
    destruct (porcentaje_en_rango (progress_end s) np ltac:(lia) ltac:(lia)).
    tauto.
Qed.

Lemma lote_coherente :
  forall (G : Type) (RS : RandomState G) (float_of_str : string -> option pyfloat)
         secreto data (g : G) todas g',
    generar_todas_sesiones float_of_str secreto data g = inr (todas, g') ->
    Forall (fun s => tiempo_coherente s /\ progreso_coherente s /\ pct_en_rango s)
      todas.
Proof.
  intros G RS fos secreto data g todas g' H.
  destruct (generar_todas_concat fos secreto data g todas g' H) as [salidas [Hc Hf]].
  subst todas. clear H. induction Hf as [|d ss data' salidas' Hd Hf IH].
  - constructor.
  - simpl. apply Forall_app. split; [|exact IH].
    destruct Hd as [g1 [g2 Hs]].
    exact (sesiones_generadas_coherentes G RS fos _ _ _ _ _ _ Hs).
Qed.

(** X21. The table of sessions the batch loop generates passes the three
    validators of the cleaning step untouched: each of them returns the
    table as it is, and the two consistency validators count no
    inconsistency. *)
Theorem sesiones_generadas_pasan_validacion :
  forall (G : Type) (RS : RandomState G) (float_of_str : string -> option pyfloat)
         secreto data (g : G) todas g',
    generar_todas_sesiones float_of_str secreto data g = inr (todas, g') ->
    validar_consistencia_temporal todas = (todas, 0) /\
    validar_consistencia_progreso todas = (todas, 0) /\
    validar_rangos todas = todas.
Proof.
  intros G RS fos secreto data g todas g' H.
  pose proof (lote_coherente G RS fos _ _ _ _ _ H) as Hc.
  split; [|split].
  - apply validar_consistencia_temporal_fijo.
    eapply Forall_impl; [|exact Hc]. simpl. tauto.
  - apply validar_consistencia_progreso_fijo.
    eapply Forall_impl; [|exact Hc]. simpl. tauto.
  - apply validar_rangos_fijo.
    eapply Forall_impl; [|exact Hc]. simpl. tauto.
Qed.

Lemma sesiones_generadas_pasan_validacion_witness :
  generar_todas_sesiones float_decimal secreto_1
    [(ahora_ejemplo, fila_medio)] cinta_medio
    = inr (sesiones_medio, cinta_de corrida_medio) /\
  validar_consistencia_temporal sesiones_medio = (sesiones_medio, 0) /\
  validar_consistencia_progreso sesiones_medio = (sesiones_medio, 0) /\
  validar_rangos sesiones_medio = sesiones_medio.
Proof.
  split; [vm_compute; reflexivity|].
  apply (sesiones_generadas_pasan_validacion cinta RandomState_cinta float_decimal
           secreto_1 [(ahora_ejemplo, fila_medio)] cinta_medio
           sesiones_medio (cinta_de corrida_medio)).
  vm_compute. reflexivity.
Defined.

End PropiedadesDelLimpiador.
